(** * Transactional inventory and sales ledger of [pharmacy.py]

    A shallow embedding of the ledger core of the pharmacy application:
    the catalog operations [add_product], [update_product] and
    [delete_product], the stock adjustment [adjust_stock], the invoice
    sequencer [generate_invoice], and the sale path [record_sale] /
    [undo_sale], with the properties of the ledger proved about them.

    Modelling choices.
    - The three tables [products], [sales] and [stock_adjustments] are lists
      of rows in insertion order; an UPDATE or DELETE with a WHERE clause
      acts on every matching row, a SELECT ... fetchone() returns the first.
      Each table carries the counter of its AUTOINCREMENT key.
    - INTEGER columns and Python ints are [Z]: quantities are taken to stay
      within SQLite's 64-bit range.  REAL columns and Python floats are
      IEEE-754 binary64 values ([spec_float] at precision 53); SQLite stores a
      NaN as NULL, which a NOT NULL column refuses.
    - Strings are sequences of code points below 256.
    - A connection carries the last committed database and the working copy
      seen by its cursors.  A write changes the working copy; [commit] and
      [rollback] align the two; [with conn:] commits on normal exit and rolls
      back on an exception, as the sqlite3 module does.
    - Exceptions are values of [error], one constructor per raise site; a
      raise keeps the connection as the statements before it left it.
    - [date.today()] is an argument of [generate_invoice].
    - The timestamp columns (created_at, sold_at, adjusted_at) are left out:
      no operation of the ledger reads them.

    Beside the ledger the file embeds the functions on the tables
    [categories] and [users], [init_db] with its sample data, and the
    "Add to Cart" handler of [sales_page].
    - These functions run on a [Session], a connection to the whole file:
      the ledger with the two further tables.  A statement that a UNIQUE
      constraint refuses raises and writes nothing.
    - bcrypt is not interpreted: the hash that [hash_password] returned is an
      argument of the functions that store one.
    - [prod_map], the dict of the sales page, is a function from names to
      entries; how the page fills it from a DataFrame is not modelled.

    The operations are modelled on one connection.  Where a second session
    matters, its call is run whole on a connection of its own, at a point
    where the first connection has no write pending ([meanwhile]). *)

From Stdlib Require Import ZArith List String Ascii Bool Lia.
From Stdlib Require Import SpecFloat DecimalString.
From Stdlib Require Import Permutation.
Import ListNotations.
Open Scope Z_scope.

(** ** Python floats *)

Module PyFloat.

Definition prec : Z := 53.
Definition emax : Z := 1024.

Definition float := spec_float.

Definition zero : float := S754_zero false.

Definition fadd : float -> float -> float := SFadd prec emax.
Definition fsub : float -> float -> float := SFsub prec emax.
Definition fmul : float -> float -> float := SFmul prec emax.
Definition fltb : float -> float -> bool := SFltb.

Definition is_nan (x : float) : bool :=
  match x with S754_nan => true | _ => false end.

(** Conversion of a Python int in a mixed int/float operation: the nearest
    double, ties to even; an int beyond the range raises OverflowError
    ([None] here). *)
Definition float_of_int (n : Z) : option float :=
  match binary_normalize prec emax n 0 false with
  | S754_infinity _ => None
  | f => Some f
  end.

(** The double nearest to [n / d], with sign [s]; the value of a decimal
    literal such as 5.995 is [of_ratio false 5995 1000]. *)
Definition of_ratio (s : bool) (n : Z) (d : positive) : float :=
  match n with
  | Zpos p => SFdiv prec emax (S754_finite s p 0) (S754_finite false d 0)
  | _ => S754_zero s
  end.

Definition round_half_even (num : Z) (den : positive) : Z :=
  let (q, r) := Z.div_eucl num (Zpos den) in
  match Z.compare (2 * r) (Zpos den) with
  | Lt => q
  | Gt => q + 1
  | Eq => if Z.even q then q else q + 1
  end.

(** [|x| * 100] for [x = m * 2^e], rounded to an integer, ties to even. *)
Definition hundredths (m : positive) (e : Z) : Z :=
  match e with
  | Zneg k => round_half_even (Zpos m * 100) (Pos.pow 2 k)
  | _ => Zpos m * 100 * 2 ^ e
  end.

(** [round(x, 2)]: the exact binary value is rounded to two decimal places,
    ties to even, and the decimal result is converted back to the nearest
    double; infinities and NaN round to themselves and the sign of a value
    that rounds to zero is kept. *)
Definition round2 (x : float) : float :=
  match x with
  | S754_finite s m e => of_ratio s (hundredths m e) 100
  | _ => x
  end.

(** [sum(totals)] over floats: the accumulator starts at the int 0 and the
    items are added from left to right.  This is the sum of CPython up to
    3.11; later versions carry a compensation term, which is zero as long as
    the additions are exact. *)
Definition py_sum (l : list float) : float := fold_left fadd l zero.

End PyFloat.
Import PyFloat.

(** ** Python strings and SQL text *)

Module PyStr.

Open Scope string_scope.

(** [str.isspace] on the code points below 256. *)
Definition is_space (c : ascii) : bool :=
  let n := N_of_ascii c in
  (((9 <=? n) && (n <=? 13)) || ((28 <=? n) && (n <=? 32))
   || (n =? 133) || (n =? 160))%N.

Fixpoint lstrip (s : string) : string :=
  match s with
  | EmptyString => EmptyString
  | String c s' => if is_space c then lstrip s' else s
  end.

Fixpoint rstrip (s : string) : string :=
  match s with
  | EmptyString => EmptyString
  | String c s' =>
      match rstrip s' with
      | EmptyString => if is_space c then EmptyString else String c EmptyString
      | r => String c r
      end
  end.

Definition strip (s : string) : string := rstrip (lstrip s).

(** [s or None] for a string [s]. *)
Definition or_none (s : string) : option string :=
  match s with EmptyString => None | _ => Some s end.

(** [str(n)] for an int. *)
Definition str_int (n : Z) : string := NilZero.string_of_int (Z.to_int n).

Fixpoint zeros (n : nat) : string :=
  match n with O => EmptyString | S n' => String "0" (zeros n') end.

(** Zero padding on the left up to [width] characters. *)
Definition zfill (width : nat) (s : string) : string :=
  zeros (width - String.length s)%nat ++ s.

(** The format specifications [{n:03d}] and [%y], [%m], [%d]. *)
Definition format_03d (n : Z) : string :=
  if (n <? 0)%Z then "-" ++ zfill 2 (str_int (Z.abs n)) else zfill 3 (str_int n).

Definition format_02d (n : Z) : string := zfill 2 (str_int n).

(** ASCII case folding, as SQLite's LIKE applies it. *)
Definition upper (c : ascii) : ascii :=
  let n := N_of_ascii c in
  if ((97 <=? n) && (n <=? 122))%N then ascii_of_N (n - 32) else c.

Definition eqb_nocase (c d : ascii) : bool := Ascii.eqb (upper c) (upper d).

(** [s LIKE p] with SQLite's defaults: [%] matches any run of characters,
    [_] any one character, any other character matches itself up to ASCII
    case; there is no escape character. *)
Fixpoint like (p : string) : string -> bool :=
  match p with
  | EmptyString => fun s => match s with EmptyString => true | _ => false end
  | String c p' =>
      if Ascii.eqb c "%" then
        fix any (s : string) : bool :=
          like p' s || match s with
                       | EmptyString => false
                       | String _ s' => any s'
                       end
      else if Ascii.eqb c "_" then
        fun s => match s with
                 | EmptyString => false
                 | String _ s' => like p' s'
                 end
      else
        fun s => match s with
                 | EmptyString => false
                 | String d s' => eqb_nocase c d && like p' s'
                 end
  end.

(** [s] starts with [p], up to ASCII case. *)
Fixpoint prefix_nocase (p s : string) : bool :=
  match p, s with
  | EmptyString, _ => true
  | String c p', String d s' => eqb_nocase c d && prefix_nocase p' s'
  | String _ _, EmptyString => false
  end.

End PyStr.
Import PyStr.

(** ** Tables *)

Record Product := {
  p_id : Z;
  p_name : string;
  p_category_id : option Z;
  p_quantity : Z;
  p_price : float;
  p_cost : float;
  p_reorder_level : Z;
  p_supplier : option string;
  p_expiry_date : option string
}.

Record Sale := {
  s_id : Z;
  s_invoice : string;
  s_product_id : Z;
  s_qty : Z;
  s_unit_price : float;
  s_unit_cost : float;
  s_discount : float;
  s_total : float;
  s_sold_by : option Z
}.

Record Adjustment := {
  a_id : Z;
  a_product_id : Z;
  a_adjustment_qty : Z;
  a_reason : string;
  a_adjusted_by : option Z
}.

(** The database: the three tables and, for each, the AUTOINCREMENT counter
    that sqlite_sequence keeps. *)
Record DB := {
  products : list Product;
  sales : list Sale;
  stock_adjustments : list Adjustment;
  seq_products : Z;
  seq_sales : Z;
  seq_stock_adjustments : Z
}.

Record Conn := {
  committed : DB;
  working : DB
}.

(** One line item of a cart, the dict that [record_sale] reads. *)
Record Item := {
  i_product_id : Z;
  i_product_name : option string;
  i_qty : Z;
  i_unit_price : float;
  i_unit_cost : float;
  i_discount : float
}.

(** ** Exceptions *)

Inductive error : Type :=
| EmptyProductName                 (* "Product name cannot be empty" *)
| NegativeField                    (* "Price, cost, quantity, and reorder
                                      level must be non-negative" *)
| DatabaseErrorDuringAdd           (* "Database error during product add: ..." *)
| IntegrityError                   (* sqlite3.IntegrityError: NOT NULL refused *)
| OverflowError                    (* "int too large to convert to float" *)
| ProductWithIdNotFound (product_id : Z)  (* "Product with ID ... not found." *)
| SalesHistoryExists               (* "Cannot delete product with associated
                                      sales history." *)
| ProductIdNotFound                (* "Product ID not found." *)
| ZeroAdjustment                   (* "Adjustment quantity cannot be zero" *)
| ReasonRequired                   (* "Reason for adjustment is required" *)
| ProductNotFound                  (* "Product not found" *)
| BelowZero (current_qty adj_qty : Z)   (* "Cannot adjust stock below zero ..." *)
| EmptySale                        (* "Cannot record an empty sale." *)
| QuantityNotPositive (name : string)     (* "Quantity must be positive for ..." *)
| NegativeTotal (name : string)    (* "Total sale amount cannot be negative
                                      for ..." *)
| SaleProductNotFound (product_id : Z)    (* "Product ID ... not found" *)
| OnlyAvailable (avail : Z) (name : string)  (* "Only ... units available for ..." *)
| NoSalesFound (invoice : string)  (* "No sales found for invoice ..." *)
| SaleDeletionFailed (invoice : string). (* "Sale deletion failed for ..." *)

(** The kinds of failure of the ledger's contracts.  The source raises
    ValueError at every site; the kind is read off the raise site. *)
Inductive error_kind : Type :=
| InvalidArgument | NotFound | InsufficientStock | Conflict | StorageFailure.

Definition kind_of (e : error) : error_kind :=
  match e with
  | EmptyProductName | NegativeField | ZeroAdjustment | ReasonRequired
  | EmptySale | QuantityNotPositive _ | NegativeTotal _ | OverflowError =>
      InvalidArgument
  | ProductWithIdNotFound _ | ProductIdNotFound | ProductNotFound
  | SaleProductNotFound _ | NoSalesFound _ => NotFound
  | BelowZero _ _ | OnlyAvailable _ _ => InsufficientStock
  | SalesHistoryExists => Conflict
  | DatabaseErrorDuringAdd | IntegrityError | SaleDeletionFailed _ => StorageFailure
  end.

(** ** Computations on a connection *)

Inductive result (A : Type) : Type :=
| Ok (a : A)
| Raise (e : error).
Arguments Ok {A} a.
Arguments Raise {A} e.

(** A Python function taking [conn]: it may change the connection's state and
    either returns or raises; the state survives a raise. *)
Definition Py (A : Type) : Type := Conn -> Conn * result A.

Definition ret {A} (a : A) : Py A := fun c => (c, Ok a).

Definition raise {A} (e : error) : Py A := fun c => (c, Raise e).

Definition bind {A B} (m : Py A) (k : A -> Py B) : Py B :=
  fun c => match m c with
           | (c', Ok a) => k a c'
           | (c', Raise e) => (c', Raise e)
           end.

Notation "'let*' x ':=' m 'in' k" := (bind m (fun x => k))
  (at level 10, x name, m at level 100, k at level 200).
Notation "m ';;' k" := (bind m (fun _ => k))
  (at level 100, k at level 200, right associativity).

(** A SELECT reads the working copy; an INSERT, UPDATE or DELETE changes it. *)
Definition query {A} (q : DB -> A) : Py A := fun c => (c, Ok (q (working c))).

Definition execute (f : DB -> DB) : Py unit :=
  fun c => ({| committed := committed c; working := f (working c) |}, Ok tt).

Definition commit : Py unit :=
  fun c => ({| committed := working c; working := working c |}, Ok tt).

Definition rollback : Py unit :=
  fun c => ({| committed := committed c; working := committed c |}, Ok tt).

(** [with conn: body]. *)
Definition with_conn {A} (body : Py A) : Py A :=
  fun c => match body c with
           | (c', Ok a) => (fst (commit c'), Ok a)
           | (c', Raise e) => (fst (rollback c'), Raise e)
           end.

(** [try: body except ... as e: handler e]. *)
Definition try_except {A} (body : Py A) (handler : error -> Py A) : Py A :=
  fun c => match body c with
           | (c', Ok a) => (c', Ok a)
           | (c', Raise e) => handler e c'
           end.

(** ** SQL statements *)

Open Scope string_scope.
Open Scope list_scope.
Open Scope Z_scope.

(** The rowid an AUTOINCREMENT table gives to a new row: one more than the
    largest rowid the table has ever held. *)
Definition max_rowid (ids : list Z) : Z := fold_right Z.max 0 ids.

Definition next_rowid (seq : Z) (ids : list Z) : Z :=
  Z.max seq (max_rowid ids) + 1.

Definition set_quantity (q : Z) (p : Product) : Product :=
  {| p_id := p_id p; p_name := p_name p; p_category_id := p_category_id p;
     p_quantity := q; p_price := p_price p; p_cost := p_cost p;
     p_reorder_level := p_reorder_level p; p_supplier := p_supplier p;
     p_expiry_date := p_expiry_date p |}.

Definition with_products (f : list Product -> list Product) (db : DB) : DB :=
  {| products := f (products db); sales := sales db;
     stock_adjustments := stock_adjustments db;
     seq_products := seq_products db; seq_sales := seq_sales db;
     seq_stock_adjustments := seq_stock_adjustments db |}.

Definition with_sales (f : list Sale -> list Sale) (db : DB) : DB :=
  {| products := products db; sales := f (sales db);
     stock_adjustments := stock_adjustments db;
     seq_products := seq_products db; seq_sales := seq_sales db;
     seq_stock_adjustments := seq_stock_adjustments db |}.

Definition with_stock_adjustments
    (f : list Adjustment -> list Adjustment) (db : DB) : DB :=
  {| products := products db; sales := sales db;
     stock_adjustments := f (stock_adjustments db);
     seq_products := seq_products db; seq_sales := seq_sales db;
     seq_stock_adjustments := seq_stock_adjustments db |}.

(** SELECT * FROM products WHERE id=? and fetchone(). *)
Definition select_product (product_id : Z) (db : DB) : option Product :=
  find (fun p => p_id p =? product_id) (products db).

(** SELECT COUNT( * ) FROM sales WHERE product_id=? *)
Definition count_sales_of (product_id : Z) (db : DB) : Z :=
  Z.of_nat (List.length (filter (fun s => s_product_id s =? product_id) (sales db))).

(** SELECT product_id, qty FROM sales WHERE invoice = ? *)
Definition select_invoice_lines (invoice : string) (db : DB) : list (Z * Z) :=
  map (fun s => (s_product_id s, s_qty s))
      (filter (fun s => String.eqb (s_invoice s) invoice) (sales db)).

(** SELECT COUNT(DISTINCT invoice) FROM sales WHERE invoice LIKE ? *)
Definition count_distinct_invoices_like (pattern : string) (db : DB) : Z :=
  Z.of_nat (List.length (nodup string_dec
                      (filter (like pattern) (map s_invoice (sales db))))).

(** INSERT INTO products (...) VALUES (...); the result is cur.lastrowid.
    SQLite stores a NaN as NULL, which the NOT NULL columns refuse. *)
Definition insert_product (name : string) (category_id : option Z)
    (quantity : Z) (price cost : float) (reorder_level : Z)
    (supplier expiry_date : option string) : Py Z :=
  fun c =>
    if is_nan price || is_nan cost then (c, Raise IntegrityError)
    else
      let db := working c in
      let rowid := next_rowid (seq_products db) (map p_id (products db)) in
      let row := {| p_id := rowid; p_name := name; p_category_id := category_id;
                    p_quantity := quantity; p_price := price; p_cost := cost;
                    p_reorder_level := reorder_level; p_supplier := supplier;
                    p_expiry_date := expiry_date |} in
      ({| committed := committed c;
          working := {| products := products db ++ [row]; sales := sales db;
                        stock_adjustments := stock_adjustments db;
                        seq_products := rowid; seq_sales := seq_sales db;
                        seq_stock_adjustments := seq_stock_adjustments db |} |},
       Ok rowid).

(** INSERT INTO stock_adjustments (product_id, adjustment_qty, reason,
    adjusted_by) VALUES (?, ?, ?, ?) *)
Definition insert_adjustment (product_id adjustment_qty : Z) (reason : string)
    (adjusted_by : option Z) : Py unit :=
  execute (fun db =>
    let rowid := next_rowid (seq_stock_adjustments db)
                            (map a_id (stock_adjustments db)) in
    let row := {| a_id := rowid; a_product_id := product_id;
                  a_adjustment_qty := adjustment_qty; a_reason := reason;
                  a_adjusted_by := adjusted_by |} in
    {| products := products db; sales := sales db;
       stock_adjustments := stock_adjustments db ++ [row];
       seq_products := seq_products db; seq_sales := seq_sales db;
       seq_stock_adjustments := rowid |}).

(** INSERT INTO sales (invoice, product_id, qty, unit_price, unit_cost,
    discount, total, sold_by, sold_at) VALUES (...) *)
Definition insert_sale (invoice : string) (product_id qty : Z)
    (unit_price unit_cost per_unit_discount final_total : float)
    (sold_by : option Z) : Py unit :=
  fun c =>
    if is_nan unit_price || is_nan unit_cost || is_nan per_unit_discount
       || is_nan final_total
    then (c, Raise IntegrityError)
    else
      execute (fun db =>
        let rowid := next_rowid (seq_sales db) (map s_id (sales db)) in
        let row := {| s_id := rowid; s_invoice := invoice;
                      s_product_id := product_id; s_qty := qty;
                      s_unit_price := unit_price; s_unit_cost := unit_cost;
                      s_discount := per_unit_discount; s_total := final_total;
                      s_sold_by := sold_by |} in
        {| products := products db; sales := sales db ++ [row];
           stock_adjustments := stock_adjustments db;
           seq_products := seq_products db; seq_sales := rowid;
           seq_stock_adjustments := seq_stock_adjustments db |}) c.

(** UPDATE products SET quantity = f(quantity) WHERE id=? *)
Definition update_quantity_where (product_id : Z) (f : Z -> Z) (db : DB) : DB :=
  with_products
    (map (fun p => if p_id p =? product_id
                   then set_quantity (f (p_quantity p)) p else p)) db.

(** UPDATE products SET name=?, category_id=?, price=?, cost=?, quantity=?,
    reorder_level=?, supplier=?, expiry_date=? WHERE id=? *)
Definition update_product_row (product_id : Z) (name : string)
    (category_id : option Z) (price cost : float)
    (quantity reorder_level : Z) (supplier expiry_date : option string)
    : Py unit :=
  fun c =>
    if (is_nan price || is_nan cost)
       && existsb (fun p => p_id p =? product_id) (products (working c))
    then (c, Raise IntegrityError)
    else
      execute (with_products
        (map (fun p =>
                if p_id p =? product_id
                then {| p_id := p_id p; p_name := name;
                        p_category_id := category_id; p_quantity := quantity;
                        p_price := price; p_cost := cost;
                        p_reorder_level := reorder_level;
                        p_supplier := supplier;
                        p_expiry_date := expiry_date |}
                else p))) c.

(** DELETE FROM stock_adjustments WHERE product_id=? *)
Definition delete_adjustments_where (product_id : Z) (db : DB) : DB :=
  with_stock_adjustments
    (filter (fun a => negb (a_product_id a =? product_id))) db.

(** DELETE FROM products WHERE id=?; the result is cur.rowcount. *)
Definition delete_products_where (product_id : Z) : Py Z :=
  let* n := query (fun db =>
              Z.of_nat (List.length (filter (fun p => p_id p =? product_id)
                                       (products db)))) in
  execute (with_products (filter (fun p => negb (p_id p =? product_id)))) ;;
  ret n.

(** DELETE FROM sales WHERE invoice = ?; the result is cur.rowcount. *)
Definition delete_sales_where (invoice : string) : Py Z :=
  let* n := query (fun db =>
              Z.of_nat (List.length (filter (fun s => String.eqb (s_invoice s) invoice)
                                       (sales db)))) in
  execute (with_sales
             (filter (fun s => negb (String.eqb (s_invoice s) invoice)))) ;;
  ret n.

(** ** The operations of the ledger *)

(** Fetches a single product by id. *)
Definition get_product (product_id : Z) : Py (option Product) :=
  query (select_product product_id).

(** Adds a new product and records the initial stock as a stock adjustment.
    The check that [category_id] is an int or None is met by its type. *)
Definition add_product (name : string) (category_id : option Z) (quantity : Z)
    (price cost : float) (reorder_level : Z) (supplier : string)
    (expiry_date : option string) : Py Z :=
  if String.eqb (strip name) "" then raise EmptyProductName
  else if fltb price zero || fltb cost zero
          || (quantity <? 0) || (reorder_level <? 0)
  then raise NegativeField
  else
    try_except
      (with_conn
         (let* product_id :=
            insert_product (strip name) category_id quantity price cost
                           reorder_level (or_none (strip supplier)) expiry_date in
          (if 0 <? quantity
           then insert_adjustment product_id quantity "Initial Stock Entry" None
           else ret tt) ;;
          ret product_id))
      (fun e => match e with
                | IntegrityError => raise DatabaseErrorDuringAdd
                | _ => raise e
                end).

(** Updates the details of a product; a change of the quantity is logged as
    an adjustment by the difference. *)
Definition update_product (product_id : Z) (name : string)
    (category_id : option Z) (price cost : float)
    (new_quantity reorder_level : Z) (supplier : string)
    (expiry_date : option string) (adjusted_by : option Z) : Py unit :=
  if String.eqb (strip name) "" then raise EmptyProductName
  else if fltb price zero || fltb cost zero
          || (new_quantity <? 0) || (reorder_level <? 0)
  then raise NegativeField
  else
    let* row := get_product product_id in
    match row with
    | None => raise (ProductWithIdNotFound product_id)
    | Some r =>
        let current_quantity := p_quantity r in
        let adjustment_qty := new_quantity - current_quantity in
        with_conn
          (update_product_row product_id (strip name) category_id price cost
                              new_quantity reorder_level
                              (or_none (strip supplier)) expiry_date ;;
           if adjustment_qty =? 0 then ret tt
           else insert_adjustment product_id adjustment_qty
                  ("Manual Edit/Correction (New Qty: "
                   ++ str_int new_quantity ++ ")")%string
                  adjusted_by) ;;
        commit
    end.

(** Deletes a product, unless sales reference it, after its stock
    adjustments.  The function opens no [with conn:] block: its writes are
    committed by the final [commit] only. *)
Definition delete_product (product_id : Z) : Py unit :=
  let* cnt := query (count_sales_of product_id) in
  if 0 <? cnt then raise SalesHistoryExists
  else
    execute (delete_adjustments_where product_id) ;;
    let* rowcount := delete_products_where product_id in
    if rowcount =? 0 then raise ProductIdNotFound
    else commit.

(** Adjusts the stock of a product and records the adjustment. *)
Definition adjust_stock (product_id adj_qty : Z) (reason : string)
    (adjusted_by : option Z) : Py unit :=
  if adj_qty =? 0 then raise ZeroAdjustment
  else if String.eqb (strip reason) "" then raise ReasonRequired
  else
    let* row := get_product product_id in
    match row with
    | None => raise ProductNotFound
    | Some r =>
        let current_qty := p_quantity r in
        let new_qty := current_qty + adj_qty in
        if new_qty <? 0 then raise (BelowZero current_qty adj_qty)
        else
          with_conn
            (execute (update_quantity_where product_id (fun _ => new_qty)) ;;
             insert_adjustment product_id adj_qty (strip reason) adjusted_by)
    end.

(** The day of [date.today()], an input of [generate_invoice]. *)
Record date := { year : Z; month : Z; day : Z }.

(** [strftime("%y%m%d")]. *)
Definition strftime_ymd (d : date) : string :=
  (format_02d (year d mod 100) ++ format_02d (month d) ++ format_02d (day d))%string.

(** Generates a sequential invoice number for the current day. *)
Definition generate_invoice (today : date) : Py string :=
  let today_str := strftime_ymd today in
  let like_pattern := ("INV-" ++ today_str ++ "-%")%string in
  let* n := query (count_distinct_invoices_like like_pattern) in
  let count := n + 1 in
  ret ("INV-" ++ today_str ++ "-" ++ format_03d count)%string.

(** [round(qty * (unit_price - per_unit_discount), 2)]; the int [qty] is
    converted to a float for the product, which raises OverflowError ([None])
    when it is out of range. *)
Definition final_total_of (qty : Z) (unit_price per_unit_discount : float)
    : option float :=
  match float_of_int qty with
  | None => None
  | Some fqty => Some (round2 (fmul fqty (fsub unit_price per_unit_discount)))
  end.

(** The body of the loop of [record_sale] for one item; its result is the
    line total appended to [totals]. *)
Definition sale_line (invoice : string) (sold_by : option Z) (item : Item)
    : Py float :=
  let product_id := i_product_id item in
  let qty := i_qty item in
  let unit_price := i_unit_price item in
  let unit_cost := i_unit_cost item in
  let name := match i_product_name item with
              | Some n => n
              | None => "Unknown"
              end in
  let per_unit_discount := round2 (i_discount item) in
  match final_total_of qty unit_price per_unit_discount with
  | None => raise OverflowError
  | Some final_total =>
      if qty <=? 0 then raise (QuantityNotPositive name)
      else if fltb final_total zero then raise (NegativeTotal name)
      else
        let* row := query (select_product product_id) in
        match row with
        | None => raise (SaleProductNotFound product_id)
        | Some r =>
            let avail := p_quantity r in
            if avail <? qty then raise (OnlyAvailable avail name)
            else
              insert_sale invoice product_id qty unit_price unit_cost
                          per_unit_discount final_total sold_by ;;
              execute (update_quantity_where product_id (fun q => q - qty)) ;;
              ret final_total
        end
  end.

Fixpoint sale_lines (invoice : string) (sold_by : option Z)
    (items : list Item) (totals : list float) : Py (list float) :=
  match items with
  | [] => ret totals
  | item :: rest =>
      let* final_total := sale_line invoice sold_by item in
      sale_lines invoice sold_by rest (totals ++ [final_total])
  end.

(** Records the items of a sale under a single invoice in one transaction;
    the result is the sum of the line totals. *)
Definition record_sale (invoice : string) (items : list Item)
    (sold_by : option Z) : Py float :=
  match items with
  | [] => raise EmptySale
  | _ :: _ =>
      let* totals :=
        try_except (with_conn (sale_lines invoice sold_by items []))
                   (fun e => rollback ;; raise e) in
      ret (py_sum totals)
  end.

(** The loop of [undo_sale] over the fetched rows. *)
Fixpoint restore_stock (lines : list (Z * Z)) : Py unit :=
  match lines with
  | [] => ret tt
  | (product_id, qty) :: rest =>
      execute (update_quantity_where product_id (fun q => q + qty)) ;;
      restore_stock rest
  end.

(** Reverses a sale by invoice number, restoring the stock; [sold_by] is
    not used. *)
Definition undo_sale (invoice : string) (sold_by : option Z) : Py unit :=
  let* sales_rows := query (select_invoice_lines invoice) in
  match sales_rows with
  | [] => raise (NoSalesFound invoice)
  | _ :: _ =>
      with_conn
        (restore_stock sales_rows ;;
         let* rowcount := delete_sales_where invoice in
         if rowcount =? 0 then raise (SaleDeletionFailed invoice) else ret tt) ;;
      commit
  end.

(** ** Running operations *)

Definition empty_db : DB :=
  {| products := []; sales := []; stock_adjustments := [];
     seq_products := 0; seq_sales := 0; seq_stock_adjustments := 0 |}.

Definition fresh_conn (db : DB) : Conn := {| committed := db; working := db |}.

(** No write is pending on the connection. *)
Definition quiescent (c : Conn) : Prop := working c = committed c.

(** A call of one of the six operations that write to the ledger. *)
Inductive call : Type :=
| AddProduct (name : string) (category_id : option Z) (quantity : Z)
    (price cost : float) (reorder_level : Z) (supplier : string)
    (expiry_date : option string)
| UpdateProduct (product_id : Z) (name : string) (category_id : option Z)
    (price cost : float) (new_quantity reorder_level : Z) (supplier : string)
    (expiry_date : option string) (adjusted_by : option Z)
| AdjustStock (product_id adj_qty : Z) (reason : string)
    (adjusted_by : option Z)
| RecordSale (invoice : string) (items : list Item) (sold_by : option Z)
| UndoSale (invoice : string) (sold_by : option Z)
| DeleteProduct (product_id : Z).

(** The connection after the call has returned or raised. *)
Definition perform (op : call) (c : Conn) : Conn :=
  match op with
  | AddProduct name category_id quantity price cost reorder_level supplier
               expiry_date =>
      fst (add_product name category_id quantity price cost reorder_level
                       supplier expiry_date c)
  | UpdateProduct product_id name category_id price cost new_quantity
                  reorder_level supplier expiry_date adjusted_by =>
      fst (update_product product_id name category_id price cost new_quantity
                          reorder_level supplier expiry_date adjusted_by c)
  | AdjustStock product_id adj_qty reason adjusted_by =>
      fst (adjust_stock product_id adj_qty reason adjusted_by c)
  | RecordSale invoice items sold_by => fst (record_sale invoice items sold_by c)
  | UndoSale invoice sold_by => fst (undo_sale invoice sold_by c)
  | DeleteProduct product_id => fst (delete_product product_id c)
  end.

(** The states the operations produce from an empty database. *)
Inductive reachable : Conn -> Prop :=
| reachable_empty : reachable (fresh_conn empty_db)
| reachable_perform (op : call) (c : Conn) :
    reachable c -> reachable (perform op c).

(** ** Two sessions on one database file *)

(** Every run of [main] opens a connection of its own on the file of the
    database and closes it at its end, and the runs of two users are two
    threads.  The sqlite3 module opens a transaction before an INSERT, UPDATE
    or DELETE only, and [with conn:] opens none: a connection on which no
    write is pending holds no lock once the rows of its SELECT have been
    fetched, and its next statement reads the file as the last commit of any
    connection left it.  Once a write is pending the file is locked against
    the writes of the others, so a call of another session falls before the
    first write of an operation or after its commit. *)

(** The file after a session has made the call [m] on a connection of its own
    and closed it: what the call did not commit is lost. *)
Definition session {A} (m : Py A) (file : DB) : DB :=
  committed (fst (m (fresh_conn file))).

(** The call [other] of a second session, run from its start to its end
    between two statements of this connection, on which no write is pending:
    this connection goes on from the file that [other] left. *)
Definition meanwhile {A} (other : Py A) : Py unit :=
  fun c => (fresh_conn (session other (committed c)), Ok tt).

(** The body of the loop of [record_sale] for one item, as in [sale_line],
    with [between] run after the stock check and before the INSERT. *)
Definition sale_line_with (between : Py unit) (invoice : string)
    (sold_by : option Z) (item : Item) : Py float :=
  let product_id := i_product_id item in
  let qty := i_qty item in
  let unit_price := i_unit_price item in
  let unit_cost := i_unit_cost item in
  let name := match i_product_name item with
              | Some n => n
              | None => "Unknown"
              end in
  let per_unit_discount := round2 (i_discount item) in
  match final_total_of qty unit_price per_unit_discount with
  | None => raise OverflowError
  | Some final_total =>
      if qty <=? 0 then raise (QuantityNotPositive name)
      else if fltb final_total zero then raise (NegativeTotal name)
      else
        let* row := query (select_product product_id) in
        match row with
        | None => raise (SaleProductNotFound product_id)
        | Some r =>
            let avail := p_quantity r in
            if avail <? qty then raise (OnlyAvailable avail name)
            else
              between ;;
              insert_sale invoice product_id qty unit_price unit_cost
                          per_unit_discount final_total sold_by ;;
              execute (update_quantity_where product_id (fun q => q - qty)) ;;
              ret final_total
        end
  end.

(** [record_sale] with [between] run in the first turn of its loop, while no
    write of the sale is pending yet. *)
Definition record_sale_with (between : Py unit) (invoice : string)
    (items : list Item) (sold_by : option Z) : Py float :=
  match items with
  | [] => raise EmptySale
  | item :: rest =>
      let* totals :=
        try_except
          (with_conn
             (let* final_total := sale_line_with between invoice sold_by item in
              sale_lines invoice sold_by rest ([] ++ [final_total])))
          (fun e => rollback ;; raise e) in
      ret (py_sum totals)
  end.

(** ** Ledger sums and constraints of the schema *)

Definition sum_Z (l : list Z) : Z := fold_right Z.add 0 l.

(** The sum of the adjustment deltas recorded for a product. *)
Definition adjusted (product_id : Z) (db : DB) : Z :=
  sum_Z (map a_adjustment_qty
             (filter (fun a => a_product_id a =? product_id)
                     (stock_adjustments db))).

(** The sum of the quantities of the sale lines present for a product. *)
Definition sold (product_id : Z) (db : DB) : Z :=
  sum_Z (map s_qty
             (filter (fun s => s_product_id s =? product_id) (sales db))).

(** The accounting identity. *)
Definition accounting (db : DB) : Prop :=
  forall p, In p (products db) ->
            p_quantity p = adjusted (p_id p) db - sold (p_id p) db.

(** The constraints the schema declares: [id] is the primary key of
    [products], and the [product_id] columns of both ledgers are foreign keys
    into it. *)
Definition schema_ok (db : DB) : Prop :=
  NoDup (map p_id (products db))
  /\ (forall a, In a (stock_adjustments db) ->
                In (a_product_id a) (map p_id (products db)))
  /\ (forall s, In s (sales db) ->
                In (s_product_id s) (map p_id (products db))).

(** A connection at rest on a database that meets the schema's constraints
    and the accounting identity. *)
Definition consistent (c : Conn) : Prop :=
  quiescent c /\ schema_ok (working c) /\ accounting (working c).

(** The quantity of a product asked for by the lines of a batch. *)
Definition demand (product_id : Z) (items : list Item) : Z :=
  sum_Z (map i_qty (filter (fun i => i_product_id i =? product_id) items)).

(** The quantity column of a product, when the product exists. *)
Definition quantity_of (product_id : Z) (db : DB) : option Z :=
  option_map p_quantity (select_product product_id db).

(** The stock given back by the loop of [undo_sale]. *)
Definition restored (lines : list (Z * Z)) (db : DB) : DB :=
  fold_left (fun d l => update_quantity_where (fst l) (fun q => q + snd l) d)
            lines db.

(** The row written for an accepted line, and the database after the line. *)
Definition sale_row (db : DB) (invoice : string) (sold_by : option Z)
    (item : Item) (final_total : float) : Sale :=
  {| s_id := next_rowid (seq_sales db) (map s_id (sales db));
     s_invoice := invoice; s_product_id := i_product_id item;
     s_qty := i_qty item; s_unit_price := i_unit_price item;
     s_unit_cost := i_unit_cost item; s_discount := round2 (i_discount item);
     s_total := final_total; s_sold_by := sold_by |}.

Definition after_line (db : DB) (invoice : string) (sold_by : option Z)
    (item : Item) (final_total : float) : DB :=
  let row := sale_row db invoice sold_by item final_total in
  update_quantity_where (i_product_id item) (fun q => q - i_qty item)
    {| products := products db; sales := sales db ++ [row];
       stock_adjustments := stock_adjustments db;
       seq_products := seq_products db; seq_sales := s_id row;
       seq_stock_adjustments := seq_stock_adjustments db |}.

(** What a stored row owes to the line item it was written for. *)
Definition row_of_item (invoice : string) (item : Item) (row : Sale) : Prop :=
  s_invoice row = invoice
  /\ s_product_id row = i_product_id item
  /\ s_qty row = i_qty item
  /\ s_unit_price row = i_unit_price item
  /\ s_unit_cost row = i_unit_cost item
  /\ s_discount row = round2 (i_discount item)
  /\ final_total_of (i_qty item) (i_unit_price item) (round2 (i_discount item))
     = Some (s_total row).

(** The pattern of [generate_invoice] without its final wildcard. *)
Definition invoice_prefix (today : date) : string :=
  ("INV-" ++ strftime_ymd today ++ "-")%string.

(** No LIKE wildcard occurs in the string. *)
Fixpoint plain (s : string) : bool :=
  match s with
  | EmptyString => true
  | String c s' =>
      negb (Ascii.eqb c "%") && negb (Ascii.eqb c "_") && plain s'
  end.

(** The conditions under which the loop body of [record_sale] accepts a line
    and appends [final_total] to the totals. *)
Definition line_accepts (db : DB) (item : Item) (final_total : float) : Prop :=
  final_total_of (i_qty item) (i_unit_price item) (round2 (i_discount item))
    = Some final_total
  /\ 0 < i_qty item
  /\ fltb final_total zero = false
  /\ (exists r, select_product (i_product_id item) db = Some r
                /\ i_qty item <= p_quantity r)
  /\ is_nan (i_unit_price item) || is_nan (i_unit_cost item)
     || is_nan (round2 (i_discount item)) || is_nan final_total = false.

(** A batch whose lines are accepted one after the other, each on the
    database the previous one left. *)
Inductive accepted (invoice : string) (sold_by : option Z)
  : DB -> list Item -> list float -> DB -> Prop :=
| accepted_nil (db : DB) : accepted invoice sold_by db [] [] db
| accepted_cons (db : DB) (item : Item) (t : float) (items : list Item)
    (ts : list float) (db' : DB) :
    line_accepts db item t ->
    accepted invoice sold_by (after_line db invoice sold_by item t) items ts db' ->
    accepted invoice sold_by db (item :: items) (t :: ts) db'.

(** One of the validation failures of a line: a non-positive quantity, a
    negative line total, an unknown product, or not enough stock. *)
Definition line_invalid (db : DB) (item : Item) : Prop :=
  i_qty item <= 0
  \/ (exists t, final_total_of (i_qty item) (i_unit_price item)
                  (round2 (i_discount item)) = Some t
                /\ fltb t zero = true)
  \/ select_product (i_product_id item) db = None
  \/ (exists r, select_product (i_product_id item) db = Some r
                /\ p_quantity r < i_qty item).

(** A change of the quantity column of every row by an amount that depends on
    the row's id: the form every stock movement of the ledger takes. *)
Definition shift (delta : Z -> Z) (l : list Product) : list Product :=
  map (fun p => set_quantity (p_quantity p + delta (p_id p)) p) l.

(** The quantity the fetched lines of an invoice give back to a product. *)
Definition credit (product_id : Z) (lines : list (Z * Z)) : Z :=
  sum_Z (map snd (filter (fun l => fst l =? product_id) lines)).

(** A line for [qty] units of a product at price 1.0, without a discount. *)
Definition unit_item (product_id qty : Z) : Item :=
  {| i_product_id := product_id; i_product_name := None; i_qty := qty;
     i_unit_price := of_ratio false 1 1; i_unit_cost := zero;
     i_discount := zero |}.

(** ** Sample states and inputs *)

(** The connection after [add_product] has entered one product, which gets
    id 1, with [quantity] units into an empty database. *)
Definition stocked_conn (quantity : Z) : Conn :=
  fst (add_product "Ibuprofen 200mg" None quantity (of_ratio false 599 100)
                   (of_ratio false 35 10) 20 "Supplier A" None
                   (fresh_conn empty_db)).

(** The line [{qty: 3, unit_price: 5.995, discount: 0}] for product 1. *)
Definition rounding_item : Item :=
  {| i_product_id := 1; i_product_name := Some "Ibuprofen 200mg"; i_qty := 3;
     i_unit_price := of_ratio false 5995 1000;
     i_unit_cost := of_ratio false 35 10; i_discount := zero |}.

(** The connection of a session that has sold three units of product 1 under
    INV-X while a second session deleted the product between the stock check
    and the INSERT. *)
Definition raced_conn : Conn :=
  fst (record_sale_with (meanwhile (delete_product 1)) "INV-X" [unit_item 1 3]
                        None (stocked_conn 10)).

(** The day used in the examples: 4 November 2026. *)
Definition sample_day : date := {| year := 2026; month := 11; day := 4 |}.

(** ** Invariants of the committed and the working copy *)

(** The property holds of the database as committed and as the cursors of
    the connection see it. *)
Definition both (P : DB -> Prop) (c : Conn) : Prop :=
  P (committed c) /\ P (working c).

(** The working copy after a statement has run on the database. *)
Definition after {A} (m : Py A) (db : DB) : DB := working (fst (m (fresh_conn db))).

(** The connection after the calls have been made one after the other, each
    returning or raising. *)
Definition perform_all (ops : list call) (c : Conn) : Conn :=
  fold_left (fun c op => perform op c) ops c.

(** ** Validity of the stored rows *)

(** What the checks of [add_product] and [update_product] and the NOT NULL
    columns ask of a product row. *)
Definition product_valid (p : Product) : Prop :=
  p_name p <> ""
  /\ 0 <= p_quantity p
  /\ 0 <= p_reorder_level p
  /\ fltb (p_price p) zero = false
  /\ fltb (p_cost p) zero = false
  /\ is_nan (p_price p) = false
  /\ is_nan (p_cost p) = false.

(** What the checks of [record_sale] ask of a sale row: a positive quantity
    and a total that is the rounded product of the row's own columns and is
    not negative. *)
Definition sale_valid (s : Sale) : Prop :=
  0 < s_qty s
  /\ final_total_of (s_qty s) (s_unit_price s) (s_discount s) = Some (s_total s)
  /\ fltb (s_total s) zero = false
  /\ is_nan (s_unit_price s) || is_nan (s_unit_cost s) || is_nan (s_discount s)
     || is_nan (s_total s) = false.

(** Every writer of the adjustment ledger records a non-zero change with a
    reason. *)
Definition adjustment_valid (a : Adjustment) : Prop :=
  a_adjustment_qty a <> 0 /\ a_reason a <> "".

Definition rows_valid (db : DB) : Prop :=
  NoDup (map p_id (products db))
  /\ Forall product_valid (products db)
  /\ Forall sale_valid (sales db)
  /\ Forall adjustment_valid (stock_adjustments db).

(** ** Batches of a sale *)

(** A line that passes the checks of [record_sale] that do not read the
    database: a positive quantity, a line total that is not negative, and no
    NaN among the values to store. *)
Definition well_formed (item : Item) : Prop :=
  0 < i_qty item
  /\ exists t,
       final_total_of (i_qty item) (i_unit_price item) (round2 (i_discount item))
       = Some t
       /\ fltb t zero = false
       /\ is_nan (i_unit_price item) || is_nan (i_unit_cost item)
          || is_nan (round2 (i_discount item)) || is_nan t = false.

(** Every product of the batch exists and holds at least the quantity that
    all the lines of the batch ask of it together. *)
Definition in_stock (db : DB) (items : list Item) : Prop :=
  forall item, In item items ->
    exists q, quantity_of (i_product_id item) db = Some q
              /\ demand (i_product_id item) items <= q.

(** ** Categories and users *)

(** The tables [categories] and [users] beside the ledger; [password_hash]
    holds the bytes that bcrypt returned, which are not interpreted here. *)
Record Category := {
  c_id : Z;
  c_name : string
}.

Record User := {
  u_id : Z;
  u_username : string;
  u_password_hash : string;
  u_full_name : string;
  u_role : string
}.

(** The whole database file: the three tables of the ledger, the two tables
    above, and their AUTOINCREMENT counters. *)
Record Store := {
  ledger : DB;
  categories : list Category;
  users : list User;
  seq_categories : Z;
  seq_users : Z
}.

(** A connection to the whole file: what is committed, and what the cursors
    of the connection see. *)
Record Session := {
  saved : Store;
  current : Store
}.

Inductive admin_error : Type :=
| UsernamePasswordEmpty            (* "Username and password cannot be empty" *)
| RoleInvalid                      (* "Role must be 'staff' or 'admin'" *)
| UsernameExists (username : string)   (* "Username '...' already exists." *)
| NewPasswordEmpty                 (* "New password cannot be empty" *)
| UserIdNotFound                   (* "User ID not found." *)
| CategoryNameEmpty                (* "Category name cannot be empty" *)
| CategoryExists (name : string)   (* "Category '...' already exists." *)
| CategoryIdNotFound               (* "Category ID not found." *)
| CategoryInUse                    (* "Cannot delete category with associated
                                      products. ..." *)
| KeyError (key : string)          (* category_map[...] on a missing name *)
| UniqueConstraintFailed.          (* sqlite3.IntegrityError: UNIQUE constraint
                                      failed *)

Inductive outcome (A : Type) : Type :=
| Returns (a : A)
| Raises (e : admin_error).
Arguments Returns {A} a.
Arguments Raises {A} e.

Definition Adm (A : Type) : Type := Session -> Session * outcome A.

Definition adm_ret {A} (a : A) : Adm A := fun s => (s, Returns a).

Definition adm_raise {A} (e : admin_error) : Adm A := fun s => (s, Raises e).

Definition adm_bind {A B} (m : Adm A) (k : A -> Adm B) : Adm B :=
  fun s => match m s with
           | (s', Returns a) => k a s'
           | (s', Raises e) => (s', Raises e)
           end.

Declare Scope adm_scope.
Delimit Scope adm_scope with adm.
Notation "'let*' x ':=' m 'in' k" := (adm_bind m (fun x => k))
  (at level 10, x name, m at level 100, k at level 200) : adm_scope.
Notation "m ';;' k" := (adm_bind m (fun _ => k))
  (at level 100, k at level 200, right associativity) : adm_scope.

Definition adm_query {A} (q : Store -> A) : Adm A :=
  fun s => (s, Returns (q (current s))).

Definition adm_execute (f : Store -> Store) : Adm unit :=
  fun s => ({| saved := saved s; current := f (current s) |}, Returns tt).

(** [conn.commit()]: every pending write of the connection, whichever table
    it is on, becomes durable. *)
Definition adm_commit : Adm unit :=
  fun s => ({| saved := current s; current := current s |}, Returns tt).

(** A statement that the database may refuse: the refusal raises
    sqlite3.IntegrityError and writes nothing. *)
Definition adm_attempt (f : Store -> option Store) : Adm unit :=
  fun s => match f (current s) with
           | Some st => ({| saved := saved s; current := st |}, Returns tt)
           | None => (s, Raises UniqueConstraintFailed)
           end.

(** [try: body except ... as e: handler e]. *)
Definition adm_except {A} (body : Adm A) (handler : admin_error -> Adm A)
    : Adm A :=
  fun s => match body s with
           | (s', Returns a) => (s', Returns a)
           | (s', Raises e) => handler e s'
           end.

Definition with_ledger (f : DB -> DB) (st : Store) : Store :=
  {| ledger := f (ledger st); categories := categories st; users := users st;
     seq_categories := seq_categories st; seq_users := seq_users st |}.

Definition with_categories (f : list Category -> list Category) (st : Store)
    : Store :=
  {| ledger := ledger st; categories := f (categories st); users := users st;
     seq_categories := seq_categories st; seq_users := seq_users st |}.

Definition with_users (f : list User -> list User) (st : Store) : Store :=
  {| ledger := ledger st; categories := categories st; users := f (users st);
     seq_categories := seq_categories st; seq_users := seq_users st |}.

(** INSERT INTO categories (name) VALUES (?): [None] when the UNIQUE
    constraint on [name] refuses the row (sqlite3.IntegrityError). *)
Definition insert_category (name : string) (st : Store) : option Store :=
  if existsb (fun k => String.eqb (c_name k) name) (categories st) then None
  else
    let rowid := next_rowid (seq_categories st) (map c_id (categories st)) in
    Some {| ledger := ledger st;
            categories := categories st ++ [{| c_id := rowid; c_name := name |}];
            users := users st;
            seq_categories := rowid; seq_users := seq_users st |}.

(** INSERT INTO users (username, password_hash, full_name, role)
    VALUES (?, ?, ?, ?): [None] when the UNIQUE constraint on [username]
    refuses the row. *)
Definition insert_user (username pw_hash full_name role : string) (st : Store)
    : option Store :=
  if existsb (fun u => String.eqb (u_username u) username) (users st) then None
  else
    let rowid := next_rowid (seq_users st) (map u_id (users st)) in
    Some {| ledger := ledger st; categories := categories st;
            users := users st
                     ++ [{| u_id := rowid; u_username := username;
                            u_password_hash := pw_hash;
                            u_full_name := full_name; u_role := role |}];
            seq_categories := seq_categories st; seq_users := rowid |}.

(** The number of rows a statement with WHERE id=? touches (cur.rowcount). *)
Definition count_where {A} (f : A -> bool) (l : list A) : Z :=
  Z.of_nat (List.length (filter f l)).

Open Scope adm_scope.

(** Fetches a single user by username. *)
Definition get_user_by_username (username : string) : Adm (option User) :=
  adm_query (fun st =>
    find (fun u => String.eqb (u_username u) (strip username)) (users st)).

(** Adds a new user; [pw_hash] is what [hash_password password] returned. *)
Definition add_user (username password pw_hash full_name role : string)
    : Adm bool :=
  if String.eqb (strip username) "" || String.eqb password ""
  then adm_raise UsernamePasswordEmpty
  else if negb (String.eqb role "staff" || String.eqb role "admin")
  then adm_raise RoleInvalid
  else
    adm_except
      (adm_attempt (insert_user (strip username) pw_hash (strip full_name) role) ;;
       adm_commit ;;
       adm_ret true)
      (fun e => match e with
                | UniqueConstraintFailed => adm_raise (UsernameExists username)
                | _ => adm_raise e
                end).

(** Changes a user's password; [pw_hash] is what [hash_password new_password]
    returned. *)
Definition change_user_password (user_id : Z) (new_password pw_hash : string)
    : Adm unit :=
  if String.eqb new_password "" then adm_raise NewPasswordEmpty
  else
    let* rowcount :=
      adm_query (fun st => count_where (fun u => u_id u =? user_id) (users st)) in
    adm_execute (with_users (map (fun u =>
      if u_id u =? user_id
      then {| u_id := u_id u; u_username := u_username u;
              u_password_hash := pw_hash; u_full_name := u_full_name u;
              u_role := u_role u |}
      else u))) ;;
    if rowcount =? 0 then adm_raise UserIdNotFound
    else adm_commit.

(** Updates a user's full_name and role. *)
Definition update_user (user_id : Z) (full_name role : string) : Adm unit :=
  if negb (String.eqb role "staff" || String.eqb role "admin")
  then adm_raise RoleInvalid
  else
    let* rowcount :=
      adm_query (fun st => count_where (fun u => u_id u =? user_id) (users st)) in
    adm_execute (with_users (map (fun u =>
      if u_id u =? user_id
      then {| u_id := u_id u; u_username := u_username u;
              u_password_hash := u_password_hash u;
              u_full_name := strip full_name; u_role := role |}
      else u))) ;;
    if rowcount =? 0 then adm_raise UserIdNotFound
    else adm_commit.

(** UPDATE sales SET sold_by = NULL WHERE sold_by = ? *)
Definition anonymize_sales (user_id : Z) (db : DB) : DB :=
  with_sales (map (fun s =>
    match s_sold_by s with
    | Some u =>
        if u =? user_id
        then {| s_id := s_id s; s_invoice := s_invoice s;
                s_product_id := s_product_id s; s_qty := s_qty s;
                s_unit_price := s_unit_price s; s_unit_cost := s_unit_cost s;
                s_discount := s_discount s; s_total := s_total s;
                s_sold_by := None |}
        else s
    | None => s
    end)) db.

(** UPDATE stock_adjustments SET adjusted_by = NULL WHERE adjusted_by = ? *)
Definition anonymize_adjustments (user_id : Z) (db : DB) : DB :=
  with_stock_adjustments (map (fun a =>
    match a_adjusted_by a with
    | Some u =>
        if u =? user_id
        then {| a_id := a_id a; a_product_id := a_product_id a;
                a_adjustment_qty := a_adjustment_qty a; a_reason := a_reason a;
                a_adjusted_by := None |}
        else a
    | None => a
    end)) db.

(** Deletes a user after setting the references to the user in the sales and
    the stock adjustments to NULL. *)
Definition delete_user (user_id : Z) : Adm unit :=
  adm_execute (with_ledger (anonymize_sales user_id)) ;;
  adm_execute (with_ledger (anonymize_adjustments user_id)) ;;
  let* rowcount :=
    adm_query (fun st => count_where (fun u => u_id u =? user_id) (users st)) in
  adm_execute (with_users (filter (fun u => negb (u_id u =? user_id)))) ;;
  if rowcount =? 0 then adm_raise UserIdNotFound
  else adm_commit.

(** Adds a new category. *)
Definition add_category (name : string) : Adm bool :=
  if String.eqb (strip name) "" then adm_raise CategoryNameEmpty
  else
    adm_except
      (adm_attempt (insert_category (strip name)) ;;
       adm_commit ;;
       adm_ret true)
      (fun e => match e with
                | UniqueConstraintFailed => adm_raise (CategoryExists name)
                | _ => adm_raise e
                end).

(** UPDATE categories SET name=? WHERE id=?: refused by the UNIQUE constraint
    when it would give a row the name of another row. *)
Definition rename_category (category_id : Z) (name : string) (st : Store)
    : option Store :=
  let cats := categories st in
  if existsb (fun k => c_id k =? category_id) cats
     && existsb (fun k => negb (c_id k =? category_id)
                          && String.eqb (c_name k) name) cats
  then None
  else Some (with_categories
               (map (fun k => if c_id k =? category_id
                              then {| c_id := c_id k; c_name := name |}
                              else k)) st).

(** Updates the name of an existing category. *)
Definition update_category (category_id : Z) (new_name : string) : Adm unit :=
  if String.eqb (strip new_name) "" then adm_raise CategoryNameEmpty
  else
    adm_except
      (let* rowcount :=
         adm_query (fun st =>
           count_where (fun k => c_id k =? category_id) (categories st)) in
       adm_attempt (rename_category category_id (strip new_name)) ;;
       if rowcount =? 0 then adm_raise CategoryIdNotFound
       else adm_commit)
      (fun e => match e with
                | UniqueConstraintFailed => adm_raise (CategoryExists new_name)
                | _ => adm_raise e
                end).

(** WHERE category_id=? on a row of [products]; a NULL matches nothing. *)
Definition names_category (category_id : Z) (p : Product) : bool :=
  match p_category_id p with
  | Some k => k =? category_id
  | None => false
  end.

(** Deletes a category, unless products are associated with it. *)
Definition delete_category (category_id : Z) : Adm unit :=
  let* cnt :=
    adm_query (fun st =>
      count_where (names_category category_id) (products (ledger st))) in
  if 0 <? cnt then adm_raise CategoryInUse
  else
    let* rowcount :=
      adm_query (fun st =>
        count_where (fun k => c_id k =? category_id) (categories st)) in
    adm_execute (with_categories (filter (fun k => negb (c_id k =? category_id)))) ;;
    if rowcount =? 0 then adm_raise CategoryIdNotFound
    else adm_commit.

Close Scope adm_scope.

(** One tuple of the sample products of [init_db]; the category is named and
    looked up in [category_map]. *)
Record Sample := sample {
  sm_name : string;
  sm_category : string;
  sm_quantity : Z;
  sm_price : float;
  sm_cost : float;
  sm_reorder_level : Z;
  sm_supplier : string;
  sm_expiry_date : string
}.

Definition sample_categories : list string :=
  [ "Analgesics";
    "Antibiotics";
    "Antihistamines";
    "Antihypertensives";
    "Antidiabetics";
    "Antidepressants";
    "Antianxiety Agents";
    "Antivirals";
    "Antifungals";
    "Antacids & GI Drugs";
    "Cardiovascular Drugs";
    "Respiratory Drugs";
    "Vitamins & Supplements";
    "Hormonal Agents";
    "Anticoagulants";
    "Anti-inflammatory Drugs";
    "Anticonvulsants";
    "Dermatologicals";
    "Ophthalmic Drugs";
    "OTC Medications" ].

Definition sample_products : list Sample :=
  [ sample "Ibuprofen 200mg" "Analgesics" 100
           (of_ratio false 599 100) (of_ratio false 350 100) 20
           "Supplier A" "2026-12-31";
    sample "Acetaminophen 500mg" "Analgesics" 150
           (of_ratio false 499 100) (of_ratio false 280 100) 30
           "Supplier B" "2026-11-15";
    sample "Aspirin 325mg" "Analgesics" 80
           (of_ratio false 349 100) (of_ratio false 200 100) 15
           "Supplier A" "2027-03-20";
    sample "Naproxen 250mg" "Analgesics" 60
           (of_ratio false 649 100) (of_ratio false 390 100) 10
           "Supplier C" "2026-09-10";
    sample "Diclofenac Gel 1%" "Analgesics" 40
           (of_ratio false 1299 100) (of_ratio false 800 100) 10
           "Supplier B" "2027-01-05";
    sample "Paracetamol 650mg" "Analgesics" 120
           (of_ratio false 549 100) (of_ratio false 320 100) 25
           "Supplier A" "2026-10-30";
    sample "Amoxicillin 500mg" "Antibiotics" 50
           (of_ratio false 899 100) (of_ratio false 550 100) 10
           "Supplier D" "2026-08-25";
    sample "Azithromycin 250mg" "Antibiotics" 30
           (of_ratio false 1099 100) (of_ratio false 680 100) 5
           "Supplier E" "2026-07-15";
    sample "Ciprofloxacin 500mg" "Antibiotics" 40
           (of_ratio false 1249 100) (of_ratio false 750 100) 10
           "Supplier D" "2026-12-10";
    sample "Doxycycline 100mg" "Antibiotics" 60
           (of_ratio false 999 100) (of_ratio false 600 100) 15
           "Supplier E" "2027-02-28";
    sample "Clindamycin 300mg" "Antibiotics" 25
           (of_ratio false 1599 100) (of_ratio false 950 100) 5
           "Supplier D" "2026-11-30";
    sample "Erythromycin 500mg" "Antibiotics" 35
           (of_ratio false 1149 100) (of_ratio false 700 100) 10
           "Supplier E" "2026-09-30";
    sample "Cetirizine 10mg" "Antihistamines" 80
           (of_ratio false 649 100) (of_ratio false 380 100) 15
           "Supplier F" "2026-10-10";
    sample "Loratadine 10mg" "Antihistamines" 100
           (of_ratio false 599 100) (of_ratio false 350 100) 20
           "Supplier F" "2027-03-05";
    sample "Fexofenadine 180mg" "Antihistamines" 60
           (of_ratio false 999 100) (of_ratio false 600 100) 10
           "Supplier G" "2026-11-25";
    sample "Diphenhydramine 25mg" "Antihistamines" 70
           (of_ratio false 499 100) (of_ratio false 290 100) 15
           "Supplier F" "2026-09-20";
    sample "Chlorpheniramine 4mg" "Antihistamines" 50
           (of_ratio false 399 100) (of_ratio false 230 100) 10
           "Supplier G" "2027-02-15";
    sample "Desloratadine 5mg" "Antihistamines" 40
           (of_ratio false 1049 100) (of_ratio false 630 100) 10
           "Supplier F" "2026-12-20";
    sample "Lisinopril 10mg" "Antihypertensives" 90
           (of_ratio false 699 100) (of_ratio false 420 100) 20
           "Supplier H" "2026-10-20";
    sample "Amlodipine 5mg" "Antihypertensives" 100
           (of_ratio false 849 100) (of_ratio false 510 100) 20
           "Supplier H" "2027-01-25";
    sample "Losartan 50mg" "Antihypertensives" 60
           (of_ratio false 949 100) (of_ratio false 570 100) 15
           "Supplier I" "2027-03-10";
    sample "Hydrochlorothiazide 25mg" "Antihypertensives" 80
           (of_ratio false 549 100) (of_ratio false 330 100) 15
           "Supplier H" "2026-12-05";
    sample "Metformin 500mg" "Antidiabetics" 100
           (of_ratio false 799 100) (of_ratio false 480 100) 20
           "Supplier J" "2027-02-15";
    sample "Glipizide 5mg" "Antidiabetics" 70
           (of_ratio false 699 100) (of_ratio false 420 100) 15
           "Supplier J" "2026-11-30";
    sample "Insulin Glargine 100U/mL" "Antidiabetics" 20
           (of_ratio false 4999 100) (of_ratio false 3000 100) 5
           "Supplier K" "2026-09-15";
    sample "Sertraline 50mg" "Antidepressants" 50
           (of_ratio false 999 100) (of_ratio false 600 100) 10
           "Supplier L" "2027-01-10";
    sample "Fluoxetine 20mg" "Antidepressants" 60
           (of_ratio false 849 100) (of_ratio false 510 100) 10
           "Supplier L" "2026-12-20";
    sample "Escitalopram 10mg" "Antidepressants" 40
           (of_ratio false 1099 100) (of_ratio false 660 100) 10
           "Supplier M" "2027-03-05";
    sample "Lorazepam 1mg" "Antianxiety Agents" 30
           (of_ratio false 1199 100) (of_ratio false 720 100) 5
           "Supplier N" "2026-10-15";
    sample "Alprazolam 0.5mg" "Antianxiety Agents" 25
           (of_ratio false 1249 100) (of_ratio false 750 100) 5
           "Supplier N" "2026-11-10";
    sample "Oseltamivir 75mg" "Antivirals" 20
           (of_ratio false 2999 100) (of_ratio false 1800 100) 5
           "Supplier O" "2026-08-30";
    sample "Acyclovir 400mg" "Antivirals" 30
           (of_ratio false 1499 100) (of_ratio false 900 100) 5
           "Supplier O" "2026-12-10";
    sample "Fluconazole 150mg" "Antifungals" 25
           (of_ratio false 1599 100) (of_ratio false 960 100) 5
           "Supplier P" "2026-11-25";
    sample "Clotrimazole Cream 1%" "Antifungals" 50
           (of_ratio false 799 100) (of_ratio false 480 100) 10
           "Supplier P" "2027-02-20";
    sample "Omeprazole 20mg" "Antacids & GI Drugs" 60
           (of_ratio false 899 100) (of_ratio false 540 100) 15
           "Supplier Q" "2027-01-15";
    sample "Loperamide 2mg" "Antacids & GI Drugs" 80
           (of_ratio false 499 100) (of_ratio false 300 100) 20
           "Supplier Q" "2026-10-30";
    sample "Atenolol 50mg" "Cardiovascular Drugs" 70
           (of_ratio false 799 100) (of_ratio false 480 100) 15
           "Supplier R" "2027-04-15";
    sample "Simvastatin 20mg" "Cardiovascular Drugs" 50
           (of_ratio false 899 100) (of_ratio false 540 100) 10
           "Supplier R" "2026-11-20";
    sample "Clopidogrel 75mg" "Cardiovascular Drugs" 60
           (of_ratio false 1049 100) (of_ratio false 630 100) 10
           "Supplier S" "2027-03-10";
    sample "Albuterol Inhaler 90mcg" "Respiratory Drugs" 30
           (of_ratio false 2499 100) (of_ratio false 1500 100) 5
           "Supplier T" "2026-09-30";
    sample "Montelukast 10mg" "Respiratory Drugs" 50
           (of_ratio false 999 100) (of_ratio false 600 100) 10
           "Supplier T" "2027-02-28";
    sample "Vitamin C 1000mg" "Vitamins & Supplements" 200
           (of_ratio false 499 100) (of_ratio false 290 100) 30
           "Supplier U" "2027-06-30";
    sample "Vitamin D3 2000IU" "Vitamins & Supplements" 180
           (of_ratio false 549 100) (of_ratio false 320 100) 25
           "Supplier U" "2027-05-15";
    sample "Multivitamin Tablets" "Vitamins & Supplements" 150
           (of_ratio false 699 100) (of_ratio false 410 100) 20
           "Supplier V" "2027-04-20";
    sample "Vitamin B12 500mcg" "Vitamins & Supplements" 120
           (of_ratio false 599 100) (of_ratio false 350 100) 20
           "Supplier U" "2026-12-15";
    sample "Omega-3 Fish Oil 1000mg" "Vitamins & Supplements" 100
           (of_ratio false 899 100) (of_ratio false 530 100) 15
           "Supplier V" "2027-02-10";
    sample "Calcium 600mg + D3" "Vitamins & Supplements" 90
           (of_ratio false 749 100) (of_ratio false 440 100) 15
           "Supplier U" "2027-01-30";
    sample "Levothyroxine 100mcg" "Hormonal Agents" 60
           (of_ratio false 949 100) (of_ratio false 570 100) 10
           "Supplier W" "2027-03-15";
    sample "Ethinyl Estradiol 0.03mg" "Hormonal Agents" 40
           (of_ratio false 1299 100) (of_ratio false 780 100) 10
           "Supplier W" "2026-12-10";
    sample "Warfarin 5mg" "Anticoagulants" 50
           (of_ratio false 849 100) (of_ratio false 510 100) 10
           "Supplier X" "2027-01-20";
    sample "Apixaban 5mg" "Anticoagulants" 30
           (of_ratio false 1999 100) (of_ratio false 1200 100) 5
           "Supplier X" "2026-11-30";
    sample "Prednisone 10mg" "Anti-inflammatory Drugs" 60
           (of_ratio false 699 100) (of_ratio false 420 100) 10
           "Supplier Y" "2026-10-25";
    sample "Celecoxib 200mg" "Anti-inflammatory Drugs" 40
           (of_ratio false 1399 100) (of_ratio false 840 100) 10
           "Supplier Y" "2027-02-10";
    sample "Gabapentin 300mg" "Anticonvulsants" 50
           (of_ratio false 1099 100) (of_ratio false 660 100) 10
           "Supplier Z" "2026-12-15";
    sample "Levetiracetam 500mg" "Anticonvulsants" 40
           (of_ratio false 1249 100) (of_ratio false 750 100) 10
           "Supplier Z" "2027-01-30";
    sample "Hydrocortisone Cream 1%" "Dermatologicals" 50
           (of_ratio false 699 100) (of_ratio false 420 100) 10
           "Supplier AA" "2027-02-25";
    sample "Mupirocin Ointment 2%" "Dermatologicals" 30
           (of_ratio false 1199 100) (of_ratio false 720 100) 5
           "Supplier AA" "2026-11-15";
    sample "Artificial Tears 0.5%" "Ophthalmic Drugs" 60
           (of_ratio false 599 100) (of_ratio false 360 100) 10
           "Supplier BB" "2027-03-20";
    sample "Timolol Eye Drops 0.5%" "Ophthalmic Drugs" 25
           (of_ratio false 1499 100) (of_ratio false 900 100) 5
           "Supplier BB" "2026-12-05";
    sample "Loperamide 2mg" "OTC Medications" 80
           (of_ratio false 499 100) (of_ratio false 300 100) 20
           "Supplier CC" "2026-10-30";
    sample "Acetaminophen 500mg" "OTC Medications" 150
           (of_ratio false 499 100) (of_ratio false 280 100) 30
           "Supplier CC" "2026-11-15" ].

(** [category_map[name]] on the dict built from SELECT id, name FROM
    categories; the names are UNIQUE, so each name has one row. *)
Definition category_map (st : Store) (name : string) : option Z :=
  option_map c_id (find (fun k => String.eqb (c_name k) name) (categories st)).

(** The list of tuples handed to executemany: built in order, the first
    missing category name raises KeyError. *)
Fixpoint sample_rows (lookup : string -> option Z) (l : list Sample)
    : string + list (Sample * Z) :=
  match l with
  | [] => inr []
  | sm :: rest =>
      match lookup (sm_category sm) with
      | None => inl (sm_category sm)
      | Some k =>
          match sample_rows lookup rest with
          | inl key => inl key
          | inr rows => inr ((sm, k) :: rows)
          end
      end
  end.

(** executemany("INSERT OR IGNORE INTO products (...) VALUES (...)", rows);
    the products table has no constraint that could ignore a row. *)
Definition insert_samples (rows : list (Sample * Z)) (db : DB) : DB :=
  fold_left
    (fun d row =>
       let sm := fst row in
       after (insert_product (sm_name sm) (Some (snd row)) (sm_quantity sm)
                             (sm_price sm) (sm_cost sm) (sm_reorder_level sm)
                             (Some (sm_supplier sm))
                             (Some (sm_expiry_date sm))) d)
    rows db.

Open Scope adm_scope.

(** executemany("INSERT INTO categories (name) VALUES (?)", categories). *)
Fixpoint insert_categories (names : list string) : Adm unit :=
  match names with
  | [] => adm_ret tt
  | name :: rest =>
      adm_attempt (insert_category name) ;; insert_categories rest
  end.

(** Creates the schema, which the model has from the start, and inserts the
    sample data into the tables that are empty; [pw_hash] is what bcrypt
    returned for the default administrator's password. *)
Definition init_db (pw_hash : string) : Adm unit :=
  adm_commit ;;
  let* cnt := adm_query (fun st => Z.of_nat (List.length (users st))) in
  (if cnt =? 0
   then adm_attempt (insert_user "admin" pw_hash "Administrator" "admin") ;;
        adm_commit
   else adm_ret tt) ;;
  let* cnt := adm_query (fun st => Z.of_nat (List.length (categories st))) in
  (if cnt =? 0
   then insert_categories sample_categories ;; adm_commit
   else adm_ret tt) ;;
  let* lookup := adm_query category_map in
  let* cnt := adm_query (fun st =>
                Z.of_nat (List.length (products (ledger st)))) in
  if cnt =? 0
  then
    match sample_rows lookup sample_products with
    | inl key => adm_raise (KeyError key)
    | inr rows =>
        adm_execute (with_ledger (insert_samples rows)) ;;
        adm_commit
    end
  else adm_ret tt.

Close Scope adm_scope.

(** The three blocks of [init_db], for the tables [users], [categories] and
    [products] in this order. *)
Definition seed_users (pw_hash : string) : Adm unit :=
  adm_bind (adm_query (fun st => Z.of_nat (List.length (users st))))
    (fun cnt =>
       if cnt =? 0
       then adm_bind (adm_attempt (insert_user "admin" pw_hash "Administrator"
                                               "admin"))
                     (fun _ => adm_commit)
       else adm_ret tt).

Definition seed_categories : Adm unit :=
  adm_bind (adm_query (fun st => Z.of_nat (List.length (categories st))))
    (fun cnt =>
       if cnt =? 0
       then adm_bind (insert_categories sample_categories) (fun _ => adm_commit)
       else adm_ret tt).

Definition seed_products : Adm unit :=
  adm_bind (adm_query category_map)
    (fun lookup =>
       adm_bind (adm_query (fun st =>
                   Z.of_nat (List.length (products (ledger st)))))
         (fun cnt =>
            if cnt =? 0
            then
              match sample_rows lookup sample_products with
              | inl key => adm_raise (KeyError key)
              | inr rows =>
                  adm_bind (adm_execute (with_ledger (insert_samples rows)))
                           (fun _ => adm_commit)
              end
            else adm_ret tt)).

(** ** Constraints on categories and users *)

Definition role_ok (role : string) : Prop := role = "staff" \/ role = "admin".

(** What the schema and the checks of the functions ask of the rows of
    [categories] and [users]: unique ids, unique names that are not empty,
    and a role that is staff or admin. *)
Definition admin_valid (st : Store) : Prop :=
  NoDup (map c_id (categories st))
  /\ NoDup (map c_name (categories st))
  /\ Forall (fun k => c_name k <> "") (categories st)
  /\ NoDup (map u_id (users st))
  /\ NoDup (map u_username (users st))
  /\ Forall (fun u => u_username u <> "" /\ role_ok (u_role u)) (users st).

(** The property holds of the file as committed and as the connection sees
    it. *)
Definition both_stores (P : Store -> Prop) (s : Session) : Prop :=
  P (saved s) /\ P (current s).

(** A call of one of the functions that write to [categories] or [users]. *)
Inductive admin_call : Type :=
| AddUser (username password pw_hash full_name role : string)
| ChangeUserPassword (user_id : Z) (new_password pw_hash : string)
| UpdateUser (user_id : Z) (full_name role : string)
| DeleteUser (user_id : Z)
| AddCategory (name : string)
| UpdateCategory (category_id : Z) (new_name : string)
| DeleteCategory (category_id : Z)
| InitDb (pw_hash : string).

(** The session after the call has returned or raised. *)
Definition administer (op : admin_call) (s : Session) : Session :=
  match op with
  | AddUser username password pw_hash full_name role =>
      fst (add_user username password pw_hash full_name role s)
  | ChangeUserPassword user_id new_password pw_hash =>
      fst (change_user_password user_id new_password pw_hash s)
  | UpdateUser user_id full_name role =>
      fst (update_user user_id full_name role s)
  | DeleteUser user_id => fst (delete_user user_id s)
  | AddCategory name => fst (add_category name s)
  | UpdateCategory category_id new_name =>
      fst (update_category category_id new_name s)
  | DeleteCategory category_id => fst (delete_category category_id s)
  | InitDb pw_hash => fst (init_db pw_hash s)
  end.

(** Every product that names a category names one that exists. *)
Definition categories_referenced (st : Store) : Prop :=
  forall p k, In p (products (ledger st)) -> p_category_id p = Some k ->
              In k (map c_id (categories st)).

(** A session without pending writes. *)
Definition settled (s : Session) : Prop := current s = saved s.

Definition empty_store : Store :=
  {| ledger := empty_db; categories := []; users := [];
     seq_categories := 0; seq_users := 0 |}.

(** ** The cart of the sales page *)

(** An entry of [prod_map], the dict from product names to the columns the
    page uses. *)
Record Stocked := {
  e_id : Z;
  e_price : float;
  e_cost : float;
  e_quantity : Z
}.

(** A dict of the cart, [st.session_state["cart"]]. *)
Record CartLine := {
  k_product_id : Z;
  k_product_name : string;
  k_qty : Z;
  k_unit_price : float;
  k_unit_cost : float;
  k_discount : float;
  k_available_qty : Z
}.

(** What the page shows after the button. *)
Inductive cart_message : Type :=
| NotInInventory                   (* "Product not found in current inventory." *)
| CannotExceed (available : Z)     (* "Cannot exceed available stock: ..." *)
| OnlyAvailableInCart (available : Z)   (* "Only ... available" *)
| UpdatedLine (new_qty : Z)        (* "Updated ... more of ... (Total: ...)" *)
| AddedLine.                       (* "Added ... x ..." *)

Definition fdiv : float -> float -> float := SFdiv prec emax.

(** [selected_product.split(" (")[0]]: the text before the first " (". *)
Fixpoint before_paren (s : string) : string :=
  match s with
  | EmptyString => EmptyString
  | String c s' =>
      match s' with
      | String d _ =>
          if Ascii.eqb c " " && Ascii.eqb d "("
          then EmptyString
          else String c (before_paren s')
      | EmptyString => String c EmptyString
      end
  end.

(** [existing["qty"] = new_qty; existing["discount"] = per_unit_discount] on
    the first dict of the cart with the product id, which is the one [next]
    returned; the list holds the same dict, so it sees the change. *)
Fixpoint update_existing (pid new_qty : Z) (per_unit_discount : float)
    (cart : list CartLine) : list CartLine :=
  match cart with
  | [] => []
  | item :: rest =>
      if k_product_id item =? pid
      then {| k_product_id := k_product_id item;
              k_product_name := k_product_name item;
              k_qty := new_qty;
              k_unit_price := k_unit_price item;
              k_unit_cost := k_unit_cost item;
              k_discount := per_unit_discount;
              k_available_qty := k_available_qty item |} :: rest
      else item :: update_existing pid new_qty per_unit_discount rest
  end.

(** The handler of the button "Add to Cart" of [sales_page]: the cart after
    the click and the message shown. *)
Definition add_to_cart (prod_map : string -> option Stocked)
    (cart : list CartLine) (product_name : string) (qty : Z)
    (discount_pct : float) : list CartLine * cart_message :=
  match prod_map product_name with
  | None => (cart, NotInInventory)
  | Some entry =>
      let pid := e_id entry in
      let unit_price := e_price entry in
      let unit_cost := e_cost entry in
      let available := e_quantity entry in
      let per_unit_discount :=
        round2 (fmul unit_price (fdiv discount_pct (of_ratio false 100 1))) in
      match find (fun item => k_product_id item =? pid) cart with
      | Some existing =>
          let new_qty := k_qty existing + qty in
          if available <? new_qty then (cart, CannotExceed available)
          else (update_existing pid new_qty per_unit_discount cart,
                UpdatedLine new_qty)
      | None =>
          if available <? qty then (cart, OnlyAvailableInCart available)
          else (cart ++ [{| k_product_id := pid;
                            k_product_name := product_name;
                            k_qty := qty;
                            k_unit_price := unit_price;
                            k_unit_cost := unit_cost;
                            k_discount := per_unit_discount;
                            k_available_qty := available |}],
                AddedLine)
      end
  end.

(** The dict of the cart as [record_sale] reads it. *)
Definition cart_item (l : CartLine) : Item :=
  {| i_product_id := k_product_id l;
     i_product_name := Some (k_product_name l);
     i_qty := k_qty l;
     i_unit_price := k_unit_price l;
     i_unit_cost := k_unit_cost l;
     i_discount := k_discount l |}.

(** The entries of [prod_map] show the quantities of the database. *)
Definition shows_stock (prod_map : string -> option Stocked) (db : DB) : Prop :=
  forall name entry,
    prod_map name = Some entry ->
    quantity_of (e_id entry) db = Some (e_quantity entry).

(** No product has two lines, and no line asks for less than one unit or for
    more than the product's stock. *)
Definition cart_fits (db : DB) (cart : list CartLine) : Prop :=
  NoDup (map k_product_id cart)
  /\ Forall (fun l => 1 <= k_qty l
                      /\ exists q, quantity_of (k_product_id l) db = Some q
                                   /\ k_qty l <= q) cart.

(** The string contains " (". *)
Fixpoint has_paren (s : string) : bool :=
  match s with
  | EmptyString => false
  | String c s' =>
      match s' with
      | String d _ => (Ascii.eqb c " " && Ascii.eqb d "(") || has_paren s'
      | EmptyString => false
      end
  end.

(** ** Further sample states *)

(** The connection after three units of product 1 have been sold under
    INV-X out of a stock of ten. *)
Definition sold_conn : Conn :=
  fst (record_sale "INV-X" [unit_item 1 3] None (stocked_conn 10)).

(** A new database file, and the session after [init_db] has filled it. *)
Definition fresh_session : Session :=
  {| saved := empty_store; current := empty_store |}.

Definition seeded_session : Session := fst (init_db "bcrypt" fresh_session).

(** The session after a first user has been added to a new file. *)
Definition alice_session : Session :=
  fst (add_user "alice" "secret" "bcrypt" "Alice" "staff" fresh_session).

(** The session after a category that is not among the samples has been added
    to a new file. *)
Definition other_session : Session := fst (add_category "Other" fresh_session).

(** A [prod_map] with the one product of [stocked_conn 10]. *)
Definition sample_prod_map (name : string) : option Stocked :=
  if String.eqb name "Ibuprofen 200mg"
  then Some {| e_id := 1; e_price := of_ratio false 599 100;
               e_cost := of_ratio false 35 10; e_quantity := 10 |}
  else None.

(** A cart with three units of product 1 at price 1.0. *)
Definition sample_cart : list CartLine :=
  [ {| k_product_id := 1; k_product_name := "Ibuprofen 200mg"; k_qty := 3;
       k_unit_price := of_ratio false 1 1; k_unit_cost := zero;
       k_discount := zero; k_available_qty := 10 |} ].

(** * Properties *)

Ltac run_py :=
  cbv beta iota delta [bind ret raise query execute commit rollback with_conn
                       try_except get_product fst snd].

(** ** Connections and tables *)

Lemma fresh_conn_quiescent c : quiescent c -> fresh_conn (committed c) = c.
Proof. unfold quiescent, fresh_conn. destruct c; simpl; intros ->; reflexivity. Qed.

Lemma conn_eta c : {| committed := committed c; working := working c |} = c.
Proof. destruct c; reflexivity. Qed.

Lemma db_eta db :
  {| products := products db; sales := sales db;
     stock_adjustments := stock_adjustments db;
     seq_products := seq_products db; seq_sales := seq_sales db;
     seq_stock_adjustments := seq_stock_adjustments db |} = db.
Proof. destruct db; reflexivity. Qed.

Lemma set_quantity_same p : set_quantity (p_quantity p) p = p.
Proof. destruct p; reflexivity. Qed.

Lemma find_map_same_id (g : Product -> Product) (pid : Z) (l : list Product) :
  (forall p, p_id (g p) = p_id p) ->
  find (fun p => p_id p =? pid) (map g l)
  = option_map g (find (fun p => p_id p =? pid) l).
Proof.
  intros Hg. induction l as [|p l IH]; simpl; [reflexivity|].
  rewrite Hg. destruct (p_id p =? pid); [reflexivity|exact IH].
Qed.

Lemma select_product_id pid db r :
  select_product pid db = Some r -> p_id r = pid.
Proof. unfold select_product. intros H. apply find_some in H. lia. Qed.

Lemma select_product_In pid db r :
  select_product pid db = Some r -> In r (products db).
Proof. unfold select_product. intros H. apply find_some in H. tauto. Qed.

Lemma select_product_ids pid db r :
  select_product pid db = Some r -> In pid (map p_id (products db)).
Proof.
  intros H. rewrite <- (select_product_id _ _ _ H). apply in_map.
  apply (select_product_In _ _ _ H).
Qed.

Lemma quantity_of_select pid db q :
  quantity_of pid db = Some q ->
  exists r, select_product pid db = Some r /\ p_quantity r = q.
Proof.
  unfold quantity_of. destruct (select_product pid db) as [r|]; [|discriminate].
  intros H. inversion H. exists r. split; reflexivity.
Qed.

Lemma select_update_quantity pid' pid f db :
  select_product pid' (update_quantity_where pid f db)
  = option_map (fun p => if p_id p =? pid
                         then set_quantity (f (p_quantity p)) p else p)
               (select_product pid' db).
Proof.
  unfold select_product, update_quantity_where. simpl.
  apply find_map_same_id. intros p. destruct (p_id p =? pid); reflexivity.
Qed.

Lemma nodup_select (l : list Product) (p : Product) :
  NoDup (map p_id l) -> In p l ->
  find (fun q => p_id q =? p_id p) l = Some p.
Proof.
  induction l as [|x l IH]; simpl; [contradiction|].
  intros Hnd Hin. inversion Hnd as [|? ? Hx Hl]; subst.
  destruct Hin as [->|Hin]; [rewrite Z.eqb_refl; reflexivity|].
  destruct (p_id x =? p_id p) eqn:E; [|apply IH; assumption].
  exfalso. apply Hx. apply Z.eqb_eq in E. rewrite E. apply in_map. exact Hin.
Qed.

Lemma select_unique pid db r p :
  NoDup (map p_id (products db)) ->
  select_product pid db = Some r -> In p (products db) -> p_id p = pid -> p = r.
Proof.
  intros Hnd Hsel Hin Hid. pose proof (nodup_select _ _ Hnd Hin) as H.
  unfold select_product in Hsel. rewrite Hid, Hsel in H. congruence.
Qed.

Lemma max_rowid_ge ids x : In x ids -> x <= max_rowid ids.
Proof.
  induction ids as [|y ids IH]; simpl; [contradiction|].
  intros [->|H]; [lia|]. specialize (IH H). lia.
Qed.

Lemma next_rowid_fresh seq ids : ~ In (next_rowid seq ids) ids.
Proof.
  intros H. apply max_rowid_ge in H. unfold next_rowid in H. lia.
Qed.

Lemma NoDup_snoc (l : list Z) (x : Z) : NoDup l -> ~ In x l -> NoDup (l ++ [x]).
Proof.
  intros Hl Hx. apply NoDup_app; [exact Hl|repeat constructor; intros []|].
  intros a Ha [<-|[]]. exact (Hx Ha).
Qed.

(** ** Filters and sums *)

Lemma filter_nil_negb {A} (f : A -> bool) (l : list A) :
  filter f l = [] -> filter (fun x => negb (f x)) l = l.
Proof.
  induction l as [|x l IH]; simpl; [reflexivity|].
  destruct (f x); [discriminate|]. simpl. intros H. rewrite IH by assumption.
  reflexivity.
Qed.

Lemma filter_all {A} (f : A -> bool) (l : list A) :
  Forall (fun x => f x = true) l ->
  filter f l = l /\ filter (fun x => negb (f x)) l = [].
Proof.
  induction 1 as [|x l Hx _ [IH1 IH2]]; simpl; [split; reflexivity|].
  rewrite Hx. simpl. rewrite IH1, IH2. split; reflexivity.
Qed.

Lemma filter_filter_negb {A} (f : A -> bool) (l : list A) :
  filter f (filter (fun x => negb (f x)) l) = [].
Proof.
  induction l as [|x l IH]; simpl; [reflexivity|].
  destruct (f x) eqn:E; simpl; [exact IH|]. rewrite E. exact IH.
Qed.

Lemma filter_none {A} (f : A -> bool) (l : list A) :
  (forall x, In x l -> f x = false) -> filter (fun x => negb (f x)) l = l.
Proof.
  intros H. apply filter_nil_negb.
  destruct (filter f l) as [|x r] eqn:E; [reflexivity|].
  assert (Hin : In x (filter f l)) by (rewrite E; left; reflexivity).
  apply filter_In in Hin. destruct Hin as [Hin Hx]. rewrite (H x Hin) in Hx.
  discriminate.
Qed.

Lemma map_invoice_filter (f : string -> bool) (l : list Sale) :
  map s_invoice (filter (fun s => f (s_invoice s)) l)
  = filter f (map s_invoice l).
Proof.
  induction l as [|s l IH]; [reflexivity|]. simpl.
  destruct (f (s_invoice s)); simpl; rewrite IH; reflexivity.
Qed.

Lemma select_invoice_lines_nil invoice db :
  select_invoice_lines invoice db = [] ->
  filter (fun s => String.eqb (s_invoice s) invoice) (sales db) = [].
Proof.
  unfold select_invoice_lines.
  destruct (filter _ (sales db)); [reflexivity|discriminate].
Qed.

Lemma count_sales_of_pos pid db :
  (0 <? count_sales_of pid db) = true
  <-> exists s, In s (sales db) /\ s_product_id s = pid.
Proof.
  unfold count_sales_of. split.
  - destruct (filter _ (sales db)) as [|s l] eqn:E; [simpl; discriminate|].
    intros _. exists s.
    assert (Hin : In s (filter (fun s => s_product_id s =? pid) (sales db)))
      by (rewrite E; left; reflexivity).
    apply filter_In in Hin. destruct Hin as [Hin Hid]. split; [exact Hin|lia].
  - intros (s & Hin & Hid).
    assert (Hf : In s (filter (fun s => s_product_id s =? pid) (sales db))).
    { apply filter_In. split; [exact Hin|]. lia. }
    destruct (filter _ (sales db)); [contradiction|]. reflexivity.
Qed.

Lemma sum_Z_app l1 l2 : sum_Z (l1 ++ l2) = sum_Z l1 + sum_Z l2.
Proof. induction l1; simpl; lia. Qed.

Lemma demand_cons pid item items :
  demand pid (item :: items)
  = (if i_product_id item =? pid then i_qty item else 0) + demand pid items.
Proof. unfold demand. simpl. destruct (i_product_id item =? pid); simpl; lia. Qed.

Lemma credit_cons pid l lines :
  credit pid (l :: lines)
  = (if fst l =? pid then snd l else 0) + credit pid lines.
Proof. unfold credit. simpl. destruct (fst l =? pid); simpl; lia. Qed.

Lemma credit_demand pid items :
  credit pid (map (fun i => (i_product_id i, i_qty i)) items) = demand pid items.
Proof.
  induction items as [|item items IH]; [reflexivity|].
  simpl map. rewrite credit_cons, demand_cons, IH. reflexivity.
Qed.

Lemma sold_split invoice pid (l : list Sale) :
  sum_Z (map s_qty (filter (fun s => s_product_id s =? pid) l))
  = credit pid (map (fun s => (s_product_id s, s_qty s))
                    (filter (fun s => String.eqb (s_invoice s) invoice) l))
    + sum_Z (map s_qty
               (filter (fun s => s_product_id s =? pid)
                  (filter (fun s => negb (String.eqb (s_invoice s) invoice)) l))).
Proof.
  induction l as [|s l IH]; [reflexivity|]. simpl.
  destruct (String.eqb (s_invoice s) invoice); simpl.
  - rewrite credit_cons. cbn [fst snd].
    destruct (s_product_id s =? pid); simpl; lia.
  - destruct (s_product_id s =? pid); simpl; lia.
Qed.

Lemma adjusted_snoc pid db db' a :
  stock_adjustments db' = stock_adjustments db ++ [a] ->
  adjusted pid db'
  = adjusted pid db + (if a_product_id a =? pid then a_adjustment_qty a else 0).
Proof.
  intros H. unfold adjusted. rewrite H, filter_app, map_app, sum_Z_app. simpl.
  destruct (a_product_id a =? pid); simpl; lia.
Qed.

Lemma adjusted_same pid db db' :
  stock_adjustments db' = stock_adjustments db -> adjusted pid db' = adjusted pid db.
Proof. intros H. unfold adjusted. rewrite H. reflexivity. Qed.

Lemma adjusted_absent pid db :
  (forall a, In a (stock_adjustments db) ->
             In (a_product_id a) (map p_id (products db))) ->
  ~ In pid (map p_id (products db)) ->
  adjusted pid db = 0.
Proof.
  intros Hfk Hno. unfold adjusted.
  assert (H : filter (fun a => a_product_id a =? pid) (stock_adjustments db) = []).
  { destruct (filter _ (stock_adjustments db)) as [|a l] eqn:E; [reflexivity|].
    exfalso. assert (Hin : In a (filter (fun a => a_product_id a =? pid)
                                        (stock_adjustments db)))
      by (rewrite E; left; reflexivity).
    apply filter_In in Hin. destruct Hin as [Hin Hid].
    apply Hno. apply Z.eqb_eq in Hid. rewrite <- Hid. apply Hfk, Hin. }
  rewrite H. reflexivity.
Qed.

Lemma adjusted_filter_other pid pid' db db' :
  stock_adjustments db'
  = filter (fun a => negb (a_product_id a =? pid)) (stock_adjustments db) ->
  pid' <> pid ->
  adjusted pid' db' = adjusted pid' db.
Proof.
  intros H Hne. unfold adjusted. rewrite H. f_equal. f_equal. clear H.
  induction (stock_adjustments db) as [|a l IH]; [reflexivity|]. simpl.
  destruct (a_product_id a =? pid) eqn:E1; simpl.
  - destruct (a_product_id a =? pid') eqn:E2; [lia|exact IH].
  - destruct (a_product_id a =? pid'); [rewrite IH; reflexivity|exact IH].
Qed.

Lemma sold_same pid db db' :
  sales db' = sales db -> sold pid db' = sold pid db.
Proof. intros H. unfold sold. rewrite H. reflexivity. Qed.

Lemma sold_app pid db db' rows :
  sales db' = sales db ++ rows ->
  sold pid db'
  = sold pid db + sum_Z (map s_qty (filter (fun s => s_product_id s =? pid) rows)).
Proof.
  intros H. unfold sold. rewrite H, filter_app, map_app, sum_Z_app. reflexivity.
Qed.

Lemma sold_absent pid db :
  (forall s, In s (sales db) -> In (s_product_id s) (map p_id (products db))) ->
  ~ In pid (map p_id (products db)) ->
  sold pid db = 0.
Proof.
  intros Hfk Hno. unfold sold.
  assert (H : filter (fun s => s_product_id s =? pid) (sales db) = []).
  { destruct (filter _ (sales db)) as [|s l] eqn:E; [reflexivity|].
    exfalso. assert (Hin : In s (filter (fun s => s_product_id s =? pid)
                                        (sales db)))
      by (rewrite E; left; reflexivity).
    apply filter_In in Hin. destruct Hin as [Hin Hid].
    apply Hno. apply Z.eqb_eq in Hid. rewrite <- Hid. apply Hfk, Hin. }
  rewrite H. reflexivity.
Qed.

(** ** Stock movements *)

Lemma shift_ids f l : map p_id (shift f l) = map p_id l.
Proof. unfold shift. rewrite map_map. reflexivity. Qed.

Lemma shift_ext_in f g l :
  (forall p, In p l -> f (p_id p) = g (p_id p)) -> shift f l = shift g l.
Proof.
  intros H. unfold shift. apply map_ext_in. intros p Hp. rewrite (H p Hp).
  reflexivity.
Qed.

Lemma shift_zero_in f l :
  (forall p, In p l -> f (p_id p) = 0) -> shift f l = l.
Proof.
  intros H. unfold shift. rewrite <- (map_id l) at 2. apply map_ext_in.
  intros p Hp. rewrite (H p Hp), Z.add_0_r. apply set_quantity_same.
Qed.

Lemma shift_shift f g l :
  shift f (shift g l) = shift (fun id => g id + f id) l.
Proof.
  unfold shift. rewrite map_map. apply map_ext. intros p. simpl.
  unfold set_quantity. simpl. rewrite Z.add_assoc. reflexivity.
Qed.

Lemma update_quantity_shift pid d db :
  products (update_quantity_where pid (fun q => q + d) db)
  = shift (fun id => if id =? pid then d else 0) (products db).
Proof.
  unfold update_quantity_where, shift. simpl. apply map_ext. intros p.
  destruct (p_id p =? pid); [reflexivity|].
  rewrite Z.add_0_r, set_quantity_same. reflexivity.
Qed.

Lemma select_shift pid f db db' :
  products db' = shift f (products db) ->
  select_product pid db'
  = option_map (fun p => set_quantity (p_quantity p + f pid) p)
               (select_product pid db).
Proof.
  intros H. unfold select_product. rewrite H. unfold shift.
  rewrite find_map_same_id by reflexivity.
  destruct (find _ (products db)) as [p|] eqn:E; [|reflexivity].
  apply find_some in E. simpl. replace (p_id p) with pid by lia. reflexivity.
Qed.

Lemma quantity_shift pid f db db' :
  products db' = shift f (products db) ->
  quantity_of pid db' = option_map (fun q => q + f pid) (quantity_of pid db).
Proof.
  intros H. unfold quantity_of. rewrite (select_shift pid f db db' H).
  destruct (select_product pid db); reflexivity.
Qed.

(** ** Strings and patterns *)

Lemma string_app_assoc a b c :
  ((a ++ b) ++ c)%string = (a ++ (b ++ c))%string.
Proof. induction a as [|x a IH]; [reflexivity|]. simpl. rewrite IH. reflexivity. Qed.

Lemma string_app_eqb p a b :
  String.eqb (p ++ a)%string (p ++ b)%string = String.eqb a b.
Proof.
  induction p as [|c p IH]; [reflexivity|]. simpl. rewrite Ascii.eqb_refl.
  exact IH.
Qed.

Lemma prefix_nocase_app p s : prefix_nocase p (p ++ s)%string = true.
Proof.
  induction p as [|c p IH]; [reflexivity|]. simpl. unfold eqb_nocase.
  rewrite Ascii.eqb_refl. exact IH.
Qed.

Lemma like_percent s : like "%" s = true.
Proof. induction s as [|c s IH]; [reflexivity|]. simpl in *. exact IH. Qed.

Lemma like_prefix p :
  plain p = true -> forall s, like (p ++ "%")%string s = prefix_nocase p s.
Proof.
  induction p as [|c p IH]; intros Hp s.
  - rewrite like_percent. reflexivity.
  - simpl in Hp. apply andb_prop in Hp. destruct Hp as [Hc Hp].
    apply andb_prop in Hc. destruct Hc as [Hc1 Hc2].
    apply negb_true_iff in Hc1, Hc2.
    change (String c p ++ "%")%string with (String c (p ++ "%"))%string.
    cbn [like prefix_nocase]. rewrite Hc1, Hc2.
    destruct s as [|d s]; [reflexivity|]. rewrite (IH Hp). reflexivity.
Qed.

Lemma plain_app a b : plain (a ++ b)%string = plain a && plain b.
Proof.
  induction a as [|c a IH]; [reflexivity|]. simpl. rewrite IH.
  rewrite !andb_assoc. reflexivity.
Qed.

Lemma plain_zeros n : plain (zeros n) = true.
Proof. induction n; [reflexivity|]. simpl. exact IHn. Qed.

Lemma plain_uint d : plain (NilEmpty.string_of_uint d) = true.
Proof. induction d; simpl; try reflexivity; exact IHd. Qed.

Lemma plain_str_int n : plain (str_int n) = true.
Proof.
  unfold str_int. destruct (Z.to_int n) as [d|d]; simpl.
  - unfold NilZero.string_of_uint. destruct d; try reflexivity; apply plain_uint.
  - unfold NilZero.string_of_uint. destruct d; try reflexivity; apply plain_uint.
Qed.

Lemma plain_zfill width s : plain s = true -> plain (zfill width s) = true.
Proof. intros H. unfold zfill. rewrite plain_app, plain_zeros, H. reflexivity. Qed.

Lemma plain_invoice_prefix today : plain (invoice_prefix today) = true.
Proof.
  unfold invoice_prefix, strftime_ymd, format_02d.
  rewrite !plain_app, !plain_zfill by apply plain_str_int. reflexivity.
Qed.

(** ** The loop of [record_sale] *)

Section SalePath.

Variable invoice : string.
Variable sold_by : option Z.

Lemma sale_line_accepts item t c :
  line_accepts (working c) item t ->
  sale_line invoice sold_by item c
  = ({| committed := committed c;
        working := after_line (working c) invoice sold_by item t |}, Ok t).
Proof.
  intros (Ht & Hq & Hneg & (r & Hr & Hav) & Hnan).
  unfold sale_line. rewrite Ht.
  destruct (i_qty item <=? 0) eqn:E; [lia|].
  rewrite Hneg. run_py. rewrite Hr.
  destruct (p_quantity r <? i_qty item) eqn:E2; [lia|].
  unfold insert_sale. rewrite Hnan. reflexivity.
Qed.

Lemma sale_line_result item c c' res :
  sale_line invoice sold_by item c = (c', res) ->
  match res with
  | Ok t => line_accepts (working c) item t
            /\ c' = {| committed := committed c;
                       working := after_line (working c) invoice sold_by item t |}
  | Raise _ => c' = c
  end.
Proof.
  unfold sale_line.
  destruct (final_total_of _ _ _) as [t|] eqn:Ht.
  2:{ run_py. intros H; inversion H; reflexivity. }
  destruct (i_qty item <=? 0) eqn:E.
  { run_py. intros H; inversion H; reflexivity. }
  destruct (fltb t zero) eqn:Hneg.
  { run_py. intros H; inversion H; reflexivity. }
  run_py.
  destruct (select_product (i_product_id item) (working c)) as [r|] eqn:Hr.
  2:{ intros H; inversion H; reflexivity. }
  destruct (p_quantity r <? i_qty item) eqn:E2.
  { intros H; inversion H; reflexivity. }
  unfold insert_sale.
  destruct (is_nan (i_unit_price item) || is_nan (i_unit_cost item)
            || is_nan (round2 (i_discount item)) || is_nan t) eqn:Hnan.
  { intros H; inversion H; reflexivity. }
  run_py. cbn [committed working]. intros H; inversion H; subst.
  split; [|reflexivity]. unfold line_accepts.
  split; [assumption|]. split; [lia|]. split; [assumption|].
  split; [|assumption]. exists r. split; [assumption|lia].
Qed.

Lemma sale_line_invalid db item :
  line_invalid db item ->
  forall cm, exists e,
    sale_line invoice sold_by item {| committed := cm; working := db |}
    = ({| committed := cm; working := db |}, Raise e).
Proof.
  intros Hinv cm.
  destruct (sale_line invoice sold_by item {| committed := cm; working := db |})
    as [c' [t|e]] eqn:E;
    pose proof (sale_line_result _ _ _ _ E) as H; simpl in H.
  - exfalso. destruct H as [(Ht & Hq & Hneg & (r & Hr & Hav) & _) _].
    destruct Hinv as [Hi|[(t' & Ht' & Hn)|[Hi|(r' & Hr' & Hi)]]].
    + lia.
    + rewrite Ht in Ht'. inversion Ht'; subst. congruence.
    + congruence.
    + rewrite Hr in Hr'. inversion Hr'; subst. lia.
  - subst c'. exists e. reflexivity.
Qed.

Lemma sale_lines_accepted db items ts db' :
  accepted invoice sold_by db items ts db' ->
  forall cm totals,
    sale_lines invoice sold_by items totals {| committed := cm; working := db |}
    = ({| committed := cm; working := db' |}, Ok (totals ++ ts)).
Proof.
  induction 1 as [db|db item t items ts db' Hacc _ IH]; intros cm totals; simpl.
  - unfold ret. rewrite app_nil_r. reflexivity.
  - unfold bind. rewrite (sale_line_accepts _ t) by assumption.
    cbn [committed working]. rewrite IH, <- app_assoc. reflexivity.
Qed.

Lemma sale_lines_result items :
  forall totals c c' res,
    sale_lines invoice sold_by items totals c = (c', res) ->
    committed c' = committed c
    /\ match res with
       | Ok out =>
           exists ts, out = totals ++ ts
                      /\ accepted invoice sold_by (working c) items ts (working c')
       | Raise e =>
           exists pre item post ts,
             items = pre ++ item :: post
             /\ accepted invoice sold_by (working c) pre ts (working c')
             /\ sale_line invoice sold_by item c' = (c', Raise e)
       end.
Proof.
  induction items as [|item rest IH]; intros totals c c' res; simpl.
  - unfold ret. intros H; inversion H; subst. split; [reflexivity|].
    exists []. rewrite app_nil_r. split; [reflexivity|constructor].
  - unfold bind. destruct (sale_line invoice sold_by item c) as [c1 [t|e]] eqn:E.
    + pose proof (sale_line_result _ _ _ _ E) as [Hacc Hc1].
      intros H. apply IH in H. destruct H as [Hcm H].
      assert (Hw : working c1 = after_line (working c) invoice sold_by item t)
        by (subst c1; reflexivity).
      split; [rewrite Hcm; subst c1; reflexivity|].
      destruct res as [out|e].
      * destruct H as (ts & -> & H). exists (t :: ts).
        rewrite <- app_assoc. split; [reflexivity|].
        econstructor; [eassumption|]. rewrite <- Hw. exact H.
      * destruct H as (pre & it & post & ts & -> & H & Hl).
        exists (item :: pre), it, post, (t :: ts).
        split; [reflexivity|]. split; [|exact Hl].
        econstructor; [eassumption|]. rewrite <- Hw. exact H.
    + pose proof (sale_line_result _ _ _ _ E) as Hc1. simpl in Hc1. subst c1.
      intros H; inversion H; subst. split; [reflexivity|].
      exists [], item, rest, []. split; [reflexivity|].
      split; [constructor|exact E].
Qed.

Lemma sale_lines_rejected db pre ts db1 :
  accepted invoice sold_by db pre ts db1 ->
  forall cm item post e totals,
    sale_line invoice sold_by item {| committed := cm; working := db1 |}
    = ({| committed := cm; working := db1 |}, Raise e) ->
    sale_lines invoice sold_by (pre ++ item :: post) totals
               {| committed := cm; working := db |}
    = ({| committed := cm; working := db1 |}, Raise e).
Proof.
  induction 1 as [db|db it t its ts db' Hl _ IH];
    intros cm item post e totals He; simpl.
  - unfold bind. rewrite He. reflexivity.
  - unfold bind. rewrite (sale_line_accepts _ t) by assumption.
    cbn [committed working]. apply IH. exact He.
Qed.

Lemma record_sale_result items c c' res :
  record_sale invoice items sold_by c = (c', res) ->
  match res with
  | Ok total =>
      items <> []
      /\ exists ts db', accepted invoice sold_by (working c) items ts db'
                        /\ c' = fresh_conn db' /\ total = py_sum ts
  | Raise e =>
      (items = [] /\ e = EmptySale /\ c' = c)
      \/ (items <> [] /\ c' = fresh_conn (committed c)
          /\ exists pre item post ts db1,
               items = pre ++ item :: post
               /\ accepted invoice sold_by (working c) pre ts db1
               /\ sale_line invoice sold_by item
                    {| committed := committed c; working := db1 |}
                  = ({| committed := committed c; working := db1 |}, Raise e))
  end.
Proof.
  unfold record_sale. destruct items as [|item0 rest].
  { unfold raise. intros H; inversion H; subst. left. auto. }
  set (items := item0 :: rest).
  assert (Hne : items <> []) by discriminate.
  clearbody items.
  run_py.
  destruct (sale_lines invoice sold_by items [] c) as [cw [totals|e]] eqn:E;
    apply sale_lines_result in E; destruct E as [Hcm E].
  - intros H; inversion H; subst. split; [assumption|].
    destruct E as (ts & -> & Hacc). exists ts, (working cw).
    split; [assumption|]. split; reflexivity.
  - cbn [committed working]. intros H; inversion H; subst. right.
    split; [assumption|].
    split; [unfold fresh_conn; rewrite Hcm; reflexivity|].
    destruct E as (pre & item & post & ts & -> & Hacc & Hl).
    exists pre, item, post, ts, (working cw). split; [reflexivity|].
    split; [assumption|]. rewrite <- Hcm, conn_eta. exact Hl.
Qed.

Lemma record_sale_returns items c cw totals :
  sale_lines invoice sold_by items [] c = (cw, Ok totals) ->
  items <> [] ->
  record_sale invoice items sold_by c
  = (fresh_conn (working cw), Ok (py_sum totals)).
Proof.
  intros H Hne. unfold record_sale. destruct items; [contradiction|].
  run_py. rewrite H. reflexivity.
Qed.

Lemma record_sale_raises items c cw e :
  sale_lines invoice sold_by items [] c = (cw, Raise e) ->
  items <> [] ->
  record_sale invoice items sold_by c = (fresh_conn (committed cw), Raise e).
Proof.
  intros H Hne. unfold record_sale. destruct items; [contradiction|].
  run_py. rewrite H. reflexivity.
Qed.

Lemma after_line_products db item t :
  products (after_line db invoice sold_by item t)
  = shift (fun id => if id =? i_product_id item then - i_qty item else 0)
          (products db).
Proof.
  unfold after_line. rewrite (update_quantity_shift _ (- i_qty item)).
  reflexivity.
Qed.

Lemma accepted_products db items ts db' :
  accepted invoice sold_by db items ts db' ->
  products db' = shift (fun id => - demand id items) (products db).
Proof.
  induction 1 as [db|db item t items ts db' _ _ IH].
  - symmetry. apply shift_zero_in. reflexivity.
  - rewrite IH, after_line_products, shift_shift. apply shift_ext_in.
    intros p _. rewrite demand_cons. rewrite (Z.eqb_sym (p_id p)).
    destruct (i_product_id item =? p_id p); lia.
Qed.

Lemma accepted_stock_adjustments db items ts db' :
  accepted invoice sold_by db items ts db' ->
  stock_adjustments db' = stock_adjustments db.
Proof.
  induction 1 as [db|db item t items ts db' _ _ IH]; [reflexivity|].
  rewrite IH. reflexivity.
Qed.

Lemma accepted_sales db items ts db' :
  accepted invoice sold_by db items ts db' ->
  exists rows, sales db' = sales db ++ rows
               /\ Forall2 (row_of_item invoice) items rows
               /\ ts = map s_total rows.
Proof.
  induction 1 as [db|db item t items ts db' Hl _ (rows & Hs & Hf & Ht)].
  - exists []. rewrite app_nil_r. repeat split. constructor.
  - exists (sale_row db invoice sold_by item t :: rows).
    split; [|split].
    + rewrite Hs. simpl. rewrite <- app_assoc. reflexivity.
    + constructor; [|exact Hf]. destruct Hl as (Hl & _).
      unfold row_of_item. simpl. repeat split; try reflexivity. exact Hl.
    + simpl. rewrite Ht. reflexivity.
Qed.

Lemma accepted_quantity db items ts db' pid q :
  accepted invoice sold_by db items ts db' ->
  quantity_of pid db = Some q ->
  quantity_of pid db' = Some (q - demand pid items).
Proof.
  intros Hacc Hq.
  rewrite (quantity_shift pid _ db db' (accepted_products _ _ _ _ Hacc)).
  rewrite Hq. reflexivity.
Qed.

Lemma accepted_lines_valid db items ts db' :
  accepted invoice sold_by db items ts db' ->
  forall item, In item items ->
    0 < i_qty item
    /\ exists t, final_total_of (i_qty item) (i_unit_price item)
                               (round2 (i_discount item)) = Some t
                 /\ fltb t zero = false.
Proof.
  induction 1 as [db|db it t items ts db' (Ht & Hq & Hneg & _) _ IH];
    intros item Hin; [contradiction|].
  destruct Hin as [<-|Hin]; [|exact (IH item Hin)].
  split; [exact Hq|]. exists t. split; assumption.
Qed.

Lemma rows_invoice items rows :
  Forall2 (row_of_item invoice) items rows ->
  Forall (fun s => String.eqb (s_invoice s) invoice = true) rows.
Proof.
  induction 1 as [|item row items rows (Hi & _) _ IH]; constructor;
    [|exact IH].
  rewrite Hi. apply String.eqb_refl.
Qed.

Lemma rows_lines items rows :
  Forall2 (row_of_item invoice) items rows ->
  map (fun s => (s_product_id s, s_qty s)) rows
  = map (fun i => (i_product_id i, i_qty i)) items.
Proof.
  induction 1 as [|item row items rows (_ & Hp & Hq & _) _ IH]; simpl;
    [reflexivity|].
  rewrite Hp, Hq, IH. reflexivity.
Qed.

End SalePath.

(** ** The loop of [undo_sale] *)

Lemma restored_tables lines : forall db,
  sales (restored lines db) = sales db
  /\ stock_adjustments (restored lines db) = stock_adjustments db
  /\ seq_products (restored lines db) = seq_products db
  /\ seq_sales (restored lines db) = seq_sales db
  /\ seq_stock_adjustments (restored lines db) = seq_stock_adjustments db.
Proof.
  induction lines as [|l lines IH]; intros db; simpl.
  - repeat split.
  - destruct (IH (update_quantity_where (fst l) (fun q => q + snd l) db))
      as (H1 & H2 & H3 & H4 & H5).
    unfold restored in *. simpl. rewrite H1, H2, H3, H4, H5. repeat split.
Qed.

Lemma restored_products lines : forall db,
  products (restored lines db)
  = shift (fun id => credit id lines) (products db).
Proof.
  induction lines as [|l lines IH]; intros db.
  - symmetry. apply shift_zero_in. reflexivity.
  - unfold restored in *. simpl. rewrite IH, update_quantity_shift, shift_shift.
    apply shift_ext_in. intros p _. rewrite credit_cons.
    rewrite (Z.eqb_sym (p_id p)). reflexivity.
Qed.

Lemma restore_stock_run lines : forall c,
  restore_stock lines c
  = ({| committed := committed c; working := restored lines (working c) |},
     Ok tt).
Proof.
  induction lines as [|[pid qty] lines IH]; intros c; simpl.
  - unfold ret. rewrite conn_eta. reflexivity.
  - run_py. rewrite IH. reflexivity.
Qed.

(** The database [undo_sale] commits for an invoice with lines. *)
Lemma undo_sale_run invoice sold_by c :
  undo_sale invoice sold_by c
  = match select_invoice_lines invoice (working c) with
    | [] => (c, Raise (NoSalesFound invoice))
    | _ :: _ =>
        (fresh_conn
           (with_sales
              (filter (fun s => negb (String.eqb (s_invoice s) invoice)))
              (restored (select_invoice_lines invoice (working c)) (working c))),
         Ok tt)
    end.
Proof.
  unfold undo_sale. run_py.
  destruct (select_invoice_lines invoice (working c)) as [|l lines] eqn:E;
    [reflexivity|].
  rewrite restore_stock_run. unfold delete_sales_where. run_py.
  cbn [committed working].
  destruct (restored_tables (l :: lines) (working c)) as (Hs & _).
  rewrite Hs.
  assert (Hn : (Z.of_nat (List.length
                   (filter (fun s => String.eqb (s_invoice s) invoice)
                           (sales (working c)))) =? 0) = false).
  { unfold select_invoice_lines in E.
    destruct (filter _ (sales (working c))); [discriminate|]. reflexivity. }
  rewrite Hn. reflexivity.
Qed.

(** ** Stock Adjustment Engine *)

(** C3, as amended.  For an existing product with quantity [Q >= 0] and a
    reason that is not blank: the adjustment by [-Q-1] raises the
    insufficient-stock error and changes nothing; for [Q > 0] the adjustment
    by [-Q] succeeds, commits, leaves quantity 0 and appends exactly one
    adjustment row with delta [-Q] and the stripped reason, the sale ledger
    untouched; for [Q = 0] the adjustment by [-Q], which is 0, is rejected as
    an invalid argument and changes nothing. *)
Theorem adjust_stock_boundary :
  forall (c : Conn) (product_id : Z) (r : Product) (reason : string)
         (adjusted_by : option Z),
    select_product product_id (working c) = Some r ->
    0 <= p_quantity r ->
    strip reason <> "" ->
    let Q := p_quantity r in
    adjust_stock product_id (- Q - 1) reason adjusted_by c
      = (c, Raise (BelowZero Q (- Q - 1)))
    /\ kind_of (BelowZero Q (- Q - 1)) = InsufficientStock
    /\ (0 < Q ->
        exists c' a,
          adjust_stock product_id (- Q) reason adjusted_by c = (c', Ok tt)
          /\ quiescent c'
          /\ quantity_of product_id (working c') = Some 0
          /\ stock_adjustments (working c')
             = stock_adjustments (working c) ++ [a]
          /\ a_product_id a = product_id
          /\ a_adjustment_qty a = - Q
          /\ a_reason a = strip reason
          /\ a_adjusted_by a = adjusted_by
          /\ sales (working c') = sales (working c))
    /\ (Q = 0 ->
        adjust_stock product_id (- Q) reason adjusted_by c
          = (c, Raise ZeroAdjustment)
        /\ kind_of ZeroAdjustment = InvalidArgument).
Proof.
  intros c pid r reason by_ Hsel Hq Hreason Q.
  assert (Er : String.eqb (strip reason) "" = false).
  { destruct (String.eqb (strip reason) "") eqn:E; [|reflexivity].
    apply String.eqb_eq in E. contradiction. }
  split; [|split; [reflexivity|split]].
  - unfold adjust_stock.
    destruct (- Q - 1 =? 0) eqn:E; [lia|]. rewrite Er.
    run_py. rewrite Hsel. fold Q.
    destruct (Q + (- Q - 1) <? 0) eqn:E2; [reflexivity|lia].
  - intros Hpos. unfold adjust_stock.
    destruct (- Q =? 0) eqn:E; [lia|]. rewrite Er.
    run_py. rewrite Hsel. fold Q.
    destruct (Q + - Q <? 0) eqn:E2; [lia|].
    unfold insert_adjustment. run_py. cbn [committed working].
    eexists. eexists. split; [reflexivity|].
    cbn [working stock_adjustments sales update_quantity_where with_products
         a_product_id a_adjustment_qty a_reason a_adjusted_by].
    split; [reflexivity|]. split; [|repeat split].
    unfold quantity_of.
    match goal with
    | |- option_map _ (select_product _ ?d) = _ =>
        change (select_product pid d)
          with (select_product pid
                  (update_quantity_where pid (fun _ => Q + - Q) (working c)))
    end.
    rewrite select_update_quantity, Hsel. simpl.
    rewrite (select_product_id _ _ _ Hsel), Z.eqb_refl. simpl. f_equal. lia.
  - intros Hzero. rewrite Hzero. split; reflexivity.
Qed.

Lemma adjust_stock_boundary_witness :
  adjust_stock 1 (- 10 - 1) "test" None (stocked_conn 10)
  = (stocked_conn 10, Raise (BelowZero 10 (- 10 - 1)))
  /\ exists c' a,
       adjust_stock 1 (- 10) "test" None (stocked_conn 10) = (c', Ok tt)
       /\ quiescent c'
       /\ quantity_of 1 (working c') = Some 0
       /\ stock_adjustments (working c')
          = stock_adjustments (working (stocked_conn 10)) ++ [a]
       /\ a_product_id a = 1
       /\ a_adjustment_qty a = - 10
       /\ a_reason a = strip "test"
       /\ a_adjusted_by a = None
       /\ sales (working c') = sales (working (stocked_conn 10)).
Proof.
  pose proof (adjust_stock_boundary (stocked_conn 10) 1
                {| p_id := 1; p_name := "Ibuprofen 200mg"; p_category_id := None;
                   p_quantity := 10; p_price := of_ratio false 599 100;
                   p_cost := of_ratio false 35 10; p_reorder_level := 20;
                   p_supplier := Some "Supplier A"; p_expiry_date := None |}
                "test" None) as H.
  cbn [p_quantity] in H.
  destruct H as (Hlow & _ & Hzero & _).
  - vm_compute; reflexivity.
  - lia.
  - vm_compute; discriminate.
  - split; [exact Hlow|]. apply Hzero. lia.
Defined.

(** With an empty stock the adjustment down to zero is the adjustment by 0. *)
Lemma adjust_stock_boundary_counterexample :
  quantity_of 1 (working (stocked_conn 0)) = Some 0
  /\ strip "test" = "test"
  /\ adjust_stock 1 (- 0) "test" None (stocked_conn 0)
     = (stocked_conn 0, Raise ZeroAdjustment).
Proof. repeat split. Qed.

(** ** Sales Transaction Engine *)

(** C2. [record_sale] is all-or-nothing.  On a connection without pending
    writes: whenever the call raises, the connection is exactly as before (no
    quantity changed, no sale line created); an empty batch raises; a line
    that fails validation (non-positive quantity, negative total, unknown
    product, not enough stock) after earlier lines of the batch were accepted
    and written makes the call raise with the connection as before; and so
    does a non-positive quantity or a negative total on any line of the
    batch, and every batch that is not accepted line after line. *)
Theorem record_sale_all_or_nothing :
  forall (c : Conn) (invoice : string) (items : list Item) (sold_by : option Z),
    quiescent c ->
    (forall c' e, record_sale invoice items sold_by c = (c', Raise e) -> c' = c)
    /\ (items = [] -> record_sale invoice items sold_by c = (c, Raise EmptySale))
    /\ (forall pre item post ts db1,
           items = pre ++ item :: post ->
           accepted invoice sold_by (working c) pre ts db1 ->
           line_invalid db1 item ->
           exists e, record_sale invoice items sold_by c = (c, Raise e))
    /\ (forall item,
           In item items ->
           i_qty item <= 0
           \/ (exists t, final_total_of (i_qty item) (i_unit_price item)
                           (round2 (i_discount item)) = Some t
                         /\ fltb t zero = true) ->
           exists e, record_sale invoice items sold_by c = (c, Raise e))
    /\ ((forall ts db', ~ accepted invoice sold_by (working c) items ts db') ->
        exists e, record_sale invoice items sold_by c = (c, Raise e)).
Proof.
  intros c invoice items sold_by Hq.
  assert (Hraise : forall c' e,
             record_sale invoice items sold_by c = (c', Raise e) -> c' = c).
  { intros c' e H. apply record_sale_result in H.
    destruct H as [(_ & _ & H)|(_ & H & _)]; [exact H|].
    rewrite H. apply fresh_conn_quiescent, Hq. }
  assert (Hnot : (forall ts db',
                     ~ accepted invoice sold_by (working c) items ts db') ->
                 exists e, record_sale invoice items sold_by c = (c, Raise e)).
  { intros Hno.
    destruct (record_sale invoice items sold_by c) as [c' [total|e]] eqn:E.
    - apply record_sale_result in E.
      destruct E as (_ & ts & db' & Hacc & _). exfalso. exact (Hno ts db' Hacc).
    - exists e. rewrite (Hraise c' e eq_refl). reflexivity. }
  split; [exact Hraise|]. split; [intros ->; reflexivity|].
  split; [|split; [|exact Hnot]].
  - intros pre item post ts db1 -> Hacc Hinv.
    destruct (sale_line_invalid invoice sold_by db1 item Hinv (committed c))
      as [e He].
    exists e.
    pose proof (sale_lines_rejected _ _ _ _ _ _ Hacc _ _ post _ [] He) as Hl.
    rewrite conn_eta in Hl.
    rewrite (record_sale_raises _ _ _ _ _ _ Hl) by (destruct pre; discriminate).
    cbn [committed]. rewrite (fresh_conn_quiescent c Hq). reflexivity.
  - intros item Hin Hbad. apply Hnot. intros ts db' Hacc.
    destruct (accepted_lines_valid _ _ _ _ _ _ Hacc item Hin)
      as (Hpos & t & Ht & Hneg).
    destruct Hbad as [Hle|(t' & Ht' & Hneg')]; [lia|].
    rewrite Ht in Ht'. inversion Ht'; subst. congruence.
Qed.

Lemma record_sale_all_or_nothing_witness :
  quiescent (stocked_conn 5)
  /\ exists e,
       record_sale "INV-X" ([unit_item 1 3] ++ unit_item 1 3 :: [unit_item 1 1])
                   None (stocked_conn 5)
       = (stocked_conn 5, Raise e).
Proof.
  split; [reflexivity|].
  apply (proj1 (proj2 (proj2 (record_sale_all_or_nothing (stocked_conn 5)
                  "INV-X" ([unit_item 1 3] ++ unit_item 1 3 :: [unit_item 1 1])
                  None eq_refl)))
               [unit_item 1 3] (unit_item 1 3) [unit_item 1 1]
               [of_ratio false 3 1]
               (after_line (working (stocked_conn 5)) "INV-X" None
                           (unit_item 1 3) (of_ratio false 3 1))).
  - reflexivity.
  - econstructor; [|constructor].
    split; [vm_compute; reflexivity|]. split; [reflexivity|].
    split; [vm_compute; reflexivity|]. split; [|vm_compute; reflexivity].
    eexists. split; [vm_compute; reflexivity|]. vm_compute. discriminate.
  - right. right. right. eexists. split; [vm_compute; reflexivity|].
    vm_compute. reflexivity.
Defined.

(** The stock a line is checked against after the lines [pre] before it in
    the batch were accepted, and the outcome of the check. *)
Lemma next_line_stock invoice sold_by db pre ts db1 item available t :
  accepted invoice sold_by db pre ts db1 ->
  quantity_of (i_product_id item) db = Some available ->
  final_total_of (i_qty item) (i_unit_price item) (round2 (i_discount item))
    = Some t ->
  0 < i_qty item ->
  fltb t zero = false ->
  is_nan (i_unit_price item) || is_nan (i_unit_cost item)
    || is_nan (round2 (i_discount item)) || is_nan t = false ->
  let left := available - demand (i_product_id item) pre in
  quantity_of (i_product_id item) db1 = Some left
  /\ (left < i_qty item ->
      forall cm,
        sale_line invoice sold_by item {| committed := cm; working := db1 |}
        = ({| committed := cm; working := db1 |},
           Raise (OnlyAvailable left
                    match i_product_name item with
                    | Some n => n
                    | None => "Unknown"
                    end)))
  /\ (i_qty item <= left ->
      line_accepts db1 item t
      /\ quantity_of (i_product_id item) (after_line db1 invoice sold_by item t)
         = Some (left - i_qty item)).
Proof.
  intros Hacc Hav Ht Hpos Hneg Hnan left.
  pose proof (accepted_quantity _ _ _ _ _ _ _ _ Hacc Hav) as Hleft.
  fold left in Hleft.
  destruct (quantity_of_select _ _ _ Hleft) as (r & Hr & Hrq).
  split; [exact Hleft|]. split.
  - intros Hlt cm. unfold sale_line. rewrite Ht.
    destruct (i_qty item <=? 0) eqn:E; [lia|]. rewrite Hneg.
    run_py. cbn [working]. rewrite Hr, Hrq.
    destruct (left <? i_qty item) eqn:E2; [reflexivity|lia].
  - intros Hle.
    assert (Hl : line_accepts db1 item t).
    { split; [exact Ht|]. split; [exact Hpos|]. split; [exact Hneg|].
      split; [|exact Hnan]. exists r. split; [exact Hr|lia]. }
    split; [exact Hl|].
    rewrite (quantity_shift _ _ db1 _
               (after_line_products invoice sold_by db1 item t)).
    rewrite Hleft, Z.eqb_refl. reflexivity.
Qed.

(** C7. Sequential dependent validation.  After the earlier lines [pre] of a
    batch were accepted, the stock that the check of the next line reads is
    the initial quantity minus the quantities the earlier lines asked of the
    same product; the line is refused with the available amount when it asks
    for more and accepted otherwise.  With 5 units in stock, two lines of 3
    raise for lack of stock (2 available) and leave the connection as it was,
    while lines of 3 and 2 are recorded and leave quantity 0. *)
Theorem sequential_dependent_validation :
  (forall (invoice : string) (sold_by : option Z) (db : DB) (pre : list Item)
          (ts : list float) (db1 : DB) (item : Item) (available : Z) (t : float),
      accepted invoice sold_by db pre ts db1 ->
      quantity_of (i_product_id item) db = Some available ->
      final_total_of (i_qty item) (i_unit_price item) (round2 (i_discount item))
        = Some t ->
      0 < i_qty item ->
      fltb t zero = false ->
      is_nan (i_unit_price item) || is_nan (i_unit_cost item)
        || is_nan (round2 (i_discount item)) || is_nan t = false ->
      let left := available - demand (i_product_id item) pre in
      quantity_of (i_product_id item) db1 = Some left
      /\ (left < i_qty item ->
          forall cm,
            sale_line invoice sold_by item {| committed := cm; working := db1 |}
            = ({| committed := cm; working := db1 |},
               Raise (OnlyAvailable left
                        match i_product_name item with
                        | Some n => n
                        | None => "Unknown"
                        end)))
      /\ (i_qty item <= left ->
          line_accepts db1 item t
          /\ quantity_of (i_product_id item)
                         (after_line db1 invoice sold_by item t)
             = Some (left - i_qty item)))
  /\ (forall (c : Conn) (invoice : string) (sold_by : option Z) (product_id : Z),
        quiescent c ->
        quantity_of product_id (working c) = Some 5 ->
        (record_sale invoice [unit_item product_id 3; unit_item product_id 3]
                     sold_by c
         = (c, Raise (OnlyAvailable 2 "Unknown"))
         /\ kind_of (OnlyAvailable 2 "Unknown") = InsufficientStock)
        /\ exists c',
             record_sale invoice [unit_item product_id 3; unit_item product_id 2]
                         sold_by c
             = (c', Ok (of_ratio false 5 1))
             /\ quantity_of product_id (working c') = Some 0).
Proof.
  split; [exact next_line_stock|].
  intros c invoice sold_by pid Hq Hfive.
  assert (Hdem : forall q, demand pid [unit_item pid q] = q).
  { intros q. unfold demand. simpl. rewrite Z.eqb_refl. simpl. lia. }
  (* the first line takes three of the five units *)
  destruct (next_line_stock invoice sold_by (working c) [] [] (working c)
              (unit_item pid 3) 5 (of_ratio false 3 1))
    as (_ & _ & Hfirst);
    [constructor|exact Hfive|vm_compute; reflexivity|reflexivity
    |vm_compute; reflexivity|vm_compute; reflexivity|].
  destruct Hfirst as [Hl1 _]; [vm_compute; discriminate|].
  assert (Hacc1 : accepted invoice sold_by (working c) [unit_item pid 3]
                    [of_ratio false 3 1]
                    (after_line (working c) invoice sold_by (unit_item pid 3)
                                (of_ratio false 3 1)))
    by (econstructor; [exact Hl1|constructor]).
  split.
  - (* a second line of three sees two units *)
    split; [|reflexivity].
    destruct (next_line_stock invoice sold_by (working c) [unit_item pid 3] _ _
                (unit_item pid 3) 5 (of_ratio false 3 1) Hacc1)
      as (_ & Hfail & _);
      [exact Hfive|vm_compute; reflexivity|reflexivity
      |vm_compute; reflexivity|vm_compute; reflexivity|].
    cbn [i_product_id unit_item] in Hfail. rewrite Hdem in Hfail.
    specialize (Hfail ltac:(simpl; lia) (committed c)).
    pose proof (sale_lines_rejected _ _ _ _ _ _ Hacc1 _ _ [] _ [] Hfail) as Hl.
    rewrite conn_eta in Hl. cbn [app] in Hl.
    rewrite (record_sale_raises _ _ _ _ _ _ Hl) by discriminate.
    cbn [committed]. rewrite (fresh_conn_quiescent c Hq). reflexivity.
  - (* a second line of two takes what is left *)
    destruct (next_line_stock invoice sold_by (working c) [unit_item pid 3] _ _
                (unit_item pid 2) 5 (of_ratio false 2 1) Hacc1)
      as (_ & _ & Hok);
      [exact Hfive|vm_compute; reflexivity|reflexivity
      |vm_compute; reflexivity|vm_compute; reflexivity|].
    cbn [i_product_id unit_item] in Hok. rewrite Hdem in Hok.
    destruct Hok as [Hl2 Hzero]; [simpl; lia|].
    assert (Hacc2 : accepted invoice sold_by (working c)
                      [unit_item pid 3; unit_item pid 2]
                      [of_ratio false 3 1; of_ratio false 2 1]
                      (after_line
                         (after_line (working c) invoice sold_by
                                     (unit_item pid 3) (of_ratio false 3 1))
                         invoice sold_by (unit_item pid 2) (of_ratio false 2 1)))
      by (econstructor; [exact Hl1|econstructor; [exact Hl2|constructor]]).
    pose proof (sale_lines_accepted _ _ _ _ _ _ Hacc2 (committed c) []) as Hl.
    rewrite conn_eta in Hl.
    eexists. split.
    + rewrite (record_sale_returns _ _ _ _ _ _ Hl) by discriminate.
      f_equal.
    + cbn [working fresh_conn]. exact Hzero.
Qed.

Lemma sequential_dependent_validation_witness :
  (quantity_of 1 (after_line (working (stocked_conn 5)) "INV-X" None
                             (unit_item 1 3) (of_ratio false 3 1))
   = Some (5 - demand 1 [unit_item 1 3]))
  /\ ((record_sale "INV-X" [unit_item 1 3; unit_item 1 3] None (stocked_conn 5)
       = (stocked_conn 5, Raise (OnlyAvailable 2 "Unknown"))
       /\ kind_of (OnlyAvailable 2 "Unknown") = InsufficientStock)
      /\ exists c',
           record_sale "INV-X" [unit_item 1 3; unit_item 1 2] None (stocked_conn 5)
           = (c', Ok (of_ratio false 5 1))
           /\ quantity_of 1 (working c') = Some 0).
Proof.
  split.
  - refine (proj1 (proj1 sequential_dependent_validation "INV-X" None
                     (working (stocked_conn 5)) [unit_item 1 3]
                     [of_ratio false 3 1]
                     (after_line (working (stocked_conn 5)) "INV-X" None
                                 (unit_item 1 3) (of_ratio false 3 1))
                     (unit_item 1 3) 5 (of_ratio false 3 1) _ _ _ _ _ _)).
    + econstructor; [|constructor].
      split; [vm_compute; reflexivity|]. split; [reflexivity|].
      split; [vm_compute; reflexivity|]. split; [|vm_compute; reflexivity].
      eexists. split; [vm_compute; reflexivity|]. vm_compute. discriminate.
    + vm_compute; reflexivity.
    + vm_compute; reflexivity.
    + reflexivity.
    + vm_compute; reflexivity.
    + vm_compute; reflexivity.
  - apply (proj2 sequential_dependent_validation (stocked_conn 5) "INV-X" None 1).
    + reflexivity.
    + vm_compute; reflexivity.
Defined.

(** C5, as amended.  For an accepted batch the ledger gains one row per
    line, in order; each row stores the discount rounded to 2 places and the
    total [round(qty * (unit_price - round(discount, 2)), 2)] of its own line,
    and the returned revenue is the float sum of the stored, already rounded
    totals.  The line of 3 units at 5.995 without discount gets the total
    17.98. *)
Theorem record_sale_rounding :
  (forall (c : Conn) (invoice : string) (items : list Item)
          (sold_by : option Z) (c' : Conn) (total : float),
      record_sale invoice items sold_by c = (c', Ok total) ->
      exists rows,
        sales (working c') = sales (working c) ++ rows
        /\ Forall2 (row_of_item invoice) items rows
        /\ total = py_sum (map s_total rows))
  /\ (forall (invoice : string) (item : Item) (row : Sale),
        row_of_item invoice item row ->
        i_qty item = 3 ->
        i_unit_price item = of_ratio false 5995 1000 ->
        i_discount item = zero ->
        s_total row = of_ratio false 1798 100).
Proof.
  split.
  - intros c invoice items sold_by c' total H.
    apply record_sale_result in H.
    destruct H as (_ & ts & db' & Hacc & -> & ->).
    destruct (accepted_sales _ _ _ _ _ _ Hacc) as (rows & Hs & Hf & ->).
    exists rows. cbn [working fresh_conn]. repeat split; assumption.
  - intros invoice item row (_ & _ & _ & _ & _ & _ & Ht) Hq Hp Hd.
    rewrite Hq, Hp, Hd in Ht.
    assert (E : final_total_of 3 (of_ratio false 5995 1000) (round2 zero)
                = Some (of_ratio false 1798 100)) by (vm_compute; reflexivity).
    congruence.
Qed.

Lemma record_sale_rounding_witness :
  (record_sale "INV-X" [rounding_item] None (stocked_conn 10)
   = (fst (record_sale "INV-X" [rounding_item] None (stocked_conn 10)),
      Ok (of_ratio false 1798 100))
   /\ exists rows,
        sales (working (fst (record_sale "INV-X" [rounding_item] None
                                         (stocked_conn 10))))
        = sales (working (stocked_conn 10)) ++ rows
        /\ Forall2 (row_of_item "INV-X") [rounding_item] rows
        /\ of_ratio false 1798 100 = py_sum (map s_total rows))
  /\ s_total (sale_row (working (stocked_conn 10)) "INV-X" None rounding_item
                       (of_ratio false 1798 100))
     = of_ratio false 1798 100.
Proof.
  split.
  - split; [vm_compute; reflexivity|].
    apply (proj1 record_sale_rounding (stocked_conn 10) "INV-X"
                 [rounding_item] None).
    vm_compute; reflexivity.
  - apply (proj2 record_sale_rounding "INV-X" rounding_item).
    + repeat split.
    + reflexivity.
    + reflexivity.
    + reflexivity.
Defined.

Lemma record_sale_rounding_counterexample :
  map s_total
      (sales (working (fst (record_sale "INV-X" [rounding_item] None
                                        (stocked_conn 10)))))
  = [of_ratio false 1798 100]
  /\ of_ratio false 1798 100 <> of_ratio false 1799 100
  /\ snd (record_sale "INV-X" [rounding_item] None (stocked_conn 10))
     = Ok (of_ratio false 1798 100).
Proof.
  split; [vm_compute; reflexivity|]. split; [vm_compute; discriminate|].
  vm_compute; reflexivity.
Qed.

(** Two lines of one unit at 1.004 each: the rounded line totals add up to
    2.0, while rounding the sum of the unrounded amounts would give 2.01. *)
Example sum_of_rounded_totals :
  let price := of_ratio false 1004 1000 in
  let line := round2 (fmul (of_ratio false 1 1) (fsub price (round2 zero))) in
  py_sum [line; line] = of_ratio false 2 1
  /\ round2 (fadd price price) = of_ratio false 201 100.
Proof. vm_compute. split; reflexivity. Qed.

(** ** Invoice Sequencer *)

Lemma generate_invoice_run today c :
  generate_invoice today c
  = (c, Ok (invoice_prefix today
            ++ format_03d
                 (Z.of_nat
                    (List.length
                       (nodup string_dec
                          (filter (prefix_nocase (invoice_prefix today))
                                  (map s_invoice (sales (working c))))))
                  + 1))%string).
Proof.
  unfold generate_invoice. run_py. unfold count_distinct_invoices_like.
  assert (Hpat : ("INV-" ++ strftime_ymd today ++ "-%")%string
                 = (invoice_prefix today ++ "%")%string).
  { unfold invoice_prefix. rewrite !string_app_assoc. reflexivity. }
  rewrite Hpat.
  rewrite (filter_ext _ _ (like_prefix _ (plain_invoice_prefix today))).
  unfold invoice_prefix. rewrite ?string_app_assoc. reflexivity.
Qed.

(** The number is padded to three digits and grows beyond them. *)
Example format_03d_samples :
  format_03d 1 = "001" /\ format_03d 42 = "042" /\ format_03d 999 = "999"
  /\ format_03d 1000 = "1000".
Proof. repeat split. Qed.

(** C6, as amended.  [generate_invoice] leaves the connection as it is and
    returns INV-YYMMDD- followed by [n + 1] in the format 03d, where [n]
    is the number of distinct invoice identifiers on the sale ledger that
    start with INV-YYMMDD- up to ASCII case, which is what the LIKE pattern
    selects; with two such identifiers the result ends in 003. *)
Theorem generate_invoice_sequence :
  forall (today : date) (c : Conn) (n : nat),
    List.length
      (nodup string_dec
         (filter (prefix_nocase (invoice_prefix today))
                 (map s_invoice (sales (working c))))) = n ->
    generate_invoice today c
    = (c, Ok (invoice_prefix today ++ format_03d (Z.of_nat n + 1))%string)
    /\ (n = 2%nat ->
        generate_invoice today c = (c, Ok (invoice_prefix today ++ "003")%string)).
Proof.
  intros today c n Hn. rewrite generate_invoice_run, Hn.
  split; [reflexivity|]. intros ->. reflexivity.
Qed.

Lemma generate_invoice_sequence_witness :
  let c := fst (record_sale "INV-261104-002" [unit_item 1 1] None
                  (fst (record_sale "INV-261104-001" [unit_item 1 1; unit_item 1 2]
                                    None (stocked_conn 10)))) in
  generate_invoice sample_day c = (c, Ok "INV-261104-003").
Proof.
  intros c.
  apply (proj2 (generate_invoice_sequence sample_day c 2 eq_refl) eq_refl).
Defined.

(** One invoice typed in lower case is on the ledger: no identifier there
    starts with INV-261104-, and the suggestion is number 002. *)
Lemma generate_invoice_sequence_counterexample :
  let c := fst (record_sale "inv-261104-zzz" [unit_item 1 1] None
                            (stocked_conn 10)) in
  map s_invoice (sales (working c)) = ["inv-261104-zzz"]
  /\ invoice_prefix sample_day = "INV-261104-"
  /\ String.prefix "INV-261104-" "inv-261104-zzz" = false
  /\ generate_invoice sample_day c = (c, Ok "INV-261104-002").
Proof. vm_compute. repeat split. Qed.

(** C10. The suggestion can collide.  On any day: after [add_product] has
    stocked one product, a sale is recorded under the suggested identifier
    (number 001), a second one under the next suggestion (number 002), and
    the first sale is undone.  In the state reached [generate_invoice]
    suggests number 002 again, an identifier that is on the sale ledger: it
    counts the identifiers that remain, not the numbers already issued. *)
Theorem generate_invoice_collision :
  forall today : date,
  exists inv1 inv2 : string,
    let c1 := stocked_conn 10 in
    let c2 := perform (RecordSale inv1 [unit_item 1 1] None) c1 in
    let c3 := perform (RecordSale inv2 [unit_item 1 1] None) c2 in
    let c4 := perform (UndoSale inv1 None) c3 in
    generate_invoice today c1 = (c1, Ok inv1)
    /\ generate_invoice today c2 = (c2, Ok inv2)
    /\ reachable c4
    /\ generate_invoice today c4 = (c4, Ok inv2)
    /\ In inv2 (map s_invoice (sales (working c4))).
Proof.
  intros today.
  set (p := invoice_prefix today).
  exists (p ++ "001")%string, (p ++ "002")%string.
  intros c1 c2 c3 c4.
  assert (Hs2 : map s_invoice (sales (working c2)) = [(p ++ "001")%string])
    by (vm_compute; reflexivity).
  assert (Hs3 : map s_invoice (sales (working c3))
                = [(p ++ "001")%string; (p ++ "002")%string])
    by (vm_compute; reflexivity).
  assert (Hs4 : map s_invoice (sales (working c4)) = [(p ++ "002")%string]).
  { unfold c4. cbn [perform]. rewrite undo_sale_run.
    assert (Hin : filter (fun i => String.eqb i (p ++ "001")%string)
                         (map s_invoice (sales (working c3)))
                  = [(p ++ "001")%string]).
    { rewrite Hs3. cbn [filter]. rewrite !string_app_eqb. reflexivity. }
    assert (Hout : filter (fun i => negb (String.eqb i (p ++ "001")%string))
                          (map s_invoice (sales (working c3)))
                   = [(p ++ "002")%string]).
    { rewrite Hs3. cbn [filter]. rewrite !string_app_eqb. reflexivity. }
    destruct (select_invoice_lines (p ++ "001") (working c3)) as [|l ls] eqn:E.
    { exfalso. apply select_invoice_lines_nil in E.
      rewrite <- (map_invoice_filter (fun i => String.eqb i (p ++ "001")%string)),
              E in Hin.
      discriminate. }
    cbn [fst working fresh_conn with_sales sales].
    destruct (restored_tables (l :: ls) (working c3)) as (Hs & _).
    rewrite Hs.
    rewrite (map_invoice_filter
               (fun i => negb (String.eqb i (p ++ "001")%string))).
    exact Hout. }
  split; [rewrite generate_invoice_run; reflexivity|].
  split.
  { rewrite generate_invoice_run, Hs2. cbn [filter]. fold p.
    rewrite prefix_nocase_app. reflexivity. }
  split.
  { unfold c4, c3, c2, c1, stocked_conn.
    change (fst (add_product "Ibuprofen 200mg" None 10 (of_ratio false 599 100)
                             (of_ratio false 35 10) 20 "Supplier A" None
                             (fresh_conn empty_db)))
      with (perform (AddProduct "Ibuprofen 200mg" None 10
                       (of_ratio false 599 100) (of_ratio false 35 10) 20
                       "Supplier A" None) (fresh_conn empty_db)).
    repeat apply reachable_perform. apply reachable_empty. }
  split.
  { rewrite generate_invoice_run, Hs4. cbn [filter]. fold p.
    rewrite prefix_nocase_app. reflexivity. }
  rewrite Hs4. left. reflexivity.
Qed.

(** ** Sale Reversal *)

(** C4, as amended.  When a sale commits under an invoice identifier that no
    sale line carried before, [undo_sale] on that invoice succeeds, puts the
    products table and the sale ledger back to what they were before the
    sale, leaves the adjustment ledger alone and commits; a second
    [undo_sale] on the invoice raises the not-found error and changes
    nothing. *)
Theorem undo_sale_round_trip :
  forall (c : Conn) (invoice : string) (items : list Item)
         (sold_by undone_by : option Z) (c1 : Conn) (total : float),
    record_sale invoice items sold_by c = (c1, Ok total) ->
    select_invoice_lines invoice (working c) = [] ->
    exists c2,
      undo_sale invoice undone_by c1 = (c2, Ok tt)
      /\ products (working c2) = products (working c)
      /\ sales (working c2) = sales (working c)
      /\ stock_adjustments (working c2) = stock_adjustments (working c)
      /\ quiescent c2
      /\ (forall again_by,
           undo_sale invoice again_by c2 = (c2, Raise (NoSalesFound invoice)))
      /\ kind_of (NoSalesFound invoice) = NotFound.
Proof.
  intros c invoice items sold_by undone_by c1 total Hrec Hfresh.
  apply record_sale_result in Hrec.
  destruct Hrec as (Hne & ts & db' & Hacc & -> & _).
  destruct (accepted_sales _ _ _ _ _ _ Hacc) as (rows & Hsales & Hrows & _).
  pose proof (select_invoice_lines_nil _ _ Hfresh) as Hold.
  pose proof (filter_all _ _ (rows_invoice _ _ _ Hrows)) as [Hin Hout].
  assert (Hlines : select_invoice_lines invoice db'
                   = map (fun i => (i_product_id i, i_qty i)) items).
  { unfold select_invoice_lines. rewrite Hsales, filter_app, Hold, Hin.
    simpl. apply (rows_lines invoice). exact Hrows. }
  rewrite undo_sale_run. cbn [working fresh_conn]. rewrite Hlines.
  destruct items as [|item0 rest]; [contradiction|].
  set (items := item0 :: rest) in *. simpl map at 1.
  eexists. split; [reflexivity|].
  cbn [working fresh_conn with_sales products sales stock_adjustments].
  assert (Hp : products (restored (map (fun i => (i_product_id i, i_qty i)) items) db')
               = products (working c)).
  { rewrite restored_products, (accepted_products _ _ _ _ _ _ Hacc), shift_shift.
    apply shift_zero_in. intros p _. rewrite credit_demand. lia. }
  destruct (restored_tables (map (fun i => (i_product_id i, i_qty i)) items) db')
    as (Hs & Ha & _).
  assert (Hsl : filter (fun s => negb (String.eqb (s_invoice s) invoice))
                       (sales (restored (map (fun i => (i_product_id i, i_qty i)) items) db'))
                = sales (working c)).
  { rewrite Hs, Hsales, filter_app, Hout, app_nil_r.
    apply filter_nil_negb. exact Hold. }
  split; [exact Hp|]. split; [exact Hsl|].
  split; [rewrite Ha; apply (accepted_stock_adjustments _ _ _ _ _ _ Hacc)|].
  split; [reflexivity|]. split; [|reflexivity].
  intros again_by. rewrite undo_sale_run. cbn [working fresh_conn].
  unfold select_invoice_lines at 1. cbn [sales with_sales].
  rewrite filter_filter_negb. reflexivity.
Qed.

Lemma undo_sale_round_trip_witness :
  select_invoice_lines "INV-X" (working (stocked_conn 10)) = []
  /\ exists c2,
       undo_sale "INV-X" None
                 (fst (record_sale "INV-X" [unit_item 1 3] None (stocked_conn 10)))
       = (c2, Ok tt)
       /\ products (working c2) = products (working (stocked_conn 10))
       /\ sales (working c2) = sales (working (stocked_conn 10))
       /\ stock_adjustments (working c2)
          = stock_adjustments (working (stocked_conn 10))
       /\ quiescent c2
       /\ (forall again_by,
            undo_sale "INV-X" again_by c2 = (c2, Raise (NoSalesFound "INV-X")))
       /\ kind_of (NoSalesFound "INV-X") = NotFound.
Proof.
  split; [reflexivity|].
  apply (undo_sale_round_trip (stocked_conn 10) "INV-X" [unit_item 1 3]
                              None None _ (of_ratio false 3 1)).
  - vm_compute; reflexivity.
  - reflexivity.
Defined.

(** Invoice INV-X already has a line for two units when three more are sold
    under it: reversal gives back five. *)
Lemma undo_sale_round_trip_counterexample :
  let c := fst (record_sale "INV-X" [unit_item 1 2] None (stocked_conn 10)) in
  let c1 := fst (record_sale "INV-X" [unit_item 1 3] None c) in
  let c2 := fst (undo_sale "INV-X" None c1) in
  quantity_of 1 (working c) = Some 8
  /\ snd (record_sale "INV-X" [unit_item 1 3] None c) = Ok (of_ratio false 3 1)
  /\ quantity_of 1 (working c1) = Some 5
  /\ snd (undo_sale "INV-X" None c1) = Ok tt
  /\ quantity_of 1 (working c2) = Some 10.
Proof. vm_compute. repeat split. Qed.

(** *** A sale crossed by the deletion of its product *)

(** With nothing in between, the two are [sale_line] and [record_sale]. *)
Lemma sale_line_with_nothing invoice sold_by item c :
  sale_line_with (ret tt) invoice sold_by item c
  = sale_line invoice sold_by item c.
Proof.
  unfold sale_line_with, sale_line.
  destruct (final_total_of _ _ _) as [t|]; [|reflexivity].
  destruct (i_qty item <=? 0); [reflexivity|].
  destruct (fltb t zero); [reflexivity|]. run_py.
  destruct (select_product (i_product_id item) (working c)) as [r|];
    [|reflexivity].
  destruct (p_quantity r <? i_qty item); reflexivity.
Qed.

Lemma record_sale_with_nothing invoice items sold_by c :
  record_sale_with (ret tt) invoice items sold_by c
  = record_sale invoice items sold_by c.
Proof.
  destruct items as [|item rest]; [reflexivity|].
  unfold record_sale_with, record_sale.
  cbv beta iota delta [bind try_except with_conn]. cbn [sale_lines].
  cbv beta iota delta [bind]. rewrite sale_line_with_nothing. reflexivity.
Qed.

(** The file a second session leaves when it deletes a product that exists
    and that no sale references. *)
Lemma session_delete_product product_id file r :
  select_product product_id file = Some r ->
  (forall s, In s (sales file) -> s_product_id s <> product_id) ->
  session (delete_product product_id) file
  = with_products (filter (fun p => negb (p_id p =? product_id)))
                  (delete_adjustments_where product_id file).
Proof.
  intros Hr Hsales. unfold session, delete_product, fresh_conn. run_py.
  cbn [working committed].
  destruct (0 <? count_sales_of product_id file) eqn:Ecnt.
  { apply count_sales_of_pos in Ecnt. destruct Ecnt as (s & Hs & Hid).
    destruct (Hsales s Hs Hid). }
  unfold delete_products_where. run_py. cbn [working committed].
  assert (Hn : (Z.of_nat
                  (List.length
                     (filter (fun p => p_id p =? product_id)
                        (products (delete_adjustments_where product_id file))))
                =? 0) = false).
  { apply Z.eqb_neq. unfold delete_adjustments_where, with_stock_adjustments.
    cbn [products].
    assert (Hin : In r (filter (fun p => p_id p =? product_id) (products file))).
    { apply filter_In. split; [exact (select_product_In _ _ _ Hr)|].
      apply Z.eqb_eq. exact (select_product_id _ _ _ Hr). }
    destruct (filter _ (products file)); [destruct Hin|]. cbn [List.length]. lia. }
  rewrite Hn. reflexivity.
Qed.

Lemma find_deleted product_id (l : list Product) :
  find (fun p => p_id p =? product_id)
       (filter (fun p => negb (p_id p =? product_id)) l) = None.
Proof.
  destruct (find _ (filter _ l)) as [p|] eqn:E; [|reflexivity].
  apply find_some in E. destruct E as [Hin Hid]. apply filter_In in Hin.
  destruct Hin as [_ Hne]. rewrite Hid in Hne. discriminate.
Qed.

(** The sale of one line that a second session's deletion of the product
    crosses: the line is committed on the file without the product. *)
Lemma record_sale_with_deleted invoice sold_by item t r c :
  quiescent c ->
  line_accepts (working c) item t ->
  select_product (i_product_id item) (working c) = Some r ->
  (forall s, In s (sales (working c)) -> s_product_id s <> i_product_id item) ->
  record_sale_with (meanwhile (delete_product (i_product_id item))) invoice
                   [item] sold_by c
  = (fresh_conn
       (after_line
          (with_products
             (filter (fun p => negb (p_id p =? i_product_id item)))
             (delete_adjustments_where (i_product_id item) (working c)))
          invoice sold_by item t),
     Ok (py_sum [t])).
Proof.
  intros Hc (Ht & Hq & Hneg & (r' & Hr' & Hav) & Hnan) Hr Hsales.
  rewrite Hr in Hr'. injection Hr' as <-.
  unfold record_sale_with, sale_line_with. rewrite Ht.
  destruct (i_qty item <=? 0) eqn:E; [lia|]. rewrite Hneg.
  cbv beta iota delta [bind try_except with_conn query]. rewrite Hr.
  destruct (p_quantity r <? i_qty item) eqn:E2; [lia|].
  unfold meanwhile. rewrite <- Hc.
  rewrite (session_delete_product _ _ _ Hr Hsales).
  unfold insert_sale. rewrite Hnan. cbn [sale_lines app]. reflexivity.
Qed.

(** C9.  [undo_sale] does not fail on a line whose product is missing.  Let
    a session sell one line of a product in stock, on a connection at rest,
    while a second session deletes the product, which no sale references yet,
    between the stock check and the INSERT of [record_sale].  The sale returns
    and its line is committed on a file that holds the product no more.
    [undo_sale] on the invoice then returns without any error: the line is
    deleted and the change committed, the product is still missing, and when
    the invoice had no other line no quantity of the catalog has changed, so
    the units of the line are given back to no product. *)
Theorem undo_sale_missing_product :
  forall (c : Conn) (invoice : string) (item : Item)
         (sold_by undone_by : option Z) (q : Z),
    quiescent c ->
    well_formed item ->
    quantity_of (i_product_id item) (working c) = Some q ->
    i_qty item <= q ->
    (forall s, In s (sales (working c)) -> s_product_id s <> i_product_id item) ->
    exists total c1 c2,
      record_sale_with (meanwhile (delete_product (i_product_id item)))
                       invoice [item] sold_by c = (c1, Ok total)
      /\ quiescent c1
      /\ In (i_product_id item, i_qty item)
            (select_invoice_lines invoice (working c1))
      /\ select_product (i_product_id item) (working c1) = None
      /\ undo_sale invoice undone_by c1 = (c2, Ok tt)
      /\ quiescent c2
      /\ select_invoice_lines invoice (working c2) = []
      /\ select_product (i_product_id item) (working c2) = None
      /\ ((forall s, In s (sales (working c)) -> s_invoice s <> invoice) ->
          products (working c2) = products (working c1)).
Proof.
  intros c invoice item sold_by undone_by q Hc (Hpos & t & Ht & Hneg & Hnan)
         Hq Hle Hsales.
  destruct (quantity_of_select _ _ _ Hq) as (r & Hr & Hrq).
  assert (Hacc : line_accepts (working c) item t).
  { split; [exact Ht|]. split; [exact Hpos|]. split; [exact Hneg|].
    split; [|exact Hnan]. exists r. split; [exact Hr|lia]. }
  set (pid := i_product_id item) in *.
  set (file := with_products (filter (fun p => negb (p_id p =? pid)))
                             (delete_adjustments_where pid (working c))).
  set (db1 := after_line file invoice sold_by item t).
  assert (Hlines : select_invoice_lines invoice db1
                   = select_invoice_lines invoice (working c)
                     ++ [(pid, i_qty item)]).
  { unfold select_invoice_lines, db1, after_line, update_quantity_where,
      with_products. cbn [sales]. rewrite filter_app, map_app.
    cbn [filter sale_row s_invoice]. rewrite String.eqb_refl. reflexivity. }
  assert (Hprod : products db1 = products file).
  { unfold db1, after_line, update_quantity_where, with_products.
    cbn [products]. rewrite <- (map_id (products file)) at 2.
    apply map_ext_in. intros p Hp. unfold file, with_products in Hp.
    cbn [products] in Hp. apply filter_In in Hp. destruct Hp as [_ Hne].
    apply negb_true_iff in Hne. fold pid. rewrite Hne. reflexivity. }
  assert (Hgone : forall db, products db = products file ->
                             select_product pid db = None).
  { intros db Hdb. unfold select_product. rewrite Hdb. apply find_deleted. }
  exists (py_sum [t]), (fresh_conn db1).
  eexists. split.
  { exact (record_sale_with_deleted invoice sold_by item t r c Hc Hacc Hr Hsales). }
  split; [reflexivity|]. cbn [working fresh_conn].
  split; [rewrite Hlines; apply in_or_app; right; left; reflexivity|].
  split; [exact (Hgone db1 Hprod)|].
  rewrite undo_sale_run. cbn [working fresh_conn]. rewrite Hlines.
  destruct (select_invoice_lines invoice (working c) ++ [(pid, i_qty item)])
    as [|l lines] eqn:El.
  { destruct (select_invoice_lines invoice (working c)); discriminate. }
  rewrite <- El. split; [reflexivity|]. split; [reflexivity|].
  cbn [working fresh_conn].
  split.
  { unfold select_invoice_lines, with_sales. cbn [sales].
    rewrite filter_filter_negb. reflexivity. }
  split.
  { unfold select_product, with_sales. cbn [products].
    rewrite restored_products, Hprod.
    unfold shift. rewrite find_map_same_id by reflexivity.
    unfold file, with_products. cbn [products]. rewrite find_deleted.
    reflexivity. }
  intros Hinv. unfold with_sales. cbn [products].
  rewrite restored_products. apply shift_zero_in. intros p Hp.
  assert (Hnone : select_invoice_lines invoice (working c) = []).
  { unfold select_invoice_lines.
    destruct (filter _ (sales (working c))) as [|s ss] eqn:Ef; [reflexivity|].
    assert (Hs : In s (filter (fun s => String.eqb (s_invoice s) invoice)
                              (sales (working c)))) by (rewrite Ef; left; reflexivity).
    apply filter_In in Hs. destruct Hs as [Hs Heq]. apply String.eqb_eq in Heq.
    destruct (Hinv s Hs Heq). }
  rewrite Hnone. cbn [app]. unfold credit. cbn [filter fst].
  rewrite Hprod in Hp. unfold file, with_products in Hp. cbn [products] in Hp.
  apply filter_In in Hp. destruct Hp as [_ Hne]. apply negb_true_iff in Hne.
  rewrite Z.eqb_sym, Hne. reflexivity.
Qed.

Lemma undo_sale_missing_product_witness :
  exists total c1 c2,
    record_sale_with (meanwhile (delete_product 1)) "INV-X" [unit_item 1 3]
                     None (stocked_conn 10) = (c1, Ok total)
    /\ quiescent c1
    /\ In (1, 3) (select_invoice_lines "INV-X" (working c1))
    /\ select_product 1 (working c1) = None
    /\ undo_sale "INV-X" None c1 = (c2, Ok tt)
    /\ quiescent c2
    /\ select_invoice_lines "INV-X" (working c2) = []
    /\ select_product 1 (working c2) = None
    /\ ((forall s, In s (sales (working (stocked_conn 10))) ->
                   s_invoice s <> "INV-X") ->
        products (working c2) = products (working c1)).
Proof.
  apply (undo_sale_missing_product (stocked_conn 10) "INV-X" (unit_item 1 3)
                                   None None 10).
  - reflexivity.
  - split; [reflexivity|]. eexists. split; [vm_compute; reflexivity|].
    split; reflexivity.
  - reflexivity.
  - cbn [unit_item i_qty]. lia.
  - intros s [].
Defined.

(** The state of the witness, and the reversal on it, computed. *)
Example raced_conn_tables :
  products (working raced_conn) = []
  /\ stock_adjustments (working raced_conn) = []
  /\ select_invoice_lines "INV-X" (working raced_conn) = [(1, 3)]
  /\ quiescent raced_conn
  /\ undo_sale "INV-X" None raced_conn
     = (fresh_conn {| products := []; sales := []; stock_adjustments := [];
                      seq_products := 1; seq_sales := 1;
                      seq_stock_adjustments := 1 |}, Ok tt).
Proof. vm_compute. repeat split. Qed.

(** ** Catalog deletion guard *)

(** C8. Deletion guard.  When some sale line references the product,
    [delete_product] raises the conflict error and the connection is
    unchanged; when none does and the product exists, it succeeds and commits
    a database without the product row and without the product's adjustment
    rows, the sale ledger untouched. *)
Theorem delete_product_guard :
  forall (c : Conn) (product_id : Z),
    ((exists s, In s (sales (working c)) /\ s_product_id s = product_id) ->
     delete_product product_id c = (c, Raise SalesHistoryExists)
     /\ kind_of SalesHistoryExists = Conflict)
    /\ ((forall s, In s (sales (working c)) -> s_product_id s <> product_id) ->
        (exists p, In p (products (working c)) /\ p_id p = product_id) ->
        exists c',
          delete_product product_id c = (c', Ok tt)
          /\ quiescent c'
          /\ products (working c')
             = filter (fun p => negb (p_id p =? product_id))
                      (products (working c))
          /\ stock_adjustments (working c')
             = filter (fun a => negb (a_product_id a =? product_id))
                      (stock_adjustments (working c))
          /\ sales (working c') = sales (working c)).
Proof.
  intros c pid. split.
  - intros Hex. apply count_sales_of_pos in Hex. split; [|reflexivity].
    unfold delete_product. run_py. rewrite Hex. reflexivity.
  - intros Hnone (p & Hp & Hid).
    assert (Hcnt : (0 <? count_sales_of pid (working c)) = false).
    { destruct (0 <? count_sales_of pid (working c)) eqn:E; [|reflexivity].
      apply count_sales_of_pos in E. destruct E as (s & Hin & Hs).
      exfalso. exact (Hnone s Hin Hs). }
    unfold delete_product, delete_products_where. run_py. rewrite Hcnt.
    cbn [committed working delete_adjustments_where with_stock_adjustments
         products].
    assert (Hrow : (Z.of_nat (List.length (filter (fun p => p_id p =? pid)
                                                  (products (working c)))) =? 0)
                   = false).
    { assert (Hf : In p (filter (fun p => p_id p =? pid) (products (working c)))).
      { apply filter_In. split; [exact Hp|]. lia. }
      destruct (filter _ (products (working c))); [contradiction|]. reflexivity. }
    rewrite Hrow. eexists. split; [reflexivity|].
    repeat split.
Qed.

Lemma delete_product_guard_witness :
  (delete_product 1 (fst (record_sale "INV-X" [unit_item 1 3] None
                                      (stocked_conn 10)))
   = (fst (record_sale "INV-X" [unit_item 1 3] None (stocked_conn 10)),
      Raise SalesHistoryExists)
   /\ kind_of SalesHistoryExists = Conflict)
  /\ exists c',
       delete_product 1 (stocked_conn 10) = (c', Ok tt)
       /\ quiescent c'
       /\ products (working c')
          = filter (fun p => negb (p_id p =? 1))
                   (products (working (stocked_conn 10)))
       /\ stock_adjustments (working c')
          = filter (fun a => negb (a_product_id a =? 1))
                   (stock_adjustments (working (stocked_conn 10)))
       /\ sales (working c') = sales (working (stocked_conn 10)).
Proof.
  split.
  - apply (proj1 (delete_product_guard
                    (fst (record_sale "INV-X" [unit_item 1 3] None
                                      (stocked_conn 10))) 1)).
    eexists. split; [left; reflexivity|reflexivity].
  - apply (proj2 (delete_product_guard (stocked_conn 10) 1)).
    + intros s [].
    + eexists. split; [left; reflexivity|reflexivity].
Defined.

(** ** The accounting identity *)

Lemma consistent_rollback c : consistent c -> consistent (fresh_conn (committed c)).
Proof. intros H. rewrite fresh_conn_quiescent; [exact H|apply H]. Qed.

Lemma consistent_fresh db :
  schema_ok db -> accounting db -> consistent (fresh_conn db).
Proof. intros H1 H2. split; [reflexivity|]. split; assumption. Qed.

Lemma empty_consistent : consistent (fresh_conn empty_db).
Proof.
  split; [reflexivity|]. split.
  - split; [constructor|]. split; intros ? [].
  - intros p [].
Qed.

Lemma accounting_map (g : Product -> Product) db db' :
  accounting db ->
  products db' = map g (products db) ->
  (forall p, In p (products db) ->
             p_id (g p) = p_id p
             /\ p_quantity (g p) - p_quantity p
                = (adjusted (p_id p) db' - sold (p_id p) db')
                  - (adjusted (p_id p) db - sold (p_id p) db)) ->
  accounting db'.
Proof.
  intros Hacc Hp Hg p' Hin. rewrite Hp in Hin. apply in_map_iff in Hin.
  destruct Hin as (p & <- & Hin). destruct (Hg p Hin) as [Hid Hq].
  rewrite Hid. specialize (Hacc p Hin). lia.
Qed.

Lemma schema_same_ids db db' :
  schema_ok db ->
  map p_id (products db') = map p_id (products db) ->
  (forall a, In a (stock_adjustments db') ->
             In (a_product_id a) (map p_id (products db))) ->
  (forall s, In s (sales db') -> In (s_product_id s) (map p_id (products db))) ->
  schema_ok db'.
Proof.
  intros (Hnd & _ & _) Hids Ha Hs. unfold schema_ok. rewrite Hids.
  split; [exact Hnd|]. split; assumption.
Qed.

Lemma add_product_consistent name category_id quantity price cost reorder_level
    supplier expiry_date c :
  consistent c ->
  consistent (fst (add_product name category_id quantity price cost
                               reorder_level supplier expiry_date c)).
Proof.
  intros Hc. unfold add_product.
  destruct (String.eqb (strip name) ""); [exact Hc|].
  destruct (fltb price zero || fltb cost zero || (quantity <? 0)
            || (reorder_level <? 0)) eqn:Eval; [exact Hc|].
  apply orb_false_elim in Eval. destruct Eval as [Eval _].
  apply orb_false_elim in Eval. destruct Eval as [_ Hq].
  unfold insert_product, insert_adjustment. run_py.
  destruct (is_nan price || is_nan cost).
  { cbn [committed working]. apply consistent_rollback, Hc. }
  cbn [committed working].
  destruct Hc as (_ & (Hnd & Hfa & Hfs) & Hacc).
  set (db := working c) in *.
  set (rowid := next_rowid (seq_products db) (map p_id (products db))).
  assert (Hfresh : ~ In rowid (map p_id (products db)))
    by apply next_rowid_fresh.
  assert (Hother : forall p, In p (products db) -> (rowid =? p_id p) = false).
  { intros p Hin. apply Z.eqb_neq. intros E. apply Hfresh. rewrite E.
    apply in_map, Hin. }
  destruct (0 <? quantity) eqn:Epos; cbn [committed working fst];
    match goal with |- consistent ?x => change x with (fresh_conn (working x)) end;
    cbn [working]; apply consistent_fresh.
  - (* the initial stock is logged *)
    split; [|split]; cbn [products stock_adjustments sales].
    + rewrite map_app. apply NoDup_snoc; assumption.
    + intros a Hin. rewrite map_app. apply in_or_app.
      apply in_app_or in Hin. destruct Hin as [Hin|[<-|[]]].
      * left. apply Hfa, Hin.
      * right. left. reflexivity.
    + intros s Hin. rewrite map_app. apply in_or_app. left. apply Hfs, Hin.
  - intros p Hin. cbn [products] in Hin. apply in_app_or in Hin.
    match goal with
    | |- context [adjusted _ ?d] =>
        rewrite (adjusted_snoc (p_id p) db d _ eq_refl),
                (sold_same (p_id p) db d eq_refl)
    end.
    cbn [a_product_id a_adjustment_qty].
    destruct Hin as [Hin|[<-|[]]].
    + rewrite (Hother p Hin). rewrite (Hacc p Hin). lia.
    + cbn [p_id p_quantity]. rewrite Z.eqb_refl.
      rewrite (adjusted_absent rowid db Hfa Hfresh),
              (sold_absent rowid db Hfs Hfresh). lia.
  - (* nothing is logged for an empty stock *)
    split; [|split]; cbn [products stock_adjustments sales].
    + rewrite map_app. apply NoDup_snoc; assumption.
    + intros a Hin. rewrite map_app. apply in_or_app. left. apply Hfa, Hin.
    + intros s Hin. rewrite map_app. apply in_or_app. left. apply Hfs, Hin.
  - intros p Hin. cbn [products] in Hin. apply in_app_or in Hin.
    match goal with
    | |- context [adjusted _ ?d] =>
        rewrite (adjusted_same (p_id p) db d eq_refl),
                (sold_same (p_id p) db d eq_refl)
    end.
    destruct Hin as [Hin|[<-|[]]].
    + exact (Hacc p Hin).
    + cbn [p_id p_quantity].
      rewrite (adjusted_absent rowid db Hfa Hfresh),
              (sold_absent rowid db Hfs Hfresh). lia.
Qed.

Lemma update_product_consistent product_id name category_id price cost
    new_quantity reorder_level supplier expiry_date adjusted_by c :
  consistent c ->
  consistent (fst (update_product product_id name category_id price cost
                                  new_quantity reorder_level supplier
                                  expiry_date adjusted_by c)).
Proof.
  intros Hc. unfold update_product.
  destruct (String.eqb (strip name) ""); [exact Hc|].
  destruct (fltb price zero || fltb cost zero || (new_quantity <? 0)
            || (reorder_level <? 0)); [exact Hc|].
  run_py.
  destruct (select_product product_id (working c)) as [r|] eqn:Hsel; [|exact Hc].
  unfold update_product_row.
  destruct ((is_nan price || is_nan cost)
            && existsb (fun p => p_id p =? product_id) (products (working c))).
  { cbn [committed working]. apply consistent_rollback, Hc. }
  unfold insert_adjustment. run_py. cbn [committed working].
  destruct Hc as (_ & Hschema & Hacc).
  set (db := working c) in *.
  assert (Hids : forall l : list Product,
             map p_id
               (map (fun p => if p_id p =? product_id
                              then {| p_id := p_id p; p_name := strip name;
                                      p_category_id := category_id;
                                      p_quantity := new_quantity;
                                      p_price := price; p_cost := cost;
                                      p_reorder_level := reorder_level;
                                      p_supplier := or_none (strip supplier);
                                      p_expiry_date := expiry_date |}
                              else p) l)
             = map p_id l).
  { intros l. rewrite map_map. apply map_ext. intros p.
    destruct (p_id p =? product_id); reflexivity. }
  destruct (new_quantity - p_quantity r =? 0) eqn:Ed;
    cbn [committed working];
    match goal with |- consistent ?x => change x with (fresh_conn (working x)) end;
    cbn [working]; apply consistent_fresh.
  - apply (schema_same_ids db); [exact Hschema|apply Hids| |].
    + intros a Hin. apply Hschema, Hin.
    + intros s Hin. apply Hschema, Hin.
  - eapply (accounting_map _ db); [exact Hacc|reflexivity|].
    intros p Hin. split; [destruct (p_id p =? product_id); reflexivity|].
    match goal with
    | |- context [adjusted _ ?d] =>
        lazymatch d with
        | db => fail
        | _ => rewrite (adjusted_same (p_id p) db d eq_refl),
                       (sold_same (p_id p) db d eq_refl)
        end
    end.
    destruct (p_id p =? product_id) eqn:E; cbn [p_quantity]; [|lia].
    apply Z.eqb_eq in E. destruct Hschema as (Hnd & _).
    rewrite (select_unique _ _ _ _ Hnd Hsel Hin E). lia.
  - apply (schema_same_ids db); [exact Hschema|apply Hids| |].
    + cbn [stock_adjustments with_products].
      intros a Hin. apply in_app_or in Hin. destruct Hin as [Hin|[<-|[]]].
      * apply Hschema, Hin.
      * apply (select_product_ids _ _ _ Hsel).
    + intros s Hin. apply Hschema, Hin.
  - eapply (accounting_map _ db); [exact Hacc|reflexivity|].
    intros p Hin. split; [destruct (p_id p =? product_id); reflexivity|].
    match goal with
    | |- context [adjusted _ ?d] =>
        lazymatch d with
        | db => fail
        | _ => rewrite (adjusted_snoc (p_id p) db d _ eq_refl),
                       (sold_same (p_id p) db d eq_refl)
        end
    end.
    cbn [a_product_id a_adjustment_qty].
    rewrite (Z.eqb_sym product_id).
    destruct (p_id p =? product_id) eqn:E; cbn [p_quantity]; [|lia].
    apply Z.eqb_eq in E. destruct Hschema as (Hnd & _).
    rewrite (select_unique _ _ _ _ Hnd Hsel Hin E). lia.
Qed.

Lemma adjust_stock_consistent product_id adj_qty reason adjusted_by c :
  consistent c ->
  consistent (fst (adjust_stock product_id adj_qty reason adjusted_by c)).
Proof.
  intros Hc. unfold adjust_stock.
  destruct (adj_qty =? 0); [exact Hc|].
  destruct (String.eqb (strip reason) ""); [exact Hc|].
  run_py.
  destruct (select_product product_id (working c)) as [r|] eqn:Hsel; [|exact Hc].
  destruct (p_quantity r + adj_qty <? 0); [exact Hc|].
  unfold insert_adjustment. run_py. cbn [committed working].
  destruct Hc as (_ & Hschema & Hacc).
  set (db := working c) in *.
  match goal with |- consistent ?x => change x with (fresh_conn (working x)) end.
  cbn [working]. apply consistent_fresh.
  - apply (schema_same_ids db); [exact Hschema| | |].
    + cbn [products update_quantity_where with_products].
      rewrite map_map. apply map_ext. intros p.
      destruct (p_id p =? product_id); reflexivity.
    + cbn [stock_adjustments update_quantity_where with_stock_adjustments
           with_products].
      intros a Hin. apply in_app_or in Hin. destruct Hin as [Hin|[<-|[]]].
      * apply Hschema, Hin.
      * apply (select_product_ids _ _ _ Hsel).
    + intros s Hin. apply Hschema, Hin.
  - eapply (accounting_map _ db); [exact Hacc|reflexivity|].
    intros p Hin. split; [destruct (p_id p =? product_id); reflexivity|].
    match goal with
    | |- context [adjusted _ ?d] =>
        lazymatch d with
        | db => fail
        | _ => rewrite (adjusted_snoc (p_id p) db d _ eq_refl),
                       (sold_same (p_id p) db d eq_refl)
        end
    end.
    cbn [a_product_id a_adjustment_qty].
    rewrite (Z.eqb_sym product_id).
    destruct (p_id p =? product_id) eqn:E; cbn [p_quantity set_quantity]; [|lia].
    apply Z.eqb_eq in E.
    destruct Hschema as (Hnd & _).
    rewrite (select_unique _ _ _ _ Hnd Hsel Hin E). lia.
Qed.

Lemma after_line_consistent db invoice sold_by item t :
  line_accepts db item t ->
  schema_ok db -> accounting db ->
  schema_ok (after_line db invoice sold_by item t)
  /\ accounting (after_line db invoice sold_by item t).
Proof.
  intros (_ & _ & _ & (r & Hsel & _) & _) Hschema Hacc. split.
  - apply (schema_same_ids db); [exact Hschema| | |].
    + rewrite after_line_products. apply shift_ids.
    + intros a Hin. apply Hschema, Hin.
    + intros s Hin. cbn [after_line sales update_quantity_where with_products] in Hin.
      apply in_app_or in Hin. destruct Hin as [Hin|[<-|[]]].
      * apply Hschema, Hin.
      * apply (select_product_ids _ _ _ Hsel).
  - eapply (accounting_map _ db);
      [exact Hacc|rewrite after_line_products; reflexivity|].
    intros p Hin. split; [reflexivity|].
    rewrite (adjusted_same (p_id p) db (after_line db invoice sold_by item t) eq_refl).
    rewrite (sold_app (p_id p) db (after_line db invoice sold_by item t)
                      [sale_row db invoice sold_by item t] eq_refl).
    cbn [p_quantity set_quantity filter map sale_row s_product_id s_qty].
    rewrite (Z.eqb_sym (i_product_id item)).
    destruct (p_id p =? i_product_id item); simpl; lia.
Qed.

Lemma accepted_consistent invoice sold_by db items ts db' :
  accepted invoice sold_by db items ts db' ->
  schema_ok db -> accounting db -> schema_ok db' /\ accounting db'.
Proof.
  induction 1 as [db|db item t items ts db' Hl _ IH]; intros Hs Ha;
    [split; assumption|].
  destruct (after_line_consistent db invoice sold_by item t Hl Hs Ha) as [Hs' Ha'].
  apply IH; assumption.
Qed.

Lemma record_sale_consistent invoice items sold_by c :
  consistent c -> consistent (fst (record_sale invoice items sold_by c)).
Proof.
  intros Hc.
  destruct (record_sale invoice items sold_by c) as [c' [total|e]] eqn:E;
    apply record_sale_result in E; cbn [fst].
  - destruct E as (_ & ts & db' & Hacc & -> & _).
    destruct Hc as (_ & Hs & Ha).
    destruct (accepted_consistent _ _ _ _ _ _ Hacc Hs Ha).
    apply consistent_fresh; assumption.
  - destruct E as [(_ & _ & ->)|(_ & -> & _)]; [exact Hc|].
    apply consistent_rollback, Hc.
Qed.

Lemma undo_sale_consistent invoice sold_by c :
  consistent c -> consistent (fst (undo_sale invoice sold_by c)).
Proof.
  intros Hc. rewrite undo_sale_run.
  destruct (select_invoice_lines invoice (working c)) as [|l0 ls] eqn:E;
    [exact Hc|].
  rewrite <- E. clear E l0 ls. cbn [fst].
  destruct Hc as (_ & Hschema & Hacc).
  set (db := working c) in *.
  set (lines := select_invoice_lines invoice db).
  destruct (restored_tables lines db) as (Hs & Had & _).
  apply consistent_fresh.
  - apply (schema_same_ids db); [exact Hschema| | |].
    + cbn [with_sales products]. rewrite restored_products. apply shift_ids.
    + cbn [with_sales stock_adjustments]. rewrite Had.
      intros a Hin. apply Hschema, Hin.
    + cbn [with_sales sales]. rewrite Hs. intros s Hin.
      apply filter_In in Hin. apply Hschema, Hin.
  - eapply (accounting_map _ db);
      [exact Hacc|cbn [with_sales products]; rewrite restored_products;
                  reflexivity|].
    intros p Hin. split; [reflexivity|].
    cbn [p_quantity set_quantity].
    unfold adjusted, sold. cbn [with_sales stock_adjustments sales].
    rewrite Had, Hs, (sold_split invoice (p_id p) (sales db)).
    fold (select_invoice_lines invoice db). fold lines. lia.
Qed.

Lemma delete_product_consistent product_id c :
  consistent c -> consistent (fst (delete_product product_id c)).
Proof.
  intros Hc. unfold delete_product, delete_products_where. run_py.
  destruct (0 <? count_sales_of product_id (working c)) eqn:Ecnt; [exact Hc|].
  unfold delete_adjustments_where, with_stock_adjustments, with_products.
  cbn [committed working products sales stock_adjustments seq_products
       seq_sales seq_stock_adjustments].
  assert (Hnosale : forall s, In s (sales (working c)) ->
                              s_product_id s <> product_id).
  { intros s Hin Hid.
    assert (H : (0 <? count_sales_of product_id (working c)) = true)
      by (apply count_sales_of_pos; exists s; split; assumption).
    congruence. }
  destruct Hc as (Hq & (Hnd & Hfa & Hfs) & Hacc).
  set (db := working c) in *.
  destruct (Z.of_nat (List.length (filter (fun p => p_id p =? product_id)
                                          (products db))) =? 0) eqn:Erow.
  - (* no such product: the two DELETEs matched nothing *)
    assert (Hnone : forall p, In p (products db) -> (p_id p =? product_id) = false).
    { intros p Hin. destruct (p_id p =? product_id) eqn:E; [|reflexivity].
      assert (Hf : In p (filter (fun p => p_id p =? product_id) (products db)))
        by (apply filter_In; split; assumption).
      destruct (filter _ (products db)); [contradiction|discriminate]. }
    assert (Hnoadj : forall a, In a (stock_adjustments db) ->
                               (a_product_id a =? product_id) = false).
    { intros a Hin. apply Z.eqb_neq. intros E. specialize (Hfa a Hin).
      apply in_map_iff in Hfa. destruct Hfa as (p & Hid & Hp).
      specialize (Hnone p Hp). lia. }
    cbn [fst]. rewrite (filter_none _ _ Hnone), (filter_none _ _ Hnoadj).
    cbn [sales stock_adjustments seq_products seq_sales seq_stock_adjustments].
    rewrite db_eta. subst db. rewrite conn_eta.
    split; [exact Hq|]. split; [|exact Hacc]. split; [exact Hnd|].
    split; assumption.
  - cbn [fst committed working].
    match goal with |- consistent ?x => change x with (fresh_conn (working x)) end.
    cbn [working]. apply consistent_fresh.
    + split; [|split]; cbn [products stock_adjustments sales].
      * clear - Hnd. induction (products db) as [|p l IH]; [constructor|].
        simpl in *. inversion Hnd as [|? ? Hp Hl]; subst.
        destruct (p_id p =? product_id); simpl; [apply IH, Hl|].
        constructor; [|apply IH, Hl]. intros Hin. apply Hp.
        apply in_map_iff in Hin. destruct Hin as (x & Hx & Hin).
        apply filter_In in Hin. rewrite <- Hx. apply in_map, Hin.
      * intros a Hin. apply filter_In in Hin. destruct Hin as [Hin Hne].
        specialize (Hfa a Hin). apply in_map_iff in Hfa.
        destruct Hfa as (p & Hid & Hp). apply in_map_iff. exists p.
        split; [exact Hid|]. apply filter_In. split; [exact Hp|].
        rewrite Hid. exact Hne.
      * intros s Hin. specialize (Hfs s Hin). apply in_map_iff in Hfs.
        destruct Hfs as (p & Hid & Hp). apply in_map_iff. exists p.
        split; [exact Hid|]. apply filter_In. split; [exact Hp|].
        rewrite Hid. apply negb_true_iff, Z.eqb_neq, Hnosale, Hin.
    + intros p Hin. cbn [products] in Hin. apply filter_In in Hin.
      destruct Hin as [Hin Hne]. apply negb_true_iff, Z.eqb_neq in Hne.
      match goal with
      | |- context [adjusted _ ?d] =>
          rewrite (adjusted_filter_other product_id (p_id p) db d eq_refl Hne),
                  (sold_same (p_id p) db d eq_refl)
      end.
      exact (Hacc p Hin).
Qed.

Lemma perform_consistent op c : consistent c -> consistent (perform op c).
Proof.
  intros Hc. destruct op; cbn [perform].
  - apply add_product_consistent, Hc.
  - apply update_product_consistent, Hc.
  - apply adjust_stock_consistent, Hc.
  - apply record_sale_consistent, Hc.
  - apply undo_sale_consistent, Hc.
  - apply delete_product_consistent, Hc.
Qed.

(** C1. Accounting invariant.  Starting from a connection at rest whose
    database meets the schema's key constraints and the accounting identity
    (every product's quantity is the sum of its adjustment deltas minus the sum
    of the quantities of its sale lines present), each of [add_product],
    [update_product], [adjust_stock], [record_sale], [undo_sale] and
    [delete_product], whether it returns or raises, leaves a connection at
    rest on a database that meets them again. *)
Theorem accounting_invariant :
  forall (op : call) (c : Conn),
    quiescent c -> schema_ok (working c) -> accounting (working c) ->
    accounting (working (perform op c))
    /\ schema_ok (working (perform op c))
    /\ quiescent (perform op c).
Proof.
  intros op c Hq Hs Ha.
  destruct (perform_consistent op c) as (H1 & H2 & H3);
    [split; [|split]; assumption|].
  split; [|split]; assumption.
Qed.

Lemma accounting_invariant_witness :
  accounting
    (working (perform (RecordSale "INV-X" [unit_item 1 3] None)
                      (stocked_conn 10)))
  /\ schema_ok
       (working (perform (RecordSale "INV-X" [unit_item 1 3] None)
                         (stocked_conn 10)))
  /\ quiescent (perform (RecordSale "INV-X" [unit_item 1 3] None)
                        (stocked_conn 10)).
Proof.
  apply (accounting_invariant (RecordSale "INV-X" [unit_item 1 3] None)
                              (stocked_conn 10)).
  - reflexivity.
  - split; [repeat constructor; intros []|].
    split; [intros a [<-|[]]; left; reflexivity|intros s []].
  - intros p [<-|[]]. reflexivity.
Defined.

(** The accounting identity holds in every state the operations can produce
    from an empty database. *)
Corollary reachable_consistent c : reachable c -> consistent c.
Proof.
  induction 1 as [|op c _ IH]; [apply empty_consistent|].
  apply perform_consistent, IH.
Qed.
(** ** Invariants kept by every operation *)

Lemma both_fresh P db : P db -> both P (fresh_conn db).
Proof. intros H. split; exact H. Qed.

Lemma both_rollback P c : both P c -> both P (fresh_conn (committed c)).
Proof. intros [H _]. split; exact H. Qed.

Lemma both_commit P c : both P c -> both P (fresh_conn (working c)).
Proof. intros [_ H]. split; exact H. Qed.

Lemma both_working P c db :
  both P c -> P db -> both P {| committed := committed c; working := db |}.
Proof. intros [H _] Hdb. split; assumption. Qed.

Lemma strip_nonblank s : String.eqb (strip s) "" = false -> strip s <> "".
Proof. intros H E. rewrite E in H. discriminate. Qed.

Section InvariantRule.

(** A property of databases that every write of the ledger keeps, each write
    taken under the checks the operations make before it. *)
Variable P : DB -> Prop.

Hypothesis P_insert_product :
  forall db name category_id quantity price cost reorder_level supplier
         expiry_date c' product_id,
    P db -> name <> "" -> 0 <= quantity -> 0 <= reorder_level ->
    fltb price zero = false -> fltb cost zero = false ->
    insert_product name category_id quantity price cost reorder_level supplier
                   expiry_date (fresh_conn db) = (c', Ok product_id) ->
    P (working c').

Hypothesis P_insert_adjustment :
  forall db product_id adjustment_qty reason adjusted_by,
    P db -> In product_id (map p_id (products db)) ->
    adjustment_qty <> 0 -> reason <> "" ->
    P (after (insert_adjustment product_id adjustment_qty reason adjusted_by) db).

Hypothesis P_update_product_row :
  forall db product_id r name category_id price cost quantity reorder_level
         supplier expiry_date c',
    P db -> select_product product_id db = Some r ->
    name <> "" -> 0 <= quantity -> 0 <= reorder_level ->
    fltb price zero = false -> fltb cost zero = false ->
    update_product_row product_id name category_id price cost quantity
                       reorder_level supplier expiry_date (fresh_conn db)
    = (c', Ok tt) ->
    P (working c').

Hypothesis P_set_quantity :
  forall db product_id r new_qty,
    P db -> select_product product_id db = Some r -> 0 <= new_qty ->
    P (update_quantity_where product_id (fun _ => new_qty) db).

Hypothesis P_after_line :
  forall db invoice sold_by item t,
    P db -> line_accepts db item t -> P (after_line db invoice sold_by item t).

Hypothesis P_undo :
  forall db invoice,
    P db ->
    P (with_sales (filter (fun s => negb (String.eqb (s_invoice s) invoice)))
                  (restored (select_invoice_lines invoice db) db)).

Hypothesis P_delete :
  forall db product_id,
    P db -> count_sales_of product_id db = 0 ->
    P (with_products (filter (fun p => negb (p_id p =? product_id)))
                     (delete_adjustments_where product_id db)).

Lemma insert_product_ids name category_id quantity price cost reorder_level
    supplier expiry_date c c' product_id :
  insert_product name category_id quantity price cost reorder_level supplier
                 expiry_date c = (c', Ok product_id) ->
  In product_id (map p_id (products (working c'))).
Proof.
  unfold insert_product. destruct (is_nan price || is_nan cost); [discriminate|].
  intros H. inversion H; subst. cbn [working products]. rewrite map_app.
  apply in_or_app. right. left. reflexivity.
Qed.

Lemma insert_product_working name category_id quantity price cost reorder_level
    supplier expiry_date c :
  insert_product name category_id quantity price cost reorder_level supplier
                 expiry_date c
  = match insert_product name category_id quantity price cost reorder_level
                         supplier expiry_date (fresh_conn (working c)) with
    | (c', Ok id) => ({| committed := committed c; working := working c' |}, Ok id)
    | (_, Raise e) => (c, Raise e)
    end.
Proof.
  unfold insert_product. cbn [working fresh_conn committed].
  destruct (is_nan price || is_nan cost); reflexivity.
Qed.

Lemma update_product_row_working product_id name category_id price cost quantity
    reorder_level supplier expiry_date c :
  update_product_row product_id name category_id price cost quantity
                     reorder_level supplier expiry_date c
  = match update_product_row product_id name category_id price cost quantity
                             reorder_level supplier expiry_date
                             (fresh_conn (working c)) with
    | (c', Ok u) => ({| committed := committed c; working := working c' |}, Ok u)
    | (_, Raise e) => (c, Raise e)
    end.
Proof.
  unfold update_product_row. cbn [working fresh_conn committed].
  destruct ((is_nan price || is_nan cost) && existsb _ _); reflexivity.
Qed.

Lemma add_product_both name category_id quantity price cost reorder_level
    supplier expiry_date c :
  both P c ->
  both P (fst (add_product name category_id quantity price cost reorder_level
                           supplier expiry_date c)).
Proof.
  intros Hc. unfold add_product.
  destruct (String.eqb (strip name) "") eqn:En; [exact Hc|].
  destruct (fltb price zero || fltb cost zero || (quantity <? 0)
            || (reorder_level <? 0)) eqn:Eval; [exact Hc|].
  apply orb_false_elim in Eval. destruct Eval as [Eval Hrl].
  apply orb_false_elim in Eval. destruct Eval as [Eval Hq].
  apply orb_false_elim in Eval. destruct Eval as [Hprice Hcost].
  run_py. rewrite insert_product_working.
  destruct (insert_product (strip name) category_id quantity price cost
              reorder_level (or_none (strip supplier)) expiry_date
              (fresh_conn (working c))) as [c1 [id|e]] eqn:E.
  2:{ cbn [committed working]. destruct e; apply both_rollback, Hc. }
  assert (H1 : P (working c1)).
  { apply (P_insert_product _ _ _ _ _ _ _ _ _ _ _ (proj2 Hc)
             (strip_nonblank _ En) (proj1 (Z.ltb_ge _ _) Hq)
             (proj1 (Z.ltb_ge _ _) Hrl) Hprice Hcost E). }
  destruct (0 <? quantity) eqn:Epos.
  - unfold insert_adjustment. run_py. cbn [committed working fst].
    apply both_fresh.
    apply (P_insert_adjustment (working c1) id quantity "Initial Stock Entry"
             None H1 (insert_product_ids _ _ _ _ _ _ _ _ _ _ _ E));
      [apply Z.ltb_lt in Epos; lia|discriminate].
  - cbn [committed working fst]. apply both_fresh. exact H1.
Qed.

Lemma update_product_both product_id name category_id price cost new_quantity
    reorder_level supplier expiry_date adjusted_by c :
  both P c ->
  both P (fst (update_product product_id name category_id price cost
                              new_quantity reorder_level supplier expiry_date
                              adjusted_by c)).
Proof.
  intros Hc. unfold update_product.
  destruct (String.eqb (strip name) "") eqn:En; [exact Hc|].
  destruct (fltb price zero || fltb cost zero || (new_quantity <? 0)
            || (reorder_level <? 0)) eqn:Eval; [exact Hc|].
  apply orb_false_elim in Eval. destruct Eval as [Eval Hrl].
  apply orb_false_elim in Eval. destruct Eval as [Eval Hq].
  apply orb_false_elim in Eval. destruct Eval as [Hprice Hcost].
  run_py.
  destruct (select_product product_id (working c)) as [r|] eqn:Er; [|exact Hc].
  rewrite update_product_row_working.
  destruct (update_product_row product_id (strip name) category_id price cost
              new_quantity reorder_level (or_none (strip supplier)) expiry_date
              (fresh_conn (working c))) as [c1 [[]|e]] eqn:E.
  2:{ cbn [committed working fst]. apply both_rollback, Hc. }
  assert (H1 : P (working c1)).
  { apply (P_update_product_row _ _ _ _ _ _ _ _ _ _ _ _ (proj2 Hc) Er
             (strip_nonblank _ En) (proj1 (Z.ltb_ge _ _) Hq)
             (proj1 (Z.ltb_ge _ _) Hrl) Hprice Hcost E). }
  assert (Hids : In product_id (map p_id (products (working c1)))).
  { revert E. unfold update_product_row.
    destruct ((is_nan price || is_nan cost) && existsb _ _); [discriminate|].
    unfold execute, with_products. intros E. inversion E; subst.
    cbn [working products fresh_conn]. rewrite map_map.
    erewrite map_ext; [exact (select_product_ids _ _ _ Er)|].
    intros p. cbn beta. destruct (p_id p =? product_id); reflexivity. }
  destruct (new_quantity - p_quantity r =? 0) eqn:Ez.
  - cbn [committed working fst]. apply both_fresh. exact H1.
  - unfold insert_adjustment. run_py. cbn [committed working fst].
    apply both_fresh.
    apply (P_insert_adjustment (working c1) product_id
             (new_quantity - p_quantity r) _ adjusted_by H1 Hids).
    + apply Z.eqb_neq in Ez. exact Ez.
    + discriminate.
Qed.

Lemma adjust_stock_both product_id adj_qty reason adjusted_by c :
  both P c -> both P (fst (adjust_stock product_id adj_qty reason adjusted_by c)).
Proof.
  intros Hc. unfold adjust_stock.
  destruct (adj_qty =? 0) eqn:Ez; [exact Hc|].
  destruct (String.eqb (strip reason) "") eqn:En; [exact Hc|].
  run_py.
  destruct (select_product product_id (working c)) as [r|] eqn:Er; [|exact Hc].
  destruct (p_quantity r + adj_qty <? 0) eqn:Eneg; [exact Hc|].
  unfold insert_adjustment. run_py. cbn [committed working fst].
  apply both_fresh.
  assert (H1 : P (update_quantity_where product_id
                    (fun _ => p_quantity r + adj_qty) (working c))).
  { apply (P_set_quantity _ _ _ _ (proj2 Hc) Er). apply Z.ltb_ge. exact Eneg. }
  apply (P_insert_adjustment _ product_id adj_qty (strip reason) adjusted_by H1).
  - unfold update_quantity_where, with_products. cbn [products].
    rewrite map_map. erewrite map_ext; [exact (select_product_ids _ _ _ Er)|].
    intros p. cbn beta. destruct (p_id p =? product_id); reflexivity.
  - apply Z.eqb_neq. exact Ez.
  - apply strip_nonblank. exact En.
Qed.

Lemma accepted_keeps invoice sold_by db items ts db' :
  accepted invoice sold_by db items ts db' -> P db -> P db'.
Proof.
  induction 1 as [db|db item t items ts db' Hl _ IH]; intros HP; [exact HP|].
  apply IH. apply P_after_line; assumption.
Qed.

Lemma record_sale_both invoice items sold_by c :
  both P c -> both P (fst (record_sale invoice items sold_by c)).
Proof.
  intros Hc.
  destruct (record_sale invoice items sold_by c) as [c' res] eqn:E.
  pose proof (record_sale_result _ _ _ _ _ _ E) as H. cbn [fst].
  destruct res as [total|e].
  - destruct H as [_ (ts & db' & Hacc & -> & _)].
    apply both_fresh. exact (accepted_keeps _ _ _ _ _ _ Hacc (proj2 Hc)).
  - destruct H as [(_ & _ & ->)|(_ & -> & _)]; [exact Hc|].
    apply both_rollback, Hc.
Qed.

Lemma undo_sale_both invoice sold_by c :
  both P c -> both P (fst (undo_sale invoice sold_by c)).
Proof.
  intros Hc. rewrite undo_sale_run.
  destruct (select_invoice_lines invoice (working c)) eqn:E; [exact Hc|].
  cbn [fst]. apply both_fresh. rewrite <- E. apply P_undo, Hc.
Qed.

Lemma delete_product_both product_id c :
  both P c -> both P (fst (delete_product product_id c)).
Proof.
  intros Hc. unfold delete_product. run_py.
  destruct (0 <? count_sales_of product_id (working c)) eqn:Ecnt; [exact Hc|].
  assert (H0 : count_sales_of product_id (working c) = 0).
  { apply Z.ltb_ge in Ecnt. unfold count_sales_of in *. lia. }
  unfold delete_products_where. run_py. cbn [committed working].
  pose proof (P_delete _ product_id (proj2 Hc) H0) as H1.
  destruct (Z.of_nat _ =? 0); cbn [fst].
  - apply both_working; assumption.
  - apply both_fresh. exact H1.
Qed.

Lemma perform_both op c : both P c -> both P (perform op c).
Proof.
  intros Hc. destruct op; cbn [perform].
  - apply add_product_both, Hc.
  - apply update_product_both, Hc.
  - apply adjust_stock_both, Hc.
  - apply record_sale_both, Hc.
  - apply undo_sale_both, Hc.
  - apply delete_product_both, Hc.
Qed.

End InvariantRule.

Lemma perform_all_both P :
  (forall op c, both P c -> both P (perform op c)) ->
  forall ops c, both P c -> both P (perform_all ops c).
Proof.
  intros Hstep ops. induction ops as [|op ops IH]; intros c Hc; [exact Hc|].
  cbn [perform_all fold_left]. apply IH, Hstep, Hc.
Qed.

Lemma reachable_both P :
  P empty_db ->
  (forall op c, both P c -> both P (perform op c)) ->
  forall c, reachable c -> both P c.
Proof.
  intros H0 Hstep c Hr. induction Hr as [|op c _ IH].
  - apply both_fresh, H0.
  - apply Hstep, IH.
Qed.

(** ** Valid rows *)

Lemma product_valid_set_quantity q p :
  product_valid p -> 0 <= q -> product_valid (set_quantity q p).
Proof.
  intros (H1 & _ & H3) Hq. split; [exact H1|]. split; [exact Hq|exact H3].
Qed.

Lemma Forall_shift_valid f l :
  Forall product_valid l ->
  (forall p, In p l -> 0 <= p_quantity p + f (p_id p)) ->
  Forall product_valid (shift f l).
Proof.
  intros Hl Hf. unfold shift. apply Forall_map. rewrite Forall_forall in *.
  intros p Hp. apply product_valid_set_quantity; [apply Hl, Hp|apply Hf, Hp].
Qed.

Lemma credit_nonneg pid lines :
  Forall (fun l => 0 <= snd l) lines -> 0 <= credit pid lines.
Proof.
  induction 1 as [|l lines Hl _ IH]; [unfold credit; simpl; lia|].
  rewrite credit_cons. destruct (fst l =? pid); lia.
Qed.

Lemma rows_valid_empty : rows_valid empty_db.
Proof. repeat split; constructor. Qed.

Lemma update_quantity_ids pid f db :
  map p_id (products (update_quantity_where pid f db)) = map p_id (products db).
Proof.
  unfold update_quantity_where, with_products. cbn [products].
  rewrite map_map. apply map_ext. intros p.
  destruct (p_id p =? pid); reflexivity.
Qed.

Lemma rows_valid_insert_product db name category_id quantity price cost
    reorder_level supplier expiry_date c' product_id :
  rows_valid db -> name <> "" -> 0 <= quantity -> 0 <= reorder_level ->
  fltb price zero = false -> fltb cost zero = false ->
  insert_product name category_id quantity price cost reorder_level supplier
                 expiry_date (fresh_conn db) = (c', Ok product_id) ->
  rows_valid (working c').
Proof.
  intros (Hnd & Hp & Hs & Ha) Hn Hq Hr Hprice Hcost. unfold insert_product.
  destruct (is_nan price || is_nan cost) eqn:Enan; [discriminate|].
  apply orb_false_elim in Enan. intros E. inversion E; subst.
  cbn [working fresh_conn]. unfold rows_valid. cbn [products sales stock_adjustments].
  split; [|split; [|split; assumption]].
  - rewrite map_app. apply NoDup_snoc; [exact Hnd|apply next_rowid_fresh].
  - apply Forall_app. split; [exact Hp|]. constructor; [|constructor].
    unfold product_valid. cbn. tauto.
Qed.

Lemma rows_valid_insert_adjustment db product_id adjustment_qty reason
    adjusted_by :
  rows_valid db -> In product_id (map p_id (products db)) ->
  adjustment_qty <> 0 -> reason <> "" ->
  rows_valid (after (insert_adjustment product_id adjustment_qty reason
                                       adjusted_by) db).
Proof.
  intros (Hnd & Hp & Hs & Ha) _ Hq Hr. unfold after, insert_adjustment, execute.
  cbn [fst working fresh_conn]. unfold rows_valid.
  cbn [products sales stock_adjustments].
  split; [exact Hnd|]. split; [exact Hp|]. split; [exact Hs|].
  apply Forall_app. split; [exact Ha|]. constructor; [|constructor].
  split; assumption.
Qed.

Lemma rows_valid_update_product_row db product_id r name category_id price cost
    quantity reorder_level supplier expiry_date c' :
  rows_valid db -> select_product product_id db = Some r ->
  name <> "" -> 0 <= quantity -> 0 <= reorder_level ->
  fltb price zero = false -> fltb cost zero = false ->
  update_product_row product_id name category_id price cost quantity
                     reorder_level supplier expiry_date (fresh_conn db)
  = (c', Ok tt) ->
  rows_valid (working c').
Proof.
  intros (Hnd & Hp & Hs & Ha) Hsel Hn Hq Hr Hprice Hcost.
  unfold update_product_row. cbn [working fresh_conn].
  assert (Hex : existsb (fun p => p_id p =? product_id) (products db) = true).
  { apply existsb_exists. exists r. split.
    - exact (select_product_In _ _ _ Hsel).
    - rewrite (select_product_id _ _ _ Hsel). apply Z.eqb_refl. }
  rewrite Hex, andb_true_r.
  destruct (is_nan price || is_nan cost) eqn:Enan; [discriminate|].
  apply orb_false_elim in Enan. unfold execute, with_products.
  intros E. inversion E; subst. unfold rows_valid.
  cbn [working products sales stock_adjustments].
  split; [|split; [|split; assumption]].
  - rewrite map_map. erewrite map_ext; [exact Hnd|].
    intros p. cbn beta. destruct (p_id p =? product_id); reflexivity.
  - apply Forall_map. rewrite Forall_forall in *. intros p Hin.
    destruct (p_id p =? product_id); [|apply Hp, Hin].
    unfold product_valid. cbn. tauto.
Qed.

Lemma rows_valid_set_quantity db product_id r new_qty :
  rows_valid db -> select_product product_id db = Some r -> 0 <= new_qty ->
  rows_valid (update_quantity_where product_id (fun _ => new_qty) db).
Proof.
  intros (Hnd & Hp & Hs & Ha) _ Hq. unfold rows_valid.
  rewrite update_quantity_ids.
  split; [exact Hnd|]. split; [|split; assumption].
  unfold update_quantity_where, with_products. cbn [products].
  apply Forall_map. rewrite Forall_forall in *. intros p Hin.
  destruct (p_id p =? product_id); [|apply Hp, Hin].
  apply product_valid_set_quantity; [apply Hp, Hin|exact Hq].
Qed.

Lemma rows_valid_after_line db invoice sold_by item t :
  rows_valid db -> line_accepts db item t ->
  rows_valid (after_line db invoice sold_by item t).
Proof.
  intros (Hnd & Hp & Hs & Ha) (Hft & Hq & Hneg & (r & Hsel & Hle) & Hnan).
  unfold rows_valid. rewrite after_line_products, shift_ids.
  split; [exact Hnd|]. split; [|split].
  - apply Forall_shift_valid; [exact Hp|]. intros p Hin.
    destruct (p_id p =? i_product_id item) eqn:E.
    + apply Z.eqb_eq in E. rewrite (select_unique _ _ _ _ Hnd Hsel Hin E). lia.
    + rewrite Forall_forall in Hp. destruct (Hp p Hin) as (_ & H0 & _). lia.
  - unfold after_line, update_quantity_where, with_products. cbn [sales].
    apply Forall_app. split; [exact Hs|]. constructor; [|constructor].
    unfold sale_valid, sale_row. cbn. tauto.
  - exact Ha.
Qed.

Lemma rows_valid_undo db invoice :
  rows_valid db ->
  rows_valid (with_sales (filter (fun s => negb (String.eqb (s_invoice s) invoice)))
                         (restored (select_invoice_lines invoice db) db)).
Proof.
  intros (Hnd & Hp & Hs & Ha).
  destruct (restored_tables (select_invoice_lines invoice db) db)
    as (Hsales & Hadj & _).
  unfold rows_valid, with_sales. cbn [products sales stock_adjustments].
  rewrite restored_products, shift_ids, Hsales, Hadj.
  split; [exact Hnd|]. split; [|split; [|exact Ha]].
  - apply Forall_shift_valid; [exact Hp|]. intros p Hin.
    rewrite Forall_forall in Hp. destruct (Hp p Hin) as (_ & H0 & _).
    assert (0 <= credit (p_id p) (select_invoice_lines invoice db)); [|lia].
    apply credit_nonneg. unfold select_invoice_lines. apply Forall_map.
    rewrite Forall_forall in *. intros s Hin'. apply filter_In in Hin'.
    destruct (Hs s (proj1 Hin')) as (H1 & _). cbn [snd]. lia.
  - rewrite Forall_forall in *. intros s Hin. apply filter_In in Hin.
    apply Hs, Hin.
Qed.

Lemma rows_valid_delete db product_id :
  rows_valid db -> count_sales_of product_id db = 0 ->
  rows_valid (with_products (filter (fun p => negb (p_id p =? product_id)))
                            (delete_adjustments_where product_id db)).
Proof.
  intros (Hnd & Hp & Hs & Ha) _.
  unfold rows_valid, delete_adjustments_where, with_stock_adjustments,
    with_products. cbn [products sales stock_adjustments].
  split; [|split; [|split; [exact Hs|]]].
  - clear Hp. induction (products db) as [|p l IH]; [constructor|].
    cbn [map filter] in *. inversion Hnd as [|? ? Hx Hl]; subst.
    destruct (negb (p_id p =? product_id)); [|apply IH, Hl].
    cbn [map]. constructor; [|apply IH, Hl].
    intros Hin. apply Hx. apply in_map_iff in Hin.
    destruct Hin as (q & Hq & Hin). apply filter_In in Hin.
    rewrite <- Hq. apply in_map, Hin.
  - rewrite Forall_forall in *. intros p Hin. apply filter_In in Hin.
    apply Hp, Hin.
  - rewrite Forall_forall in *. intros a Hin. apply filter_In in Hin.
    apply Ha, Hin.
Qed.

Lemma perform_rows_valid op c :
  both rows_valid c -> both rows_valid (perform op c).
Proof.
  apply perform_both.
  - exact rows_valid_insert_product.
  - exact rows_valid_insert_adjustment.
  - exact rows_valid_update_product_row.
  - exact rows_valid_set_quantity.
  - exact rows_valid_after_line.
  - exact rows_valid_undo.
  - exact rows_valid_delete.
Qed.

(** X1.  Every operation of the ledger, returning or raising, keeps
    the stored rows valid in the committed and in the working copy: product
    ids are unique, no quantity or reorder level is negative, no price or cost
    is negative or NaN, no name is empty, every sale row has a positive
    quantity and a total that is the rounded product of its own columns and
    is not negative, and every adjustment has a non-zero delta and a reason.
    So stock is never negative in a state reached from an empty database. *)
Theorem stored_rows_stay_valid :
  (forall (op : call) (c : Conn),
     both rows_valid c -> both rows_valid (perform op c))
  /\ (forall c : Conn, reachable c -> both rows_valid c).
Proof.
  split; [exact perform_rows_valid|].
  apply reachable_both; [exact rows_valid_empty|exact perform_rows_valid].
Qed.

Lemma stored_rows_stay_valid_witness :
  both rows_valid (stocked_conn 10)
  /\ both rows_valid (perform (AdjustStock 1 (-3) "count" None) (stocked_conn 10)).
Proof.
  assert (H : both rows_valid (stocked_conn 10)).
  { apply (proj2 stored_rows_stay_valid).
    apply (reachable_perform
             (AddProduct "Ibuprofen 200mg" None 10 (of_ratio false 599 100)
                         (of_ratio false 35 10) 20 "Supplier A" None)).
    apply reachable_empty. }
  split; [exact H|].
  apply (proj1 stored_rows_stay_valid (AdjustStock 1 (-3) "count" None)
               (stocked_conn 10)).
  exact H.
Defined.

(** ** Catalog entry *)

Lemma add_product_returns name category_id quantity price cost reorder_level
    supplier expiry_date c c' product_id :
  add_product name category_id quantity price cost reorder_level supplier
              expiry_date c = (c', Ok product_id) ->
  let db := working c in
  let row := Build_Product product_id (strip name) category_id quantity price
                           cost reorder_level (or_none (strip supplier))
                           expiry_date in
  let entry := Build_Adjustment
                 (next_rowid (seq_stock_adjustments db)
                             (map a_id (stock_adjustments db)))
                 product_id quantity "Initial Stock Entry" None in
  (strip name <> "" /\ 0 <= quantity /\ 0 <= reorder_level
   /\ fltb price zero = false /\ fltb cost zero = false
   /\ is_nan price = false /\ is_nan cost = false)
  /\ product_id = next_rowid (seq_products db) (map p_id (products db))
  /\ c' = fresh_conn (working c')
  /\ products (working c') = products db ++ [row]
  /\ sales (working c') = sales db
  /\ stock_adjustments (working c')
     = stock_adjustments db ++ (if 0 <? quantity then [entry] else [])
  /\ seq_products (working c') = product_id
  /\ seq_sales (working c') = seq_sales db.
Proof.
  unfold add_product.
  destruct (String.eqb (strip name) "") eqn:En; [discriminate|].
  destruct (fltb price zero || fltb cost zero || (quantity <? 0)
            || (reorder_level <? 0)) eqn:Eval; [discriminate|].
  apply orb_false_elim in Eval. destruct Eval as [Eval Hrl].
  apply orb_false_elim in Eval. destruct Eval as [Eval Hq].
  apply orb_false_elim in Eval. destruct Eval as [Hprice Hcost].
  apply Z.ltb_ge in Hq, Hrl.
  run_py. unfold insert_product.
  destruct (is_nan price || is_nan cost) eqn:Enan; [discriminate|].
  apply orb_false_elim in Enan. destruct Enan as [Hn1 Hn2].
  unfold insert_adjustment.
  destruct (0 <? quantity) eqn:Epos; run_py; cbn [committed working];
    intros E; inversion E; subst; cbv zeta;
    cbn [working fresh_conn products sales stock_adjustments seq_products
         seq_sales];
    (split; [repeat split; try assumption; apply strip_nonblank, En|]);
    rewrite ?app_nil_r; repeat split; reflexivity.
Qed.

Lemma add_product_accepts name category_id quantity price cost reorder_level
    supplier expiry_date c :
  strip name <> "" -> 0 <= quantity -> 0 <= reorder_level ->
  fltb price zero = false -> fltb cost zero = false ->
  is_nan price = false -> is_nan cost = false ->
  exists c',
    add_product name category_id quantity price cost reorder_level supplier
                expiry_date c
    = (c', Ok (next_rowid (seq_products (working c))
                          (map p_id (products (working c))))).
Proof.
  intros Hn Hq Hrl Hprice Hcost Hn1 Hn2. unfold add_product.
  destruct (String.eqb (strip name) "") eqn:En;
    [apply String.eqb_eq in En; contradiction|].
  apply Z.ltb_ge in Hq, Hrl. rewrite Hprice, Hcost, Hq, Hrl. cbn [orb].
  run_py. unfold insert_product. rewrite Hn1, Hn2. cbn [orb].
  unfold insert_adjustment.
  destruct (0 <? quantity); run_py; eexists; reflexivity.
Qed.

Lemma next_rowid_gt seq ids : seq < next_rowid seq ids.
Proof. unfold next_rowid. lia. Qed.

Lemma seq_products_grows (k : Z) :
  forall op c, both (fun db => k <= seq_products db) c ->
               both (fun db => k <= seq_products db) (perform op c).
Proof.
  intros op c. apply perform_both.
  - intros db name category_id quantity price cost reorder_level supplier
      expiry_date c' product_id H _ _ _ _ _. unfold insert_product.
    destruct (is_nan price || is_nan cost); [discriminate|].
    intros E. inversion E; subst. cbn [working seq_products fresh_conn] in *.
    pose proof (next_rowid_gt (seq_products db) (map p_id (products db))). lia.
  - intros db product_id adjustment_qty reason adjusted_by H _ _ _. exact H.
  - intros db product_id r name category_id price cost quantity reorder_level
      supplier expiry_date c' H _ _ _ _ _ _. unfold update_product_row.
    destruct (_ && _); [discriminate|]. intros E. inversion E; subst. exact H.
  - intros db product_id r new_qty H _ _. exact H.
  - intros db invoice sold_by item t H _. exact H.
  - intros db invoice H. cbn [with_sales seq_products].
    destruct (restored_tables (select_invoice_lines invoice db) db)
      as (_ & _ & -> & _). exact H.
  - intros db product_id H _. exact H.
Qed.

(** X2.  An id that [add_product] has returned is never given to
    another product: whatever calls are made in between, deletions included,
    a later [add_product] returns a larger id, which no row of the table left
    by the first call carries. *)
Theorem product_ids_never_reused :
  forall name1 category_id1 quantity1 price1 cost1 reorder_level1 supplier1
         expiry_date1 (c c1 : Conn) (id1 : Z) (ops : list call)
         name2 category_id2 quantity2 price2 cost2 reorder_level2 supplier2
         expiry_date2 (c2 : Conn) (id2 : Z),
    add_product name1 category_id1 quantity1 price1 cost1 reorder_level1
                supplier1 expiry_date1 c = (c1, Ok id1) ->
    add_product name2 category_id2 quantity2 price2 cost2 reorder_level2
                supplier2 expiry_date2 (perform_all ops c1) = (c2, Ok id2) ->
    id1 < id2
    /\ forall p, In p (products (working c1)) -> p_id p <> id2.
Proof.
  intros name1 category_id1 quantity1 price1 cost1 reorder_level1 supplier1
    expiry_date1 c c1 id1 ops name2 category_id2 quantity2 price2 cost2
    reorder_level2 supplier2 expiry_date2 c2 id2 H1 H2.
  (* every id of the table after the first call is at most the counter *)
  set (P := fun k db => k <= seq_products db).
  assert (Hall : forall p, In p (products (working c1)) ->
                           both (P (p_id p)) (perform_all ops c1)).
  { intros p Hin. apply perform_all_both; [apply seq_products_grows|].
    destruct (add_product_returns _ _ _ _ _ _ _ _ _ _ _ H1)
      as (_ & Hid & Hc1 & Hprod & _ & _ & Hseq & _).
    rewrite Hc1. apply both_fresh. unfold P. rewrite Hseq.
    rewrite Hprod in Hin. apply in_app_or in Hin.
    destruct Hin as [Hin|[<-|[]]]; [|cbn; lia].
    apply (in_map p_id) in Hin. apply max_rowid_ge in Hin.
    rewrite Hid. unfold next_rowid. lia. }
  destruct (add_product_returns _ _ _ _ _ _ _ _ _ _ _ H2) as (_ & Hid2 & _).
  pose proof (next_rowid_gt (seq_products (working (perform_all ops c1)))
                (map p_id (products (working (perform_all ops c1))))) as Hgt.
  rewrite <- Hid2 in Hgt.
  assert (Hlt : forall p, In p (products (working c1)) -> p_id p < id2).
  { intros p Hin. destruct (Hall p Hin) as [_ Hw]. unfold P in Hw. lia. }
  split.
  - destruct (add_product_returns _ _ _ _ _ _ _ _ _ _ _ H1)
      as (_ & _ & _ & Hprod & _).
    specialize (Hlt (Build_Product id1 (strip name1) category_id1 quantity1
                       price1 cost1 reorder_level1 (or_none (strip supplier1))
                       expiry_date1)).
    cbn [p_id] in Hlt. apply Hlt. rewrite Hprod. apply in_or_app. right.
    left. reflexivity.
  - intros p Hin. specialize (Hlt p Hin). lia.
Qed.

Lemma product_ids_never_reused_witness :
  1 < 2
  /\ forall p, In p (products (working (stocked_conn 10))) -> p_id p <> 2.
Proof.
  apply (product_ids_never_reused
           "Ibuprofen 200mg" None 10 (of_ratio false 599 100)
           (of_ratio false 35 10) 20 "Supplier A" None
           (fresh_conn empty_db) (stocked_conn 10) 1 [DeleteProduct 1]
           "Aspirin 325mg" None 80 (of_ratio false 349 100)
           (of_ratio false 200 100) 15 "Supplier A" None
           (fst (add_product "Aspirin 325mg" None 80 (of_ratio false 349 100)
                             (of_ratio false 200 100) 15 "Supplier A" None
                             (perform_all [DeleteProduct 1] (stocked_conn 10))))
           2).
  - vm_compute. reflexivity.
  - vm_compute. reflexivity.
Defined.

Lemma select_product_snoc pid db db' row :
  products db' = products db ++ [row] ->
  ~ In (p_id row) (map p_id (products db)) ->
  select_product pid db'
  = if p_id row =? pid then Some row else select_product pid db.
Proof.
  unfold select_product. intros -> Hfresh.
  induction (products db) as [|p l IH]; cbn [app find].
  - destruct (p_id row =? pid); reflexivity.
  - destruct (p_id p =? pid) eqn:E.
    + destruct (p_id row =? pid) eqn:E'; [|reflexivity].
      exfalso. apply Hfresh. left. lia.
    + apply IH. intros H. apply Hfresh. right. exact H.
Qed.

Lemma select_product_none pid db :
  ~ In pid (map p_id (products db)) -> select_product pid db = None.
Proof.
  intros H. destruct (select_product pid db) as [r|] eqn:E; [|reflexivity].
  exfalso. exact (H (select_product_ids _ _ _ E)).
Qed.

(** X3.  When [add_product] returns an id, no product had that id
    before, [get_product] on it now returns the row with the stripped name and
    supplier and the given columns, every other product is looked up as
    before, nothing is pending, no sale is written, and the adjustments gain
    exactly one row "Initial Stock Entry" for the quantity when the quantity
    is positive and none when it is zero. *)
Theorem add_product_round_trip :
  forall name category_id quantity price cost reorder_level supplier
         expiry_date (c c' : Conn) (product_id : Z),
    add_product name category_id quantity price cost reorder_level supplier
                expiry_date c = (c', Ok product_id) ->
    get_product product_id c = (c, Ok None)
    /\ get_product product_id c'
       = (c', Ok (Some (Build_Product product_id (strip name) category_id
                          quantity price cost reorder_level
                          (or_none (strip supplier)) expiry_date)))
    /\ (forall other, other <> product_id ->
          select_product other (working c') = select_product other (working c))
    /\ quiescent c'
    /\ sales (working c') = sales (working c)
    /\ stock_adjustments (working c')
       = stock_adjustments (working c)
         ++ (if 0 <? quantity
             then [Build_Adjustment
                     (next_rowid (seq_stock_adjustments (working c))
                                 (map a_id (stock_adjustments (working c))))
                     product_id quantity "Initial Stock Entry" None]
             else []).
Proof.
  intros name category_id quantity price cost reorder_level supplier
    expiry_date c c' product_id H.
  destruct (add_product_returns _ _ _ _ _ _ _ _ _ _ _ H)
    as (_ & Hid & Hc' & Hprod & Hsales & Hadj & _).
  assert (Hfresh : ~ In product_id (map p_id (products (working c)))).
  { rewrite Hid. apply next_rowid_fresh. }
  unfold get_product, query.
  split; [rewrite (select_product_none _ _ Hfresh); reflexivity|].
  split.
  { rewrite (select_product_snoc _ _ _ _ Hprod Hfresh). cbn [p_id].
    rewrite Z.eqb_refl. reflexivity. }
  split.
  { intros other Hne. rewrite (select_product_snoc _ _ _ _ Hprod Hfresh).
    cbn [p_id]. destruct (product_id =? other) eqn:E; [lia|reflexivity]. }
  split; [rewrite Hc'; reflexivity|].
  split; assumption.
Qed.

Lemma add_product_round_trip_witness :
  get_product 1 (fresh_conn empty_db) = (fresh_conn empty_db, Ok None)
  /\ get_product 1 (stocked_conn 10)
     = (stocked_conn 10,
        Ok (Some (Build_Product 1 (strip "Ibuprofen 200mg") None 10
                                (of_ratio false 599 100) (of_ratio false 35 10)
                                20 (or_none (strip "Supplier A")) None))).
Proof.
  assert (H : add_product "Ibuprofen 200mg" None 10 (of_ratio false 599 100)
                          (of_ratio false 35 10) 20 "Supplier A" None
                          (fresh_conn empty_db)
              = (stocked_conn 10, Ok 1)) by (vm_compute; reflexivity).
  split.
  - exact (proj1 (add_product_round_trip _ _ _ _ _ _ _ _ _ _ _ H)).
  - exact (proj1 (proj2 (add_product_round_trip _ _ _ _ _ _ _ _ _ _ _ H))).
Defined.

(** X4.  [add_product] fails in three ways only: a name that is
    blank after stripping, or a negative price, cost, quantity or reorder
    level, both raised before any statement with the connection untouched; or
    a NaN price or cost, which passes the sign check, is refused by the NOT
    NULL column and is reported as a database error after a rollback. *)
Theorem add_product_rejections :
  forall name category_id quantity price cost reorder_level supplier
         expiry_date (c c' : Conn) (e : error),
    add_product name category_id quantity price cost reorder_level supplier
                expiry_date c = (c', Raise e) ->
    (e = EmptyProductName /\ strip name = "" /\ c' = c)
    \/ (e = NegativeField /\ strip name <> "" /\ c' = c
        /\ (fltb price zero = true \/ fltb cost zero = true
            \/ quantity < 0 \/ reorder_level < 0))
    \/ (e = DatabaseErrorDuringAdd /\ strip name <> ""
        /\ c' = fresh_conn (committed c)
        /\ (is_nan price = true \/ is_nan cost = true)).
Proof.
  intros name category_id quantity price cost reorder_level supplier
    expiry_date c c' e. unfold add_product.
  destruct (String.eqb (strip name) "") eqn:En.
  { apply String.eqb_eq in En. unfold raise. intros H. inversion H; subst.
    left. repeat split. exact En. }
  pose proof (strip_nonblank _ En) as Hn.
  destruct (fltb price zero || fltb cost zero || (quantity <? 0)
            || (reorder_level <? 0)) eqn:Eval.
  { unfold raise. intros H. inversion H; subst. right. left.
    repeat split; [exact Hn|].
    apply orb_true_iff in Eval. destruct Eval as [Eval|Hrl];
      [|apply Z.ltb_lt in Hrl; tauto].
    apply orb_true_iff in Eval. destruct Eval as [Eval|Hq];
      [|apply Z.ltb_lt in Hq; tauto].
    apply orb_true_iff in Eval. tauto. }
  run_py. unfold insert_product.
  destruct (is_nan price || is_nan cost) eqn:Enan.
  - cbn [committed]. intros H. inversion H; subst. right. right.
    repeat split; [exact Hn|]. apply orb_true_iff in Enan. exact Enan.
  - unfold insert_adjustment. destruct (0 <? quantity); run_py; discriminate.
Qed.

Lemma add_product_rejections_witness :
  exists c' e,
    add_product "Aspirin 325mg" None 80 S754_nan (of_ratio false 200 100) 15
                "Supplier A" None (stocked_conn 10) = (c', Raise e)
    /\ ((e = EmptyProductName /\ strip "Aspirin 325mg" = "" /\ c' = stocked_conn 10)
        \/ (e = NegativeField /\ strip "Aspirin 325mg" <> ""
            /\ c' = stocked_conn 10
            /\ (fltb S754_nan zero = true
                \/ fltb (of_ratio false 200 100) zero = true
                \/ 80 < 0 \/ 15 < 0))
        \/ (e = DatabaseErrorDuringAdd /\ strip "Aspirin 325mg" <> ""
            /\ c' = fresh_conn (committed (stocked_conn 10))
            /\ (is_nan S754_nan = true
                \/ is_nan (of_ratio false 200 100) = true))).
Proof.
  exists (stocked_conn 10), DatabaseErrorDuringAdd.
  assert (H : add_product "Aspirin 325mg" None 80 S754_nan
                          (of_ratio false 200 100) 15 "Supplier A" None
                          (stocked_conn 10)
              = (stocked_conn 10, Raise DatabaseErrorDuringAdd))
    by (vm_compute; reflexivity).
  split; [exact H|].
  exact (add_product_rejections _ _ _ _ _ _ _ _ _ _ _ H).
Defined.

(** ** Catalog edit *)

Lemma update_product_returns product_id name category_id price cost
    new_quantity reorder_level supplier expiry_date adjusted_by c c' :
  update_product product_id name category_id price cost new_quantity
                 reorder_level supplier expiry_date adjusted_by c
  = (c', Ok tt) ->
  let db := working c in
  let row := Build_Product product_id (strip name) category_id new_quantity
                           price cost reorder_level (or_none (strip supplier))
                           expiry_date in
  exists r,
    select_product product_id db = Some r
    /\ c' = fresh_conn (working c')
    /\ products (working c')
       = map (fun p => if p_id p =? product_id then row else p) (products db)
    /\ sales (working c') = sales db
    /\ stock_adjustments (working c')
       = stock_adjustments db
         ++ (if new_quantity - p_quantity r =? 0 then []
             else [Build_Adjustment
                     (next_rowid (seq_stock_adjustments db)
                                 (map a_id (stock_adjustments db)))
                     product_id (new_quantity - p_quantity r)
                     ("Manual Edit/Correction (New Qty: "
                      ++ str_int new_quantity ++ ")")%string
                     adjusted_by])
    /\ seq_products (working c') = seq_products db
    /\ seq_sales (working c') = seq_sales db
    /\ seq_stock_adjustments (working c')
       = (if new_quantity - p_quantity r =? 0 then seq_stock_adjustments db
          else next_rowid (seq_stock_adjustments db)
                          (map a_id (stock_adjustments db))).
Proof.
  unfold update_product.
  destruct (String.eqb (strip name) ""); [discriminate|].
  destruct (fltb price zero || fltb cost zero || (new_quantity <? 0)
            || (reorder_level <? 0)); [discriminate|].
  run_py.
  destruct (select_product product_id (working c)) as [r|] eqn:Er;
    [|discriminate].
  unfold update_product_row.
  destruct ((is_nan price || is_nan cost) && existsb _ _); [discriminate|].
  unfold insert_adjustment. run_py. cbn [committed working].
  pose proof (select_product_id _ _ _ Er) as Hid.
  destruct (new_quantity - p_quantity r =? 0) eqn:Ez; run_py;
    cbn [committed working]; intros E; injection E as E; subst c'; cbv zeta;
    exists r; rewrite !Ez; unfold with_products;
    cbn [working fresh_conn products sales stock_adjustments seq_products
         seq_sales seq_stock_adjustments];
    rewrite ?app_nil_r;
    (split; [reflexivity|]); (split; [reflexivity|]);
    (split; [apply map_ext_in; intros p Hin;
             destruct (p_id p =? product_id) eqn:E'; [|reflexivity];
             apply Z.eqb_eq in E'; rewrite E'; reflexivity|]);
    repeat split; reflexivity.
Qed.

Lemma select_product_map pid row db db' :
  p_id row = pid ->
  products db' = map (fun p => if p_id p =? pid then row else p) (products db) ->
  forall other,
    select_product other db'
    = if other =? pid then option_map (fun _ => row) (select_product pid db)
      else select_product other db.
Proof.
  intros Hrow Hprod other. unfold select_product. rewrite Hprod. clear Hprod.
  induction (products db) as [|p l IH]; cbn [map find].
  - destruct (other =? pid); reflexivity.
  - destruct (p_id p =? pid) eqn:E.
    + rewrite Hrow. apply Z.eqb_eq in E. rewrite E.
      destruct (other =? pid) eqn:E'.
      * apply Z.eqb_eq in E'. subst other. rewrite Z.eqb_refl. reflexivity.
      * rewrite (Z.eqb_sym pid other), E'. exact IH.
    + destruct (p_id p =? other) eqn:E'.
      * apply Z.eqb_eq in E'. subst other. rewrite E. reflexivity.
      * exact IH.
Qed.

(** X5.  When [update_product] returns, [get_product] returns the
    row with the new columns, every other product is looked up as before,
    nothing is pending, no sale is touched, and the adjustments of the product
    sum to the old sum plus the change of quantity: one row with the
    difference and the reason "Manual Edit/Correction (New Qty: n)" is
    appended when the quantity changed, and none when it did not. *)
Theorem update_product_effect :
  forall product_id name category_id price cost new_quantity reorder_level
         supplier expiry_date adjusted_by (c c' : Conn),
    update_product product_id name category_id price cost new_quantity
                   reorder_level supplier expiry_date adjusted_by c
    = (c', Ok tt) ->
    exists old,
      quantity_of product_id (working c) = Some old
      /\ get_product product_id c'
         = (c', Ok (Some (Build_Product product_id (strip name) category_id
                            new_quantity price cost reorder_level
                            (or_none (strip supplier)) expiry_date)))
      /\ (forall other, other <> product_id ->
            select_product other (working c')
            = select_product other (working c))
      /\ quiescent c'
      /\ sales (working c') = sales (working c)
      /\ adjusted product_id (working c')
         = adjusted product_id (working c) + (new_quantity - old)
      /\ (new_quantity = old ->
          stock_adjustments (working c') = stock_adjustments (working c))
      /\ (new_quantity <> old ->
          exists a,
            stock_adjustments (working c')
            = stock_adjustments (working c) ++ [a]
            /\ a_product_id a = product_id
            /\ a_adjustment_qty a = new_quantity - old
            /\ a_reason a
               = ("Manual Edit/Correction (New Qty: "
                  ++ str_int new_quantity ++ ")")%string
            /\ a_adjusted_by a = adjusted_by).
Proof.
  intros product_id name category_id price cost new_quantity reorder_level
    supplier expiry_date adjusted_by c c' H.
  destruct (update_product_returns _ _ _ _ _ _ _ _ _ _ _ _ H)
    as (r & Hsel & Hc' & Hprod & Hsales & Hadj & _).
  set (row := Build_Product product_id (strip name) category_id new_quantity
                price cost reorder_level (or_none (strip supplier))
                expiry_date) in *.
  exists (p_quantity r). unfold quantity_of, get_product, query.
  rewrite Hsel. cbn [option_map].
  split; [reflexivity|]. split.
  { rewrite (select_product_map product_id row _ _ eq_refl Hprod).
    rewrite Z.eqb_refl, Hsel. reflexivity. }
  split.
  { intros other Hne.
    rewrite (select_product_map product_id row _ _ eq_refl Hprod).
    destruct (other =? product_id) eqn:E; [lia|reflexivity]. }
  split; [rewrite Hc'; reflexivity|].
  split; [exact Hsales|].
  destruct (new_quantity - p_quantity r =? 0) eqn:Ez.
  - apply Z.eqb_eq in Ez. rewrite app_nil_r in Hadj.
    split; [rewrite (adjusted_same _ _ _ Hadj); lia|].
    split; [intros _; exact Hadj|]. intros Hne. lia.
  - apply Z.eqb_neq in Ez. split.
    + rewrite (adjusted_snoc _ _ _ _ Hadj). cbn [a_product_id a_adjustment_qty].
      rewrite Z.eqb_refl. reflexivity.
    + split; [intros Heq; lia|]. intros _. eexists. split; [exact Hadj|].
      repeat split.
Qed.

Lemma update_product_effect_witness :
  exists old,
    quantity_of 1 (working (stocked_conn 10)) = Some old
    /\ adjusted 1 (working
                     (fst (update_product 1 "Ibuprofen 400mg" None
                             (of_ratio false 899 100) (of_ratio false 35 10)
                             7 20 "" None (Some 1) (stocked_conn 10))))
       = adjusted 1 (working (stocked_conn 10)) + (7 - old).
Proof.
  assert (H : update_product 1 "Ibuprofen 400mg" None (of_ratio false 899 100)
                             (of_ratio false 35 10) 7 20 "" None (Some 1)
                             (stocked_conn 10)
              = (fst (update_product 1 "Ibuprofen 400mg" None
                        (of_ratio false 899 100) (of_ratio false 35 10)
                        7 20 "" None (Some 1) (stocked_conn 10)), Ok tt))
    by (vm_compute; reflexivity).
  destruct (update_product_effect _ _ _ _ _ _ _ _ _ _ _ _ H)
    as (old & H1 & _ & _ & _ & _ & H6 & _).
  exists old. split; [exact H1|exact H6].
Defined.

(** X6.  [update_product] is idempotent: repeating a call that has
    returned, with the same arguments, returns again and leaves the connection
    as it is; no second adjustment is logged. *)
Theorem update_product_idempotent :
  forall product_id name category_id price cost new_quantity reorder_level
         supplier expiry_date adjusted_by (c c' : Conn),
    update_product product_id name category_id price cost new_quantity
                   reorder_level supplier expiry_date adjusted_by c
    = (c', Ok tt) ->
    update_product product_id name category_id price cost new_quantity
                   reorder_level supplier expiry_date adjusted_by c'
    = (c', Ok tt).
Proof.
  intros product_id name category_id price cost new_quantity reorder_level
    supplier expiry_date adjusted_by c c' H.
  destruct (update_product_returns _ _ _ _ _ _ _ _ _ _ _ _ H)
    as (r & Hsel & Hc' & Hprod & _).
  set (row := Build_Product product_id (strip name) category_id new_quantity
                price cost reorder_level (or_none (strip supplier))
                expiry_date) in *.
  assert (Hsel' : select_product product_id (working c') = Some row).
  { rewrite (select_product_map product_id row _ _ eq_refl Hprod).
    rewrite Z.eqb_refl, Hsel. reflexivity. }
  assert (Hsame : map (fun p => if p_id p =? product_id
                                then Build_Product (p_id p) (strip name)
                                       category_id new_quantity price cost
                                       reorder_level (or_none (strip supplier))
                                       expiry_date
                                else p)
                      (products (working c')) = products (working c')).
  { rewrite Hprod, map_map. apply map_ext. intros p.
    destruct (p_id p =? product_id) eqn:E; [|rewrite E; reflexivity].
    cbn [p_id row]. rewrite Z.eqb_refl. reflexivity. }
  revert H. unfold update_product.
  destruct (String.eqb (strip name) ""); [discriminate|].
  destruct (fltb price zero || fltb cost zero || (new_quantity <? 0)
            || (reorder_level <? 0)); [discriminate|].
  run_py. rewrite Hsel, Hsel'. unfold update_product_row.
  destruct (is_nan price || is_nan cost) eqn:Enan.
  { assert (Hex : existsb (fun p => p_id p =? product_id)
                          (products (working c)) = true).
    { apply existsb_exists. exists r. split.
      - exact (select_product_In _ _ _ Hsel).
      - rewrite (select_product_id _ _ _ Hsel). apply Z.eqb_refl. }
    rewrite Hex. cbn [andb]. discriminate. }
  cbn [andb]. intros _. run_py. cbn [committed working p_quantity row].
  rewrite Z.sub_diag. cbn [Z.eqb]. unfold with_products.
  rewrite Hsame, db_eta. cbn [committed working].
  fold (fresh_conn (working c')). rewrite <- Hc'. reflexivity.
Qed.

Lemma update_product_idempotent_witness :
  let c' := fst (update_product 1 "Ibuprofen 400mg" None
                   (of_ratio false 899 100) (of_ratio false 35 10)
                   7 20 "" None (Some 1) (stocked_conn 10)) in
  update_product 1 "Ibuprofen 400mg" None (of_ratio false 899 100)
                 (of_ratio false 35 10) 7 20 "" None (Some 1) c'
  = (c', Ok tt).
Proof.
  apply (update_product_idempotent 1 "Ibuprofen 400mg" None
           (of_ratio false 899 100) (of_ratio false 35 10) 7 20 "" None
           (Some 1) (stocked_conn 10)).
  vm_compute. reflexivity.
Defined.

(** X7.  [update_product] fails in four ways only: a blank name, a
    negative field, an id that no product has (each with the connection
    untouched), or a NaN price or cost for an existing product, which raises
    the IntegrityError of the database unwrapped, after a rollback. *)
Theorem update_product_rejections :
  forall product_id name category_id price cost new_quantity reorder_level
         supplier expiry_date adjusted_by (c c' : Conn) (e : error),
    update_product product_id name category_id price cost new_quantity
                   reorder_level supplier expiry_date adjusted_by c
    = (c', Raise e) ->
    (e = EmptyProductName /\ strip name = "" /\ c' = c)
    \/ (e = NegativeField /\ strip name <> "" /\ c' = c
        /\ (fltb price zero = true \/ fltb cost zero = true
            \/ new_quantity < 0 \/ reorder_level < 0))
    \/ (e = ProductWithIdNotFound product_id /\ strip name <> "" /\ c' = c
        /\ select_product product_id (working c) = None)
    \/ (e = IntegrityError /\ strip name <> ""
        /\ c' = fresh_conn (committed c)
        /\ (is_nan price = true \/ is_nan cost = true)
        /\ select_product product_id (working c) <> None).
Proof.
  intros product_id name category_id price cost new_quantity reorder_level
    supplier expiry_date adjusted_by c c' e. unfold update_product.
  destruct (String.eqb (strip name) "") eqn:En.
  { apply String.eqb_eq in En. unfold raise. intros H. inversion H; subst.
    left. repeat split. exact En. }
  pose proof (strip_nonblank _ En) as Hn.
  destruct (fltb price zero || fltb cost zero || (new_quantity <? 0)
            || (reorder_level <? 0)) eqn:Eval.
  { unfold raise. intros H. inversion H; subst. right. left.
    repeat split; [exact Hn|].
    apply orb_true_iff in Eval. destruct Eval as [Eval|Hrl];
      [|apply Z.ltb_lt in Hrl; tauto].
    apply orb_true_iff in Eval. destruct Eval as [Eval|Hq];
      [|apply Z.ltb_lt in Hq; tauto].
    apply orb_true_iff in Eval. tauto. }
  run_py.
  destruct (select_product product_id (working c)) as [r|] eqn:Er.
  2:{ intros H. inversion H; subst. right. right. left. repeat split.
      exact Hn. }
  unfold update_product_row.
  destruct ((is_nan price || is_nan cost) && existsb _ _) eqn:Enan.
  - cbn [committed]. intros H. inversion H; subst. right. right. right.
    repeat split; [exact Hn| |discriminate].
    apply andb_true_iff in Enan. destruct Enan as [Enan _].
    apply orb_true_iff in Enan. exact Enan.
  - unfold insert_adjustment.
    destruct (new_quantity - p_quantity r =? 0); run_py; discriminate.
Qed.

Lemma update_product_rejections_witness :
  exists c' e,
    update_product 9 "Aspirin 325mg" None (of_ratio false 349 100)
                   (of_ratio false 200 100) 80 15 "" None None
                   (stocked_conn 10) = (c', Raise e)
    /\ ((e = EmptyProductName /\ strip "Aspirin 325mg" = ""
         /\ c' = stocked_conn 10)
        \/ (e = NegativeField /\ strip "Aspirin 325mg" <> ""
            /\ c' = stocked_conn 10
            /\ (fltb (of_ratio false 349 100) zero = true
                \/ fltb (of_ratio false 200 100) zero = true
                \/ 80 < 0 \/ 15 < 0))
        \/ (e = ProductWithIdNotFound 9 /\ strip "Aspirin 325mg" <> ""
            /\ c' = stocked_conn 10
            /\ select_product 9 (working (stocked_conn 10)) = None)
        \/ (e = IntegrityError /\ strip "Aspirin 325mg" <> ""
            /\ c' = fresh_conn (committed (stocked_conn 10))
            /\ (is_nan (of_ratio false 349 100) = true
                \/ is_nan (of_ratio false 200 100) = true)
            /\ select_product 9 (working (stocked_conn 10)) <> None)).
Proof.
  exists (stocked_conn 10), (ProductWithIdNotFound 9).
  assert (H : update_product 9 "Aspirin 325mg" None (of_ratio false 349 100)
                             (of_ratio false 200 100) 80 15 "" None None
                             (stocked_conn 10)
              = (stocked_conn 10, Raise (ProductWithIdNotFound 9)))
    by (vm_compute; reflexivity).
  split; [exact H|].
  exact (update_product_rejections _ _ _ _ _ _ _ _ _ _ _ _ _ H).
Defined.

(** ** Stock adjustment *)

Lemma adjust_stock_returns product_id adj_qty reason adjusted_by c c' :
  adjust_stock product_id adj_qty reason adjusted_by c = (c', Ok tt) ->
  let db := working c in
  exists r,
    select_product product_id db = Some r
    /\ adj_qty <> 0 /\ strip reason <> "" /\ 0 <= p_quantity r + adj_qty
    /\ c' = fresh_conn (working c')
    /\ products (working c')
       = products (update_quantity_where product_id
                     (fun _ => p_quantity r + adj_qty) db)
    /\ sales (working c') = sales db
    /\ stock_adjustments (working c')
       = stock_adjustments db
         ++ [Build_Adjustment
               (next_rowid (seq_stock_adjustments db)
                           (map a_id (stock_adjustments db)))
               product_id adj_qty (strip reason) adjusted_by].
Proof.
  unfold adjust_stock.
  destruct (adj_qty =? 0) eqn:Ez; [discriminate|].
  destruct (String.eqb (strip reason) "") eqn:En; [discriminate|].
  run_py.
  destruct (select_product product_id (working c)) as [r|] eqn:Er;
    [|discriminate].
  destruct (p_quantity r + adj_qty <? 0) eqn:Eneg; [discriminate|].
  unfold insert_adjustment. run_py. cbn [committed working].
  intros E. injection E as E. subst c'. cbv zeta. exists r.
  split; [reflexivity|]. split; [apply Z.eqb_neq, Ez|].
  split; [apply strip_nonblank, En|]. split; [apply Z.ltb_ge, Eneg|].
  repeat split.
Qed.

Lemma adjust_stock_accepts product_id adj_qty reason adjusted_by c r :
  select_product product_id (working c) = Some r ->
  adj_qty <> 0 -> strip reason <> "" -> 0 <= p_quantity r + adj_qty ->
  exists c', adjust_stock product_id adj_qty reason adjusted_by c = (c', Ok tt).
Proof.
  intros Hsel Hz Hn Hq. unfold adjust_stock.
  apply Z.eqb_neq in Hz. rewrite Hz.
  destruct (String.eqb (strip reason) "") eqn:En;
    [apply String.eqb_eq in En; contradiction|].
  run_py. rewrite Hsel. apply Z.ltb_ge in Hq. rewrite Hq.
  unfold insert_adjustment. run_py. eexists. reflexivity.
Qed.

(** X8.  [adjust_stock] returns exactly when the delta is not
    zero, the reason is not blank, the product exists and its quantity plus
    the delta is not negative.  Every failure leaves the connection as it
    was, and the checks are made in this order: zero delta, blank reason,
    unknown product, stock below zero. *)
Theorem adjust_stock_outcome :
  forall product_id adj_qty reason adjusted_by (c : Conn),
    ((exists c', adjust_stock product_id adj_qty reason adjusted_by c
                 = (c', Ok tt))
     <-> (adj_qty <> 0 /\ strip reason <> ""
          /\ exists q, quantity_of product_id (working c) = Some q
                       /\ 0 <= q + adj_qty))
    /\ (forall c' e,
          adjust_stock product_id adj_qty reason adjusted_by c = (c', Raise e) ->
          c' = c
          /\ (e = ZeroAdjustment /\ adj_qty = 0
              \/ e = ReasonRequired /\ adj_qty <> 0 /\ strip reason = ""
              \/ e = ProductNotFound /\ adj_qty <> 0 /\ strip reason <> ""
                 /\ quantity_of product_id (working c) = None
              \/ exists q, e = BelowZero q adj_qty /\ adj_qty <> 0
                           /\ strip reason <> ""
                           /\ quantity_of product_id (working c) = Some q
                           /\ q + adj_qty < 0)).
Proof.
  intros product_id adj_qty reason adjusted_by c. split; [split|].
  - intros (c' & H).
    destruct (adjust_stock_returns _ _ _ _ _ _ H)
      as (r & Hsel & Hz & Hn & Hq & _).
    split; [exact Hz|]. split; [exact Hn|]. exists (p_quantity r).
    unfold quantity_of. rewrite Hsel. split; [reflexivity|exact Hq].
  - intros (Hz & Hn & q & Hq & Hle).
    destruct (quantity_of_select _ _ _ Hq) as (r & Hsel & <-).
    exact (adjust_stock_accepts _ _ _ adjusted_by _ _ Hsel Hz Hn Hle).
  - intros c' e. unfold adjust_stock, quantity_of.
    destruct (adj_qty =? 0) eqn:Ez.
    { apply Z.eqb_eq in Ez. intros H. inversion H; subst. tauto. }
    apply Z.eqb_neq in Ez.
    destruct (String.eqb (strip reason) "") eqn:En.
    { apply String.eqb_eq in En. intros H. inversion H; subst. tauto. }
    pose proof (strip_nonblank _ En) as Hn. run_py.
    destruct (select_product product_id (working c)) as [r|] eqn:Er.
    2:{ intros H. inversion H; subst. cbn [option_map]. tauto. }
    destruct (p_quantity r + adj_qty <? 0) eqn:Eneg.
    + apply Z.ltb_lt in Eneg. intros H. inversion H; subst.
      split; [reflexivity|]. right. right. right. exists (p_quantity r).
      cbn [option_map]. tauto.
    + unfold insert_adjustment. run_py. discriminate.
Qed.

Lemma adjust_stock_outcome_witness :
  exists c', adjust_stock 1 (-3) "count" None (stocked_conn 10) = (c', Ok tt).
Proof.
  apply (proj2 (proj1 (adjust_stock_outcome 1 (-3) "count" None
                                            (stocked_conn 10)))).
  split; [lia|]. split; [vm_compute; discriminate|].
  exists 10. split; [reflexivity|lia].
Defined.

(** X9.  An adjustment by a delta followed by one by the opposite
    delta returns the product to its quantity (when that was not negative),
    touches no other product and no sale, and leaves two rows on the
    adjustment ledger whose deltas cancel. *)
Theorem adjust_stock_round_trip :
  forall product_id adj_qty reason adjusted_by reason' adjusted_by'
         (c c1 : Conn) (q : Z),
    quantity_of product_id (working c) = Some q ->
    0 <= q ->
    strip reason' <> "" ->
    adjust_stock product_id adj_qty reason adjusted_by c = (c1, Ok tt) ->
    exists c2,
      adjust_stock product_id (- adj_qty) reason' adjusted_by' c1 = (c2, Ok tt)
      /\ quantity_of product_id (working c1) = Some (q + adj_qty)
      /\ quantity_of product_id (working c2) = Some q
      /\ (forall other, other <> product_id ->
            select_product other (working c2)
            = select_product other (working c))
      /\ adjusted product_id (working c2) = adjusted product_id (working c)
      /\ List.length (stock_adjustments (working c2))
         = (2 + List.length (stock_adjustments (working c)))%nat
      /\ sales (working c2) = sales (working c).
Proof.
  intros product_id adj_qty reason adjusted_by reason' adjusted_by' c c1 q
    Hq Hq0 Hn' H1.
  destruct (adjust_stock_returns _ _ _ _ _ _ H1)
    as (r & Hsel & Hz & Hn & Hle & Hc1 & Hprod1 & Hsales1 & Hadj1).
  assert (Hr : p_quantity r = q).
  { unfold quantity_of in Hq. rewrite Hsel in Hq. inversion Hq. reflexivity. }
  rewrite Hr in *.
  assert (Hsel1 : forall other,
             select_product other (working c1)
             = option_map (fun p => if p_id p =? product_id
                                    then set_quantity (q + adj_qty) p else p)
                          (select_product other (working c))).
  { intros other.
    rewrite <- (select_update_quantity other product_id
                  (fun _ => q + adj_qty) (working c)).
    unfold select_product. rewrite Hprod1. reflexivity. }
  pose proof (Hsel1 product_id) as Hs1. rewrite Hsel in Hs1.
  cbn [option_map] in Hs1. rewrite (select_product_id _ _ _ Hsel) in Hs1.
  rewrite Z.eqb_refl in Hs1.
  destruct (adjust_stock_accepts product_id (- adj_qty) reason' adjusted_by'
              c1 _ Hs1 ltac:(lia) Hn' ltac:(cbn; lia)) as (c2 & H2).
  exists c2. split; [exact H2|].
  destruct (adjust_stock_returns _ _ _ _ _ _ H2)
    as (r2 & Hsel2 & _ & _ & _ & _ & Hprod2 & Hsales2 & Hadj2).
  rewrite Hs1 in Hsel2. inversion Hsel2; subst r2. cbn [p_quantity set_quantity] in *.
  assert (Hsel2' : forall other,
             select_product other (working c2)
             = option_map (fun p => if p_id p =? product_id
                                    then set_quantity (q + adj_qty + - adj_qty) p
                                    else p)
                          (select_product other (working c1))).
  { intros other.
    rewrite <- (select_update_quantity other product_id
                  (fun _ => q + adj_qty + - adj_qty) (working c1)).
    unfold select_product. rewrite Hprod2. reflexivity. }
  split; [unfold quantity_of; rewrite Hs1; reflexivity|].
  split.
  { unfold quantity_of. rewrite Hsel2', Hs1. cbn [option_map p_id set_quantity].
    rewrite (select_product_id _ _ _ Hsel), Z.eqb_refl.
    unfold set_quantity. cbn [p_quantity]. f_equal. lia. }
  split.
  { intros other Hne. rewrite Hsel2', Hsel1.
    destruct (select_product other (working c)) as [p|] eqn:Ep; [|reflexivity].
    cbn [option_map]. pose proof (select_product_id _ _ _ Ep) as Hid.
    destruct (p_id p =? product_id) eqn:E; [lia|]. rewrite E. reflexivity. }
  split.
  { rewrite (adjusted_snoc _ _ _ _ Hadj2), (adjusted_snoc _ _ _ _ Hadj1).
    cbn [a_product_id a_adjustment_qty]. rewrite !Z.eqb_refl. lia. }
  split.
  { rewrite Hadj2, Hadj1, !length_app. cbn [List.length]. lia. }
  congruence.
Qed.

Lemma adjust_stock_round_trip_witness :
  exists c2,
    adjust_stock 1 (- (-3)) "found" None
                 (fst (adjust_stock 1 (-3) "count" None (stocked_conn 10)))
    = (c2, Ok tt)
    /\ quantity_of 1 (working c2) = Some 10
    /\ adjusted 1 (working c2) = adjusted 1 (working (stocked_conn 10)).
Proof.
  assert (H : adjust_stock 1 (-3) "count" None (stocked_conn 10)
              = (fst (adjust_stock 1 (-3) "count" None (stocked_conn 10)),
                 Ok tt)) by (vm_compute; reflexivity).
  assert (Hq : quantity_of 1 (working (stocked_conn 10)) = Some 10)
    by reflexivity.
  assert (H0 : 0 <= 10) by lia.
  assert (Hn : strip "found" <> "") by (vm_compute; discriminate).
  destruct (adjust_stock_round_trip 1 (-3) "count" None "found" None
              (stocked_conn 10) _ 10 Hq H0 Hn H)
    as (c2 & H1 & _ & H3 & _ & H5 & _).
  exists c2. split; [exact H1|]. split; [exact H3|exact H5].
Defined.

(** ** Catalog deletion of an unknown product *)

Lemma find_none_filter {A} (f : A -> bool) (l : list A) :
  find f l = None -> filter f l = [].
Proof.
  induction l as [|x l IH]; cbn [find filter]; [reflexivity|].
  destruct (f x); [discriminate|exact IH].
Qed.

(** X10.  [delete_product] on an id that no product and no sale
    carries raises "Product ID not found." without a rollback: the deletion
    of the adjustments of that id stays pending on the connection.  Where
    every adjustment references an existing product, nothing was deleted and
    the connection is unchanged. *)
Theorem delete_product_unknown :
  forall (product_id : Z) (c : Conn),
    select_product product_id (working c) = None ->
    count_sales_of product_id (working c) = 0 ->
    delete_product product_id c
    = ({| committed := committed c;
          working := delete_adjustments_where product_id (working c) |},
       Raise ProductIdNotFound)
    /\ ((forall a, In a (stock_adjustments (working c)) ->
                   In (a_product_id a) (map p_id (products (working c)))) ->
        delete_product product_id c = (c, Raise ProductIdNotFound)).
Proof.
  intros product_id c Hsel Hcnt.
  assert (Hfilter : filter (fun p => negb (p_id p =? product_id))
                           (products (working c)) = products (working c)).
  { apply filter_none. intros p Hin.
    destruct (p_id p =? product_id) eqn:E; [|reflexivity].
    unfold select_product in Hsel.
    rewrite (find_none _ _ Hsel p Hin) in E. discriminate. }
  assert (Hrun : delete_product product_id c
                 = ({| committed := committed c;
                       working := delete_adjustments_where product_id (working c) |},
                    Raise ProductIdNotFound)).
  { unfold delete_product. run_py. rewrite Hcnt. cbn [Z.ltb Z.compare].
    unfold delete_products_where. run_py. cbn [committed working].
    unfold delete_adjustments_where, with_stock_adjustments, with_products.
    cbn [products sales stock_adjustments seq_products seq_sales
         seq_stock_adjustments].
    unfold select_product in Hsel. rewrite (find_none_filter _ _ Hsel).
    cbn [List.length Z.of_nat Z.eqb]. rewrite Hfilter. reflexivity. }
  split; [exact Hrun|]. intros Hfk. rewrite Hrun. f_equal.
  unfold delete_adjustments_where, with_stock_adjustments.
  rewrite filter_none.
  - rewrite db_eta. apply conn_eta.
  - intros a Hin. destruct (a_product_id a =? product_id) eqn:E; [|reflexivity].
    exfalso. apply Z.eqb_eq in E. specialize (Hfk a Hin). rewrite E in Hfk.
    apply in_map_iff in Hfk. destruct Hfk as (p & Hid & Hp).
    unfold select_product in Hsel. pose proof (find_none _ _ Hsel p Hp) as Hn.
    cbn beta in Hn. lia.
Qed.

Lemma delete_product_unknown_witness :
  delete_product 9 (stocked_conn 10) = (stocked_conn 10, Raise ProductIdNotFound).
Proof.
  apply (proj2 (delete_product_unknown 9 (stocked_conn 10) eq_refl eq_refl)).
  intros a [<-|[]]. left. reflexivity.
Defined.

(** ** The stock a batch needs *)

Lemma demand_nonneg pid items :
  Forall well_formed items -> 0 <= demand pid items.
Proof.
  induction 1 as [|item items [Hq _] _ IH]; [unfold demand; simpl; lia|].
  rewrite demand_cons. destruct (i_product_id item =? pid); lia.
Qed.

Lemma demand_absent pid items :
  (forall item, In item items -> i_product_id item <> pid) ->
  demand pid items = 0.
Proof.
  induction items as [|item items IH]; intros H; [reflexivity|].
  rewrite demand_cons.
  destruct (i_product_id item =? pid) eqn:E.
  - exfalso. apply (H item); [left; reflexivity|lia].
  - rewrite IH; [reflexivity|]. intros i Hi. apply H. right. exact Hi.
Qed.

Lemma quantity_after_line db invoice sold_by item t pid :
  quantity_of pid (after_line db invoice sold_by item t)
  = option_map (fun q => q + (if pid =? i_product_id item
                              then - i_qty item else 0))
               (quantity_of pid db).
Proof.
  apply (quantity_shift pid
           (fun id => if id =? i_product_id item then - i_qty item else 0)).
  apply after_line_products.
Qed.

Lemma accepted_in_stock invoice sold_by db items ts db' :
  accepted invoice sold_by db items ts db' -> in_stock db items.
Proof.
  induction 1 as [db|db item0 t items ts db' Hl Hacc IH]; [intros ? []|].
  destruct Hl as (_ & Hq0 & _ & (r & Hsel & Hle) & _).
  assert (Hq : quantity_of (i_product_id item0) db = Some (p_quantity r)).
  { unfold quantity_of. rewrite Hsel. reflexivity. }
  assert (Hrest : forall item, In item items ->
            exists q, quantity_of (i_product_id item) db = Some q
                      /\ demand (i_product_id item) (item0 :: items) <= q).
  { intros item Hin. destruct (IH item Hin) as (q1 & Hq1 & Hd).
    rewrite quantity_after_line in Hq1.
    destruct (quantity_of (i_product_id item) db) as [q|]; [|discriminate].
    cbn [option_map] in Hq1. inversion Hq1; subst q1. exists q.
    split; [reflexivity|]. rewrite demand_cons.
    rewrite (Z.eqb_sym (i_product_id item0)).
    destruct (i_product_id item =? i_product_id item0); lia. }
  intros item [<-|Hin]; [|exact (Hrest item Hin)].
  destruct (existsb (fun i => i_product_id i =? i_product_id item0) items)
    eqn:Eex.
  - apply existsb_exists in Eex. destruct Eex as (i & Hin & Hid).
    apply Z.eqb_eq in Hid. rewrite <- Hid. apply Hrest, Hin.
  - exists (p_quantity r). split; [exact Hq|]. rewrite demand_cons, Z.eqb_refl.
    rewrite demand_absent; [lia|]. intros i Hin Hid.
    assert (existsb (fun i => i_product_id i =? i_product_id item0) items
            = true); [|congruence].
    apply existsb_exists. exists i. split; [exact Hin|lia].
Qed.

Lemma in_stock_accepted invoice sold_by items :
  Forall well_formed items ->
  forall db, in_stock db items ->
             exists ts db', accepted invoice sold_by db items ts db'.
Proof.
  induction 1 as [|item items Hwf Hall IH]; intros db Hin.
  - exists [], db. constructor.
  - destruct Hwf as (Hq & t & Hft & Hneg & Hnan).
    destruct (Hin item (or_introl eq_refl)) as (q & Hqty & Hd).
    rewrite demand_cons, Z.eqb_refl in Hd.
    pose proof (demand_nonneg (i_product_id item) _ Hall) as H0.
    destruct (quantity_of_select _ _ _ Hqty) as (r & Hsel & Hr).
    assert (Hl : line_accepts db item t).
    { split; [exact Hft|]. split; [exact Hq|]. split; [exact Hneg|].
      split; [|exact Hnan]. exists r. split; [exact Hsel|lia]. }
    destruct (IH (after_line db invoice sold_by item t)) as (ts & db' & Hacc).
    { intros i Hi. destruct (Hin i (or_intror Hi)) as (qi & Hqi & Hdi).
      rewrite quantity_after_line, Hqi. cbn [option_map]. eexists.
      split; [reflexivity|]. rewrite demand_cons in Hdi.
      rewrite (Z.eqb_sym (i_product_id item)) in Hdi.
      destruct (i_product_id i =? i_product_id item); lia. }
    exists (t :: ts), db'. constructor; assumption.
Qed.

Lemma record_sale_accepted invoice sold_by items ts db' c :
  items <> [] ->
  accepted invoice sold_by (working c) items ts db' ->
  record_sale invoice items sold_by c = (fresh_conn db', Ok (py_sum ts)).
Proof.
  intros Hne Hacc.
  pose proof (sale_lines_accepted _ _ _ _ _ _ Hacc (committed c) []) as Hl.
  rewrite conn_eta in Hl. cbn [app] in Hl.
  rewrite (record_sale_returns _ _ _ _ _ _ Hl Hne). reflexivity.
Qed.

Lemma record_sale_in_stock invoice sold_by items c :
  items <> [] ->
  Forall well_formed items ->
  ((exists c' total, record_sale invoice items sold_by c = (c', Ok total))
   -> in_stock (working c) items)
  /\ (in_stock (working c) items ->
      exists c' total, record_sale invoice items sold_by c = (c', Ok total)).
Proof.
  intros Hne Hwf. split.
  - intros (c' & total & H).
    pose proof (record_sale_result _ _ _ _ _ _ H) as (_ & ts & db' & Hacc & _).
    exact (accepted_in_stock _ _ _ _ _ _ Hacc).
  - intros Hin.
    destruct (in_stock_accepted invoice sold_by _ Hwf _ Hin) as (ts & db' & Hacc).
    exists (fresh_conn db'), (py_sum ts).
    exact (record_sale_accepted _ _ _ _ _ _ Hne Hacc).
Qed.

(** X11.  For a batch whose lines each have a positive quantity and
    a total that is not negative, [record_sale] returns exactly when every
    product of the batch exists and holds at least the quantity that all its
    lines ask for together; every product then loses exactly that quantity. *)
Theorem record_sale_stock_criterion :
  forall (invoice : string) (sold_by : option Z) (items : list Item) (c : Conn),
    items <> [] ->
    Forall well_formed items ->
    ((exists c' total, record_sale invoice items sold_by c = (c', Ok total))
     <-> in_stock (working c) items)
    /\ (forall c' total,
          record_sale invoice items sold_by c = (c', Ok total) ->
          forall pid q,
            quantity_of pid (working c) = Some q ->
            quantity_of pid (working c') = Some (q - demand pid items)).
Proof.
  intros invoice sold_by items c Hne Hwf.
  destruct (record_sale_in_stock invoice sold_by items c Hne Hwf)
    as [H1 H2].
  split; [split; assumption|].
  intros c' total H pid q Hq.
  pose proof (record_sale_result _ _ _ _ _ _ H)
    as (_ & ts & db' & Hacc & -> & _).
  exact (accepted_quantity _ _ _ _ _ _ _ _ Hacc Hq).
Qed.

Lemma record_sale_stock_criterion_witness :
  exists c' total,
    record_sale "INV-X" [unit_item 1 3; unit_item 1 4] None (stocked_conn 10)
    = (c', Ok total).
Proof.
  assert (Hne : [unit_item 1 3; unit_item 1 4] <> []) by discriminate.
  assert (Hwf : Forall well_formed [unit_item 1 3; unit_item 1 4]).
  { constructor; [|constructor; [|constructor]].
    - split; [reflexivity|]. eexists. split; [vm_compute; reflexivity|].
      split; vm_compute; reflexivity.
    - split; [reflexivity|]. eexists. split; [vm_compute; reflexivity|].
      split; vm_compute; reflexivity. }
  apply (proj2 (proj1 (record_sale_stock_criterion "INV-X" None _
                         (stocked_conn 10) Hne Hwf))).
  intros item [<-|[<-|[]]]; exists 10; (split; [reflexivity|]);
    vm_compute; discriminate.
Defined.

Lemma demand_permutation pid items items' :
  Permutation items items' -> demand pid items = demand pid items'.
Proof.
  induction 1 as [|x l l' _ IH|x y l|l l' l'' _ IH1 _ IH2].
  - reflexivity.
  - rewrite !demand_cons, IH. reflexivity.
  - rewrite !demand_cons. lia.
  - congruence.
Qed.

Lemma in_stock_permutation db items items' :
  Permutation items items' -> in_stock db items -> in_stock db items'.
Proof.
  intros Hp H item Hin.
  destruct (H item (Permutation_in _ (Permutation_sym Hp) Hin)) as (q & Hq & Hd).
  exists q. split; [exact Hq|].
  rewrite <- (demand_permutation _ _ _ Hp). exact Hd.
Qed.

(** X12.  Whether [record_sale] accepts a batch of such lines does
    not depend on the order of the lines, nor on the invoice or the seller,
    and the products table and the adjustment ledger after the sale are the
    same for every order. *)
Theorem record_sale_order_independent :
  forall (invoice invoice' : string) (sold_by sold_by' : option Z)
         (items items' : list Item) (c : Conn),
    Permutation items items' ->
    Forall well_formed items ->
    ((exists c1 total, record_sale invoice items sold_by c = (c1, Ok total))
     <-> (exists c2 total,
            record_sale invoice' items' sold_by' c = (c2, Ok total)))
    /\ (forall c1 total1 c2 total2,
          record_sale invoice items sold_by c = (c1, Ok total1) ->
          record_sale invoice' items' sold_by' c = (c2, Ok total2) ->
          products (working c1) = products (working c2)
          /\ stock_adjustments (working c1) = stock_adjustments (working c2)).
Proof.
  intros invoice invoice' sold_by sold_by' items items' c Hp Hwf.
  assert (Hwf' : Forall well_formed items').
  { exact (Permutation_Forall Hp Hwf). }
  split.
  - destruct items as [|i items].
    { apply Permutation_nil in Hp. subst items'.
      split; intros (? & ? & H); discriminate H. }
    assert (Hne' : items' <> []).
    { intros ->. apply Permutation_sym, Permutation_nil in Hp. discriminate. }
    destruct (record_sale_in_stock invoice sold_by (i :: items) c
                ltac:(discriminate) Hwf) as [H1 H2].
    destruct (record_sale_in_stock invoice' sold_by' items' c
                Hne' Hwf') as [H1' H2'].
    split; intros H.
    + apply H2', (in_stock_permutation _ _ _ Hp), H1, H.
    + apply H2, (in_stock_permutation _ _ _ (Permutation_sym Hp)), H1', H.
  - intros c1 total1 c2 total2 E1 E2.
    pose proof (record_sale_result _ _ _ _ _ _ E1)
      as (_ & ts1 & db1 & Hacc1 & -> & _).
    pose proof (record_sale_result _ _ _ _ _ _ E2)
      as (_ & ts2 & db2 & Hacc2 & -> & _).
    cbn [working fresh_conn]. split.
    + rewrite (accepted_products _ _ _ _ _ _ Hacc1),
        (accepted_products _ _ _ _ _ _ Hacc2).
      apply shift_ext_in. intros p _.
      rewrite (demand_permutation _ _ _ Hp). reflexivity.
    + rewrite (accepted_stock_adjustments _ _ _ _ _ _ Hacc1),
        (accepted_stock_adjustments _ _ _ _ _ _ Hacc2). reflexivity.
Qed.

Lemma record_sale_order_independent_witness :
  products (working (fst (record_sale "INV-X" [unit_item 1 3; unit_item 1 4]
                                      None (stocked_conn 10))))
  = products (working (fst (record_sale "INV-Y" [unit_item 1 4; unit_item 1 3]
                                        (Some 1) (stocked_conn 10)))).
Proof.
  assert (Hp : Permutation [unit_item 1 3; unit_item 1 4]
                           [unit_item 1 4; unit_item 1 3]) by apply perm_swap.
  assert (Hwf : Forall well_formed [unit_item 1 3; unit_item 1 4]).
  { constructor; [|constructor; [|constructor]].
    - split; [reflexivity|]. eexists. split; [vm_compute; reflexivity|].
      split; vm_compute; reflexivity.
    - split; [reflexivity|]. eexists. split; [vm_compute; reflexivity|].
      split; vm_compute; reflexivity. }
  apply (proj2 (record_sale_order_independent "INV-X" "INV-Y" None (Some 1)
                  _ _ (stocked_conn 10) Hp Hwf)
               _ (of_ratio false 7 1) _ (of_ratio false 7 1)).
  - vm_compute. reflexivity.
  - vm_compute. reflexivity.
Defined.

(** ** The effect of a reversal *)

Lemma filter_filter_other (invoice other : string) (l : list Sale) :
  other <> invoice ->
  filter (fun s => String.eqb (s_invoice s) other)
         (filter (fun s => negb (String.eqb (s_invoice s) invoice)) l)
  = filter (fun s => String.eqb (s_invoice s) other) l.
Proof.
  intros Hne. induction l as [|s l IH]; [reflexivity|]. cbn [filter].
  destruct (String.eqb (s_invoice s) invoice) eqn:E; cbn [negb filter].
  - apply String.eqb_eq in E.
    destruct (String.eqb (s_invoice s) other) eqn:E'; [|exact IH].
    apply String.eqb_eq in E'. congruence.
  - rewrite IH. reflexivity.
Qed.

(** X13.  [undo_sale] on an invoice without rows raises and changes
    nothing.  Otherwise it returns with nothing pending, gives each product
    back the quantities of the invoice's rows, lowers the sold quantity of
    each product by the same amount, writes no adjustment, removes every row
    of the invoice and leaves the rows of every other invoice as they were. *)
Theorem undo_sale_effect :
  forall (invoice : string) (sold_by : option Z) (c : Conn),
    let lines := select_invoice_lines invoice (working c) in
    (lines = [] -> undo_sale invoice sold_by c = (c, Raise (NoSalesFound invoice)))
    /\ (lines <> [] ->
        exists c',
          undo_sale invoice sold_by c = (c', Ok tt)
          /\ quiescent c'
          /\ (forall pid q,
                quantity_of pid (working c) = Some q ->
                quantity_of pid (working c') = Some (q + credit pid lines))
          /\ (forall pid,
                sold pid (working c') = sold pid (working c) - credit pid lines)
          /\ stock_adjustments (working c') = stock_adjustments (working c)
          /\ select_invoice_lines invoice (working c') = []
          /\ (forall other, other <> invoice ->
                select_invoice_lines other (working c')
                = select_invoice_lines other (working c))).
Proof.
  intros invoice sold_by c lines. rewrite undo_sale_run. fold lines.
  split; [intros ->; reflexivity|]. intros Hne.
  destruct lines as [|l0 ls] eqn:El; [contradiction|]. rewrite <- El.
  eexists. split; [reflexivity|]. split; [reflexivity|].
  destruct (restored_tables lines (working c)) as (Hsales & Hadj & _).
  cbn [working fresh_conn]. split; [|split; [|split; [|split]]].
  - intros pid q Hq.
    rewrite (quantity_shift pid (fun id => credit id lines) (working c)), Hq;
      [reflexivity|].
    unfold with_sales. cbn [products]. apply restored_products.
  - intros pid. unfold sold, with_sales. cbn [sales]. rewrite Hsales.
    rewrite (sold_split invoice pid (sales (working c))).
    unfold lines, select_invoice_lines. lia.
  - exact Hadj.
  - unfold select_invoice_lines, with_sales. cbn [sales]. rewrite Hsales.
    rewrite filter_filter_negb. reflexivity.
  - intros other Hother. unfold select_invoice_lines, with_sales.
    cbn [sales]. rewrite Hsales, (filter_filter_other _ _ _ Hother).
    reflexivity.
Qed.

Lemma undo_sale_effect_witness :
  exists c',
    undo_sale "INV-X" None sold_conn = (c', Ok tt)
    /\ quiescent c'
    /\ forall pid q,
         quantity_of pid (working sold_conn) = Some q ->
         quantity_of pid (working c')
         = Some (q + credit pid (select_invoice_lines "INV-X"
                                                      (working sold_conn))).
Proof.
  assert (Hne : select_invoice_lines "INV-X" (working sold_conn) <> [])
    by (vm_compute; discriminate).
  destruct (proj2 (undo_sale_effect "INV-X" None sold_conn) Hne)
    as (c' & H1 & H2 & H3 & _).
  exists c'. split; [exact H1|]. split; [exact H2|exact H3].
Defined.

(** ** A sale blocks the deletion of its products *)

(** X24.  After [record_sale] has returned, [delete_product] on any
    product of the batch raises "Cannot delete product with associated sales
    history." and changes nothing; the product is still there. *)
Theorem sale_blocks_deletion :
  forall (invoice : string) (items : list Item) (sold_by : option Z)
         (c c' : Conn) (total : float) (item : Item),
    record_sale invoice items sold_by c = (c', Ok total) ->
    In item items ->
    delete_product (i_product_id item) c' = (c', Raise SalesHistoryExists)
    /\ exists q, quantity_of (i_product_id item) (working c') = Some q.
Proof.
  intros invoice items sold_by c c' total item H Hin.
  pose proof (record_sale_result _ _ _ _ _ _ H)
    as (_ & ts & db' & Hacc & -> & _).
  destruct (accepted_sales _ _ _ _ _ _ Hacc) as (rows & Hsales & Hrows & _).
  assert (Hrow : exists row, In row rows
                             /\ s_product_id row = i_product_id item).
  { clear - Hrows Hin. induction Hrows as [|i r items rows Hir _ IH];
      [destruct Hin|].
    destruct Hin as [<-|Hin].
    - exists r. split; [left; reflexivity|]. apply Hir.
    - destruct (IH Hin) as (row & Hr & Hid). exists row.
      split; [right; exact Hr|exact Hid]. }
  destruct Hrow as (row & Hrow & Hid).
  assert (Hcnt : (0 <? count_sales_of (i_product_id item) db') = true).
  { apply count_sales_of_pos. exists row. split; [|exact Hid].
    rewrite Hsales. apply in_or_app. right. exact Hrow. }
  split.
  - unfold delete_product. run_py. cbn [working fresh_conn].
    rewrite Hcnt. reflexivity.
  - destruct (accepted_in_stock _ _ _ _ _ _ Hacc item Hin) as (q & Hq & _).
    exists (q - demand (i_product_id item) items). cbn [working fresh_conn].
    exact (accepted_quantity _ _ _ _ _ _ _ _ Hacc Hq).
Qed.

Lemma sale_blocks_deletion_witness :
  delete_product 1 sold_conn = (sold_conn, Raise SalesHistoryExists).
Proof.
  assert (H : record_sale "INV-X" [unit_item 1 3] None (stocked_conn 10)
              = (sold_conn, Ok (of_ratio false 3 1)))
    by (vm_compute; reflexivity).
  exact (proj1 (sale_blocks_deletion "INV-X" [unit_item 1 3] None
                  (stocked_conn 10) sold_conn (of_ratio false 3 1)
                  (unit_item 1 3) H (or_introl eq_refl))).
Defined.

(** ** Categories and users *)

Ltac run_adm :=
  cbv beta iota delta [adm_bind adm_ret adm_raise adm_query adm_execute
                       adm_commit adm_attempt adm_except fst snd].

Lemma NoDup_map_filter {A B} (f : A -> B) (g : A -> bool) (l : list A) :
  NoDup (map f l) -> NoDup (map f (filter g l)).
Proof.
  induction l as [|x l IH]; cbn [map filter]; [intros; constructor|].
  intros H. inversion H as [|? ? Hx Hl]; subst.
  destruct (g x); [|apply IH, Hl]. cbn [map]. constructor; [|apply IH, Hl].
  intros Hin. apply Hx. apply in_map_iff in Hin.
  destruct Hin as (y & Hy & Hin). apply filter_In in Hin.
  rewrite <- Hy. apply in_map, Hin.
Qed.

Lemma NoDup_snoc_gen {A} (l : list A) (x : A) :
  NoDup l -> ~ In x l -> NoDup (l ++ [x]).
Proof.
  intros Hl Hx. apply NoDup_app; [exact Hl|repeat constructor; intros []|].
  intros a Ha [<-|[]]. exact (Hx Ha).
Qed.

Lemma existsb_false_not_in {A B} (f : A -> B) (eqb : B -> B -> bool) (y : B)
    (l : list A) :
  (forall a b, eqb a b = true <-> a = b) ->
  existsb (fun x => eqb (f x) y) l = false -> ~ In y (map f l).
Proof.
  intros Heq H Hin. apply in_map_iff in Hin. destruct Hin as (x & Hx & Hin).
  assert (existsb (fun x => eqb (f x) y) l = true); [|congruence].
  apply existsb_exists. exists x. split; [exact Hin|]. apply Heq. exact Hx.
Qed.

Lemma admin_valid_insert_user username pw_hash full_name role st st' :
  admin_valid st -> username <> "" -> role_ok role ->
  insert_user username pw_hash full_name role st = Some st' ->
  admin_valid st'.
Proof.
  intros (H1 & H2 & H3 & H4 & H5 & H6) Hn Hr. unfold insert_user.
  destruct (existsb _ (users st)) eqn:E; [discriminate|].
  intros H. inversion H; subst. unfold admin_valid. cbn [categories users].
  split; [exact H1|]. split; [exact H2|]. split; [exact H3|].
  rewrite !map_app. cbn [map u_id u_username].
  split; [apply NoDup_snoc; [exact H4|apply next_rowid_fresh]|].
  split.
  - apply NoDup_snoc_gen; [exact H5|].
    apply (existsb_false_not_in u_username String.eqb); [|exact E].
    apply String.eqb_eq.
  - apply Forall_app. split; [exact H6|]. constructor; [|constructor].
    cbn. split; assumption.
Qed.

Lemma admin_valid_insert_category name st st' :
  admin_valid st -> name <> "" ->
  insert_category name st = Some st' -> admin_valid st'.
Proof.
  intros (H1 & H2 & H3 & H4 & H5 & H6) Hn. unfold insert_category.
  destruct (existsb _ (categories st)) eqn:E; [discriminate|].
  intros H. inversion H; subst. unfold admin_valid. cbn [categories users].
  rewrite !map_app. cbn [map c_id c_name].
  split; [apply NoDup_snoc; [exact H1|apply next_rowid_fresh]|].
  split.
  { apply NoDup_snoc_gen; [exact H2|].
    apply (existsb_false_not_in c_name String.eqb); [|exact E].
    apply String.eqb_eq. }
  split; [|repeat split; assumption].
  apply Forall_app. split; [exact H3|]. constructor; [exact Hn|constructor].
Qed.

Lemma map_rename_absent category_id name (l : list Category) :
  existsb (fun k => c_id k =? category_id) l = false ->
  map (fun k => if c_id k =? category_id
                then {| c_id := c_id k; c_name := name |} else k) l = l.
Proof.
  induction l as [|k l IH]; cbn [existsb map]; [reflexivity|].
  intros H. apply orb_false_elim in H. destruct H as [Hk Hl].
  rewrite Hk, (IH Hl). reflexivity.
Qed.

Lemma rename_category_ids category_id name (l : list Category) :
  map c_id (map (fun k => if c_id k =? category_id
                          then {| c_id := c_id k; c_name := name |} else k) l)
  = map c_id l.
Proof.
  rewrite map_map. apply map_ext. intros k.
  destruct (c_id k =? category_id); reflexivity.
Qed.

Lemma rename_category_names category_id name (l : list Category) :
  NoDup (map c_id l) -> NoDup (map c_name l) ->
  (forall k, In k l -> c_id k <> category_id -> c_name k <> name) ->
  NoDup (map c_name
           (map (fun k => if c_id k =? category_id
                          then {| c_id := c_id k; c_name := name |} else k) l)).
Proof.
  induction l as [|k l IH]; cbn [map]; [intros; constructor|].
  intros Hid Hname Hother.
  inversion Hid as [|? ? Hk Hl]; subst.
  inversion Hname as [|? ? Hk' Hl']; subst.
  assert (IHl := IH Hl Hl' (fun k' H => Hother k' (or_intror H))).
  destruct (c_id k =? category_id) eqn:E.
  - apply Z.eqb_eq in E. cbn [c_name].
    assert (Habs : existsb (fun k => c_id k =? category_id) l = false).
    { destruct (existsb _ l) eqn:Ex; [|reflexivity]. exfalso.
      apply existsb_exists in Ex. destruct Ex as (k' & Hin & Hk'').
      apply Z.eqb_eq in Hk''. apply Hk. rewrite E, <- Hk''.
      apply in_map, Hin. }
    rewrite (map_rename_absent _ _ _ Habs). constructor; [|exact Hl'].
    intros Hin. apply in_map_iff in Hin. destruct Hin as (k' & Hn & Hin).
    apply (Hother k' (or_intror Hin)); [|exact Hn].
    intros Heq. apply Hk. rewrite E, <- Heq. apply in_map, Hin.
  - constructor; [|exact IHl]. intros Hin.
    apply in_map_iff in Hin. destruct Hin as (k' & Hn & Hin).
    apply in_map_iff in Hin. destruct Hin as (k0 & Hk0 & Hin). subst k'.
    destruct (c_id k0 =? category_id) eqn:E0; cbn [c_name] in Hn.
    + apply (Hother k (or_introl eq_refl)); [lia|]. symmetry. exact Hn.
    + apply Hk'. rewrite <- Hn. apply in_map, Hin.
Qed.

Lemma admin_valid_rename_category category_id name st st' :
  admin_valid st -> name <> "" ->
  rename_category category_id name st = Some st' -> admin_valid st'.
Proof.
  intros (H1 & H2 & H3 & H4 & H5 & H6) Hn. unfold rename_category.
  destruct (existsb (fun k => c_id k =? category_id) (categories st)) eqn:Eid.
  - destruct (existsb (fun k => negb (c_id k =? category_id)
                                  && String.eqb (c_name k) name)
                       (categories st)) eqn:Eother; cbn [andb];
      [discriminate|].
    intros H. inversion H; subst.
    unfold admin_valid, with_categories. cbn [categories users].
    rewrite rename_category_ids.
    split; [exact H1|]. split; [|split; [|repeat split; assumption]].
    + apply rename_category_names; [exact H1|exact H2|].
      intros k Hin Hid Hname.
      assert (existsb (fun k => negb (c_id k =? category_id)
                                && String.eqb (c_name k) name)
                      (categories st) = true); [|congruence].
      apply existsb_exists. exists k. split; [exact Hin|].
      apply andb_true_iff. split.
      * apply negb_true_iff, Z.eqb_neq, Hid.
      * apply String.eqb_eq, Hname.
    + apply Forall_map. rewrite Forall_forall in *. intros k Hin.
      destruct (c_id k =? category_id); [exact Hn|apply H3, Hin].
  - cbn [andb]. intros H. inversion H; subst.
    unfold with_categories. rewrite (map_rename_absent _ _ _ Eid).
    repeat split; assumption.
Qed.

Lemma admin_valid_delete_category category_id st :
  admin_valid st ->
  admin_valid (with_categories (filter (fun k => negb (c_id k =? category_id))) st).
Proof.
  intros (H1 & H2 & H3 & H4 & H5 & H6). unfold admin_valid, with_categories.
  cbn [categories users].
  split; [apply NoDup_map_filter, H1|]. split; [apply NoDup_map_filter, H2|].
  split; [|repeat split; assumption].
  rewrite Forall_forall in *. intros k Hin. apply filter_In in Hin.
  apply H3, Hin.
Qed.

Lemma admin_valid_delete_user user_id st :
  admin_valid st ->
  admin_valid (with_users (filter (fun u => negb (u_id u =? user_id))) st).
Proof.
  intros (H1 & H2 & H3 & H4 & H5 & H6). unfold admin_valid, with_users.
  cbn [categories users].
  split; [exact H1|]. split; [exact H2|]. split; [exact H3|].
  split; [apply NoDup_map_filter, H4|]. split; [apply NoDup_map_filter, H5|].
  rewrite Forall_forall in *. intros u Hin. apply filter_In in Hin.
  apply H6, Hin.
Qed.

Lemma admin_valid_update_users (g : User -> User) st :
  (forall u, u_id (g u) = u_id u) ->
  (forall u, u_username (g u) = u_username u) ->
  (forall u, role_ok (u_role u) -> role_ok (u_role (g u))) ->
  admin_valid st -> admin_valid (with_users (map g) st).
Proof.
  intros Hid Hname Hrole (H1 & H2 & H3 & H4 & H5 & H6).
  unfold admin_valid, with_users. cbn [categories users].
  split; [exact H1|]. split; [exact H2|]. split; [exact H3|].
  rewrite !map_map. rewrite (map_ext _ _ Hid), (map_ext _ _ Hname).
  split; [exact H4|]. split; [exact H5|].
  apply Forall_map. rewrite Forall_forall in *. intros u Hin.
  destruct (H6 u Hin) as [Hn Hr]. rewrite Hname. split; [exact Hn|].
  apply Hrole, Hr.
Qed.

Lemma role_checked role :
  negb (String.eqb role "staff" || String.eqb role "admin") = false ->
  role_ok role.
Proof.
  intros H. apply negb_false_iff, orb_true_iff in H.
  destruct H as [H|H]; apply String.eqb_eq in H; [left|right]; exact H.
Qed.

Lemma insert_categories_valid names :
  Forall (fun n => n <> "") names ->
  forall s, both_stores admin_valid s ->
            both_stores admin_valid (fst (insert_categories names s)).
Proof.
  induction 1 as [|name names Hn _ IH]; intros s Hs; [exact Hs|].
  cbn [insert_categories]. run_adm.
  destruct (insert_category name (current s)) as [st|] eqn:E; [|exact Hs].
  apply IH. split; [exact (proj1 Hs)|]. cbn [current].
  exact (admin_valid_insert_category _ _ _ (proj2 Hs) Hn E).
Qed.

Lemma sample_categories_named : Forall (fun n => n <> "") sample_categories.
Proof. repeat constructor; discriminate. Qed.

Lemma add_user_valid username password pw_hash full_name role s :
  both_stores admin_valid s ->
  both_stores admin_valid (fst (add_user username password pw_hash full_name
                                         role s)).
Proof.
  intros Hs. unfold add_user.
  destruct (String.eqb (strip username) "") eqn:En; [exact Hs|].
  destruct (String.eqb password ""); [exact Hs|]. cbn [orb].
  destruct (negb _) eqn:Er; [exact Hs|]. run_adm.
  destruct (insert_user _ _ _ _ (current s)) as [st|] eqn:E; [|exact Hs].
  cbn [current saved].
  pose proof (admin_valid_insert_user _ _ _ _ _ _ (proj2 Hs)
                (strip_nonblank _ En) (role_checked _ Er) E) as H.
  split; exact H.
Qed.

Lemma change_user_password_valid user_id new_password pw_hash s :
  both_stores admin_valid s ->
  both_stores admin_valid (fst (change_user_password user_id new_password
                                                     pw_hash s)).
Proof.
  intros Hs. unfold change_user_password.
  destruct (String.eqb new_password ""); [exact Hs|]. run_adm.
  cbn [current saved].
  assert (H : admin_valid
                (with_users
                   (map (fun u => if u_id u =? user_id
                                  then {| u_id := u_id u;
                                          u_username := u_username u;
                                          u_password_hash := pw_hash;
                                          u_full_name := u_full_name u;
                                          u_role := u_role u |}
                                  else u)) (current s))).
  { apply admin_valid_update_users; [| | |exact (proj2 Hs)];
      intros u; destruct (u_id u =? user_id); try reflexivity; tauto. }
  destruct (count_where _ _ =? 0); cbn [fst]; split; cbn [saved current];
    try exact H; exact (proj1 Hs).
Qed.

Lemma update_user_valid user_id full_name role s :
  both_stores admin_valid s ->
  both_stores admin_valid (fst (update_user user_id full_name role s)).
Proof.
  intros Hs. unfold update_user.
  destruct (negb _) eqn:Er; [exact Hs|]. run_adm. cbn [current saved].
  assert (H : admin_valid
                (with_users
                   (map (fun u => if u_id u =? user_id
                                  then {| u_id := u_id u;
                                          u_username := u_username u;
                                          u_password_hash := u_password_hash u;
                                          u_full_name := strip full_name;
                                          u_role := role |}
                                  else u)) (current s))).
  { apply admin_valid_update_users; [| | |exact (proj2 Hs)];
      intros u; destruct (u_id u =? user_id); try reflexivity; try tauto.
    intros _. exact (role_checked _ Er). }
  destruct (count_where _ _ =? 0); cbn [fst]; split; cbn [saved current];
    try exact H; exact (proj1 Hs).
Qed.

Lemma delete_user_valid user_id s :
  both_stores admin_valid s ->
  both_stores admin_valid (fst (delete_user user_id s)).
Proof.
  intros Hs. unfold delete_user. run_adm. cbn [current saved].
  assert (H : admin_valid
                (with_users (filter (fun u => negb (u_id u =? user_id)))
                   (with_ledger (anonymize_adjustments user_id)
                      (with_ledger (anonymize_sales user_id) (current s))))).
  { apply admin_valid_delete_user. exact (proj2 Hs). }
  destruct (count_where _ _ =? 0); cbn [fst]; split; cbn [saved current];
    try exact H; exact (proj1 Hs).
Qed.

Lemma add_category_valid name s :
  both_stores admin_valid s ->
  both_stores admin_valid (fst (add_category name s)).
Proof.
  intros Hs. unfold add_category.
  destruct (String.eqb (strip name) "") eqn:En; [exact Hs|]. run_adm.
  destruct (insert_category _ (current s)) as [st|] eqn:E; [|exact Hs].
  cbn [current saved].
  pose proof (admin_valid_insert_category _ _ _ (proj2 Hs)
                (strip_nonblank _ En) E) as H.
  split; exact H.
Qed.

Lemma update_category_valid category_id new_name s :
  both_stores admin_valid s ->
  both_stores admin_valid (fst (update_category category_id new_name s)).
Proof.
  intros Hs. unfold update_category.
  destruct (String.eqb (strip new_name) "") eqn:En; [exact Hs|]. run_adm.
  destruct (rename_category _ _ (current s)) as [st|] eqn:E; [|exact Hs].
  cbn [current saved].
  pose proof (admin_valid_rename_category _ _ _ _ (proj2 Hs)
                (strip_nonblank _ En) E) as H.
  destruct (count_where _ _ =? 0); cbn [fst]; split; cbn [saved current];
    try exact H; exact (proj1 Hs).
Qed.

Lemma delete_category_valid category_id s :
  both_stores admin_valid s ->
  both_stores admin_valid (fst (delete_category category_id s)).
Proof.
  intros Hs. unfold delete_category. run_adm.
  destruct (0 <? count_where _ _); [exact Hs|]. cbn [current saved].
  pose proof (admin_valid_delete_category category_id _ (proj2 Hs)) as H.
  destruct (count_where _ _ =? 0); cbn [fst]; split; cbn [saved current];
    try exact H; exact (proj1 Hs).
Qed.

Lemma init_db_blocks pw_hash s :
  init_db pw_hash s
  = adm_bind adm_commit
      (fun _ => adm_bind (seed_users pw_hash)
         (fun _ => adm_bind seed_categories (fun _ => seed_products))) s.
Proof. reflexivity. Qed.

Lemma adm_bind_valid {A B} (m : Adm A) (k : A -> Adm B) s :
  both_stores admin_valid (fst (m s)) ->
  (forall a s', both_stores admin_valid s' ->
                both_stores admin_valid (fst (k a s'))) ->
  both_stores admin_valid (fst (adm_bind m k s)).
Proof.
  intros Hm Hk. unfold adm_bind. destruct (m s) as [s' [a|e]]; cbn [fst] in *.
  - apply Hk, Hm.
  - exact Hm.
Qed.

Lemma adm_commit_valid s :
  both_stores admin_valid s -> both_stores admin_valid (fst (adm_commit s)).
Proof. intros Hs. split; exact (proj2 Hs). Qed.

Lemma seed_users_valid pw_hash s :
  both_stores admin_valid s ->
  both_stores admin_valid (fst (seed_users pw_hash s)).
Proof.
  intros Hs. unfold seed_users. run_adm.
  destruct (Z.of_nat _ =? 0); [|exact Hs].
  destruct (insert_user _ _ _ _ (current s)) as [st|] eqn:E; [|exact Hs].
  cbn [saved current].
  assert (Hn : "admin" <> "") by discriminate.
  pose proof (admin_valid_insert_user _ _ _ _ _ _ (proj2 Hs) Hn
                (or_intror eq_refl) E) as H.
  split; exact H.
Qed.

Lemma seed_categories_valid s :
  both_stores admin_valid s ->
  both_stores admin_valid (fst (seed_categories s)).
Proof.
  intros Hs. unfold seed_categories.
  apply adm_bind_valid; [exact Hs|]. intros cnt s' Hs'.
  destruct (cnt =? 0); [|exact Hs'].
  apply adm_bind_valid.
  - apply insert_categories_valid; [exact sample_categories_named|exact Hs'].
  - intros _ s''. apply adm_commit_valid.
Qed.

Lemma seed_products_valid s :
  both_stores admin_valid s ->
  both_stores admin_valid (fst (seed_products s)).
Proof.
  intros Hs. unfold seed_products. run_adm.
  destruct (Z.of_nat _ =? 0); [|exact Hs].
  destruct (sample_rows _ _); [exact Hs|].
  cbn [fst]. split; exact (proj2 Hs).
Qed.

Lemma init_db_valid pw_hash s :
  both_stores admin_valid s ->
  both_stores admin_valid (fst (init_db pw_hash s)).
Proof.
  intros Hs. rewrite init_db_blocks.
  apply adm_bind_valid; [apply adm_commit_valid, Hs|]. intros _ s1 H1.
  apply adm_bind_valid; [apply seed_users_valid, H1|]. intros _ s2 H2.
  apply adm_bind_valid; [apply seed_categories_valid, H2|]. intros _ s3 H3.
  apply seed_products_valid, H3.
Qed.

(** X14.  Every function that writes to the categories or the users
    ([add_user], [change_user_password], [update_user], [delete_user],
    [add_category], [update_category], [delete_category], [init_db]),
    returning or raising, keeps ids and names unique, category names and
    usernames non-empty, and every stored role equal to staff or admin. *)
Theorem admin_tables_stay_valid :
  forall (op : admin_call) (s : Session),
    both_stores admin_valid s -> both_stores admin_valid (administer op s).
Proof.
  intros op s Hs. destruct op; cbn [administer].
  - apply add_user_valid, Hs.
  - apply change_user_password_valid, Hs.
  - apply update_user_valid, Hs.
  - apply delete_user_valid, Hs.
  - apply add_category_valid, Hs.
  - apply update_category_valid, Hs.
  - apply delete_category_valid, Hs.
  - apply init_db_valid, Hs.
Qed.

Lemma admin_tables_stay_valid_witness :
  both_stores admin_valid (administer (InitDb "bcrypt") fresh_session).
Proof.
  apply (admin_tables_stay_valid (InitDb "bcrypt") fresh_session).
  split; repeat split; constructor.
Defined.

(** ** Deleting a user *)

Lemma anonymize_sales_fields user_id db :
  map (fun s => (s_id s, s_invoice s, s_product_id s, s_qty s, s_unit_price s,
                 s_unit_cost s, s_discount s, s_total s))
      (sales (anonymize_sales user_id db))
  = map (fun s => (s_id s, s_invoice s, s_product_id s, s_qty s, s_unit_price s,
                   s_unit_cost s, s_discount s, s_total s))
        (sales db).
Proof.
  unfold anonymize_sales, with_sales. cbn [sales]. rewrite map_map.
  apply map_ext. intros s. destruct (s_sold_by s) as [u|]; [|reflexivity].
  destruct (u =? user_id); reflexivity.
Qed.

Lemma anonymize_adjustments_fields user_id db :
  map (fun a => (a_id a, a_product_id a, a_adjustment_qty a, a_reason a))
      (stock_adjustments (anonymize_adjustments user_id db))
  = map (fun a => (a_id a, a_product_id a, a_adjustment_qty a, a_reason a))
        (stock_adjustments db).
Proof.
  unfold anonymize_adjustments, with_stock_adjustments.
  cbn [stock_adjustments]. rewrite map_map.
  apply map_ext. intros a. destruct (a_adjusted_by a) as [u|]; [|reflexivity].
  destruct (u =? user_id); reflexivity.
Qed.

Lemma sold_fields pid db db' :
  map (fun s => (s_id s, s_invoice s, s_product_id s, s_qty s, s_unit_price s,
                 s_unit_cost s, s_discount s, s_total s)) (sales db')
  = map (fun s => (s_id s, s_invoice s, s_product_id s, s_qty s, s_unit_price s,
                   s_unit_cost s, s_discount s, s_total s)) (sales db) ->
  sold pid db' = sold pid db.
Proof.
  unfold sold. generalize (sales db) as l. generalize (sales db') as l'.
  induction l' as [|x l' IH]; intros [|y l] H; try discriminate;
    [reflexivity|].
  cbn [map] in H. inversion H as [[H1 H2 H3 H4 H5 H6 H7 H8 H9]].
  cbn [filter]. rewrite H3. destruct (s_product_id y =? pid); cbn [map sum_Z fold_right].
  - rewrite H4. f_equal. apply IH. exact H9.
  - apply IH. exact H9.
Qed.

Lemma adjusted_fields pid db db' :
  map (fun a => (a_id a, a_product_id a, a_adjustment_qty a, a_reason a))
      (stock_adjustments db')
  = map (fun a => (a_id a, a_product_id a, a_adjustment_qty a, a_reason a))
        (stock_adjustments db) ->
  adjusted pid db' = adjusted pid db.
Proof.
  unfold adjusted. generalize (stock_adjustments db) as l.
  generalize (stock_adjustments db') as l'.
  induction l' as [|x l' IH]; intros [|y l] H; try discriminate;
    [reflexivity|].
  cbn [map] in H. inversion H as [[H1 H2 H3 H4 H5]].
  cbn [filter]. rewrite H2. destruct (a_product_id y =? pid);
    cbn [map sum_Z fold_right].
  - rewrite H3. f_equal. apply IH. exact H5.
  - apply IH. exact H5.
Qed.

Lemma count_where_pos {A} (f : A -> bool) (l : list A) :
  (count_where f l =? 0) = false <-> exists x, In x l /\ f x = true.
Proof.
  unfold count_where. split.
  - destruct (filter f l) as [|x l'] eqn:E; [cbn; discriminate|].
    intros _. exists x. apply filter_In. rewrite E. left. reflexivity.
  - intros (x & Hin). apply filter_In in Hin.
    destruct (filter f l); [contradiction|]. reflexivity.
Qed.

Lemma count_where_zero {A} (f : A -> bool) (l : list A) :
  (count_where f l =? 0) = true -> filter (fun x => negb (f x)) l = l.
Proof.
  unfold count_where. intros H. apply filter_nil_negb.
  destruct (filter f l); [reflexivity|discriminate].
Qed.

(** X15.  [delete_user] never changes the products, nor any column
    of a sale or an adjustment other than the reference to the user, so the
    accounting identity survives it; afterwards no sale and no adjustment
    names the user and the user is not in the table.  For an existing user it
    returns with everything committed; for an unknown id it raises "User ID
    not found." with nothing committed. *)
Theorem delete_user_effect :
  forall (user_id : Z) (s s' : Session) (r : outcome unit),
    delete_user user_id s = (s', r) ->
    let db := ledger (current s) in
    let db' := ledger (current s') in
    products db' = products db
    /\ map (fun s => (s_id s, s_invoice s, s_product_id s, s_qty s,
                      s_unit_price s, s_unit_cost s, s_discount s, s_total s))
           (sales db')
       = map (fun s => (s_id s, s_invoice s, s_product_id s, s_qty s,
                        s_unit_price s, s_unit_cost s, s_discount s, s_total s))
             (sales db)
    /\ map (fun a => (a_id a, a_product_id a, a_adjustment_qty a, a_reason a))
           (stock_adjustments db')
       = map (fun a => (a_id a, a_product_id a, a_adjustment_qty a, a_reason a))
             (stock_adjustments db)
    /\ (accounting db -> accounting db')
    /\ (forall row, In row (sales db') -> s_sold_by row <> Some user_id)
    /\ (forall a, In a (stock_adjustments db') ->
                  a_adjusted_by a <> Some user_id)
    /\ ~ In user_id (map u_id (users (current s')))
    /\ categories (current s') = categories (current s)
    /\ (In user_id (map u_id (users (current s))) ->
        r = Returns tt /\ settled s')
    /\ (~ In user_id (map u_id (users (current s))) ->
        r = Raises UserIdNotFound /\ saved s' = saved s
        /\ users (current s') = users (current s)).
Proof.
  intros user_id s s' r. unfold delete_user. run_adm. cbn [current saved].
  change (users (with_ledger (anonymize_adjustments user_id)
                   (with_ledger (anonymize_sales user_id) (current s))))
    with (users (current s)).
  set (st := with_users (filter (fun u => negb (u_id u =? user_id)))
               (with_ledger (anonymize_adjustments user_id)
                  (with_ledger (anonymize_sales user_id) (current s)))).
  intros H.
  assert (Hcur : current s' = st).
  { destruct (count_where _ _ =? 0); inversion H; reflexivity. }
  cbv zeta. rewrite Hcur. unfold st.
  cbn [ledger with_users with_ledger users categories].
  assert (Hs : map (fun s => (s_id s, s_invoice s, s_product_id s, s_qty s,
                      s_unit_price s, s_unit_cost s, s_discount s, s_total s))
                 (sales (anonymize_adjustments user_id
                           (anonymize_sales user_id (ledger (current s)))))
               = map (fun s => (s_id s, s_invoice s, s_product_id s, s_qty s,
                      s_unit_price s, s_unit_cost s, s_discount s, s_total s))
                     (sales (ledger (current s)))).
  { exact (anonymize_sales_fields user_id (ledger (current s))). }
  assert (Ha : map (fun a => (a_id a, a_product_id a, a_adjustment_qty a,
                              a_reason a))
                 (stock_adjustments
                    (anonymize_adjustments user_id
                       (anonymize_sales user_id (ledger (current s)))))
               = map (fun a => (a_id a, a_product_id a, a_adjustment_qty a,
                                a_reason a))
                     (stock_adjustments (ledger (current s)))).
  { rewrite anonymize_adjustments_fields. reflexivity. }
  split; [reflexivity|]. split; [exact Hs|]. split; [exact Ha|].
  split.
  { intros Hacc p Hin. rewrite (sold_fields _ _ _ Hs), (adjusted_fields _ _ _ Ha).
    apply Hacc. exact Hin. }
  split.
  { intros row Hin. unfold anonymize_adjustments, with_stock_adjustments,
      anonymize_sales, with_sales in Hin. cbn [sales] in Hin.
    apply in_map_iff in Hin. destruct Hin as (x & Hx & _). subst row.
    destruct (s_sold_by x) as [u|] eqn:Eu; [|rewrite Eu; discriminate].
    destruct (u =? user_id) eqn:E; cbn [s_sold_by]; [discriminate|].
    rewrite Eu. intros Heq. inversion Heq. lia. }
  split.
  { intros a Hin. unfold anonymize_adjustments, with_stock_adjustments in Hin.
    cbn [stock_adjustments] in Hin.
    apply in_map_iff in Hin. destruct Hin as (x & Hx & _). subst a.
    destruct (a_adjusted_by x) as [u|] eqn:Eu; [|rewrite Eu; discriminate].
    destruct (u =? user_id) eqn:E; cbn [a_adjusted_by]; [discriminate|].
    rewrite Eu. intros Heq. inversion Heq. lia. }
  split.
  { intros Hin. apply in_map_iff in Hin. destruct Hin as (u & Hu & Hin).
    apply filter_In in Hin. destruct Hin as [_ Hneg].
    rewrite Hu, Z.eqb_refl in Hneg. discriminate. }
  split; [reflexivity|].
  split.
  - intros Hin. apply in_map_iff in Hin. destruct Hin as (u & Hu & Hin).
    assert (E : (count_where (fun u => u_id u =? user_id) (users (current s))
                 =? 0) = false).
    { apply count_where_pos. exists u. split; [exact Hin|]. lia. }
    rewrite E in H. inversion H; subst. split; reflexivity.
  - intros Hnot.
    destruct (count_where (fun u => u_id u =? user_id) (users (current s)) =? 0)
      eqn:E.
    + inversion H; subst. split; [reflexivity|]. split; [reflexivity|].
      exact (count_where_zero _ _ E).
    + exfalso. apply count_where_pos in E. destruct E as (u & Hin & Hu).
      apply Hnot. apply in_map_iff. exists u. split; [lia|exact Hin].
Qed.

Lemma delete_user_effect_witness :
  ~ In 1 (map u_id (users (current (fst (delete_user 1 alice_session)))))
  /\ snd (delete_user 1 alice_session) = Returns tt.
Proof.
  destruct (delete_user_effect 1 alice_session
              (fst (delete_user 1 alice_session))
              (snd (delete_user 1 alice_session))
              (surjective_pairing _))
    as (_ & _ & _ & _ & _ & _ & H7 & _ & H9 & _).
  split; [exact H7|]. apply H9. left. reflexivity.
Defined.

(** ** Adding users and categories *)

Lemma find_snoc_fresh {A} (f : A -> bool) (l : list A) (x : A) :
  existsb f l = false -> find f (l ++ [x]) = if f x then Some x else None.
Proof.
  induction l as [|y l IH]; cbn [existsb app find]; [intros _; reflexivity|].
  intros H. apply orb_false_elim in H. destruct H as [Hy Hl].
  rewrite Hy. apply IH, Hl.
Qed.

Lemma existsb_find_none {A} (f : A -> bool) (l : list A) :
  existsb f l = false -> find f l = None.
Proof.
  induction l as [|y l IH]; cbn [existsb find]; [reflexivity|].
  intros H. apply orb_false_elim in H. destruct H as [Hy Hl].
  rewrite Hy. apply IH, Hl.
Qed.

Lemma add_user_returns username password pw_hash full_name role s s' b :
  add_user username password pw_hash full_name role s = (s', Returns b) ->
  let st := current s in
  let row := Build_User (next_rowid (seq_users st) (map u_id (users st)))
                        (strip username) pw_hash (strip full_name) role in
  b = true /\ strip username <> "" /\ password <> "" /\ role_ok role
  /\ existsb (fun u => String.eqb (u_username u) (strip username)) (users st)
     = false
  /\ s' = {| saved := current s'; current := current s' |}
  /\ users (current s') = users st ++ [row]
  /\ categories (current s') = categories st
  /\ ledger (current s') = ledger st.
Proof.
  unfold add_user.
  destruct (String.eqb (strip username) "") eqn:En; [discriminate|].
  destruct (String.eqb password "") eqn:Ep; [discriminate|]. cbn [orb].
  destruct (negb _) eqn:Er; [discriminate|]. run_adm. unfold insert_user.
  destruct (existsb _ (users (current s))) eqn:E; [discriminate|].
  cbn [current saved]. intros H. injection H as H Hb. subst s' b. cbv zeta.
  cbn [current users categories ledger].
  split; [reflexivity|]. split; [apply strip_nonblank, En|].
  split; [intros Hp; rewrite Hp in Ep; discriminate|].
  split; [apply role_checked, Er|]. repeat split.
Qed.

(** X16.  After [add_user] has returned, [get_user_by_username]
    finds, under the name as given, the new row with the stripped username
    and full name, the hash and the role, where it found no row before;
    nothing is pending; and adding a username that strips to the same text
    again raises "Username ... already exists." and changes nothing. *)
Theorem add_user_round_trip :
  forall (username password pw_hash full_name role : string) (s s' : Session)
         (b : bool),
    add_user username password pw_hash full_name role s = (s', Returns b) ->
    get_user_by_username username s = (s, Returns None)
    /\ (exists user_id,
          get_user_by_username username s'
          = (s', Returns (Some (Build_User user_id (strip username) pw_hash
                                           (strip full_name) role)))
          /\ ~ In user_id (map u_id (users (current s))))
    /\ settled s'
    /\ role_ok role
    /\ (forall username' password' pw_hash' full_name' role',
          strip username' = strip username ->
          password' <> "" -> role_ok role' ->
          add_user username' password' pw_hash' full_name' role' s'
          = (s', Raises (UsernameExists username'))).
Proof.
  intros username password pw_hash full_name role s s' b H.
  destruct (add_user_returns _ _ _ _ _ _ _ _ H)
    as (_ & Hn & Hp & Hr & Hex & Hs' & Husers & _).
  unfold get_user_by_username, adm_query.
  split; [rewrite (existsb_find_none _ _ Hex); reflexivity|].
  split.
  { eexists. split.
    - rewrite Husers, (find_snoc_fresh _ _ _ Hex). cbn [u_username].
      rewrite String.eqb_refl. reflexivity.
    - apply next_rowid_fresh. }
  split; [rewrite Hs'; reflexivity|]. split; [exact Hr|].
  intros username' password' pw_hash' full_name' role' Heq Hp' Hr'.
  unfold add_user. rewrite Heq.
  destruct (String.eqb (strip username) "") eqn:En;
    [apply String.eqb_eq in En; contradiction|].
  destruct (String.eqb password' "") eqn:Ep;
    [apply String.eqb_eq in Ep; contradiction|].
  cbn [orb].
  assert (Er : negb (String.eqb role' "staff" || String.eqb role' "admin")
               = false).
  { destruct Hr' as [->| ->]; reflexivity. }
  rewrite Er. run_adm. unfold insert_user. rewrite Husers, existsb_app.
  cbn [existsb u_username]. rewrite String.eqb_refl, orb_true_r.
  reflexivity.
Qed.

Lemma add_user_round_trip_witness :
  add_user " alice " "other" "bcrypt2" "" "admin" alice_session
  = (alice_session, Raises (UsernameExists " alice ")).
Proof.
  assert (H : add_user "alice" "secret" "bcrypt" "Alice" "staff" fresh_session
              = (alice_session, Returns true)) by (vm_compute; reflexivity).
  apply (proj2 (proj2 (proj2 (proj2
           (add_user_round_trip _ _ _ _ _ _ _ _ H))))).
  - vm_compute. reflexivity.
  - discriminate.
  - right. reflexivity.
Defined.

Lemma add_category_returns name s s' b :
  add_category name s = (s', Returns b) ->
  let st := current s in
  b = true /\ strip name <> ""
  /\ existsb (fun k => String.eqb (c_name k) (strip name)) (categories st)
     = false
  /\ s' = {| saved := current s'; current := current s' |}
  /\ categories (current s')
     = categories st
       ++ [Build_Category (next_rowid (seq_categories st)
                                      (map c_id (categories st)))
                          (strip name)]
  /\ users (current s') = users st
  /\ ledger (current s') = ledger st.
Proof.
  unfold add_category.
  destruct (String.eqb (strip name) "") eqn:En; [discriminate|].
  run_adm. unfold insert_category.
  destruct (existsb _ (categories (current s))) eqn:E; [discriminate|].
  cbn [current saved]. intros H. injection H as H Hb. subst s' b. cbv zeta.
  cbn [current users categories ledger].
  split; [reflexivity|]. split; [apply strip_nonblank, En|]. repeat split.
Qed.

(** X17.  After [add_category] has returned, the stripped name maps
    to a new id, nothing is pending, and adding a name that strips to the
    same text again raises "Category ... already exists." and changes
    nothing. *)
Theorem add_category_round_trip :
  forall (name : string) (s s' : Session) (b : bool),
    add_category name s = (s', Returns b) ->
    category_map (current s) (strip name) = None
    /\ (exists category_id,
          category_map (current s') (strip name) = Some category_id
          /\ ~ In category_id (map c_id (categories (current s))))
    /\ settled s'
    /\ (forall name', strip name' = strip name ->
          add_category name' s' = (s', Raises (CategoryExists name'))).
Proof.
  intros name s s' b H.
  destruct (add_category_returns _ _ _ _ H)
    as (_ & Hn & Hex & Hs' & Hcats & _).
  unfold category_map.
  split; [rewrite (existsb_find_none _ _ Hex); reflexivity|].
  split.
  { eexists. split.
    - rewrite Hcats, (find_snoc_fresh _ _ _ Hex). cbn [c_name].
      rewrite String.eqb_refl. reflexivity.
    - apply next_rowid_fresh. }
  split; [rewrite Hs'; reflexivity|].
  intros name' Heq. unfold add_category. rewrite Heq.
  destruct (String.eqb (strip name) "") eqn:En;
    [apply String.eqb_eq in En; contradiction|].
  run_adm. unfold insert_category. rewrite Hcats, existsb_app.
  cbn [existsb c_name]. rewrite String.eqb_refl, orb_true_r. reflexivity.
Qed.

Lemma add_category_round_trip_witness :
  add_category " Other" other_session
  = (other_session, Raises (CategoryExists " Other")).
Proof.
  assert (H : add_category "Other" fresh_session = (other_session, Returns true))
    by (vm_compute; reflexivity).
  apply (proj2 (proj2 (proj2 (add_category_round_trip _ _ _ _ H)))).
  vm_compute. reflexivity.
Defined.

(** ** Deleting a category *)

(** X18.  [delete_category] raises, before any write, when a
    product names the category.  Otherwise it deletes an existing category
    and commits; for an unknown id it raises "Category ID not found." and the
    categories are as before. *)
Theorem delete_category_guard :
  forall (category_id : Z) (s : Session),
    ((exists p, In p (products (ledger (current s)))
                /\ p_category_id p = Some category_id) ->
     delete_category category_id s = (s, Raises CategoryInUse))
    /\ ((forall p, In p (products (ledger (current s))) ->
                   p_category_id p <> Some category_id) ->
        let st := with_categories
                    (filter (fun k => negb (c_id k =? category_id)))
                    (current s) in
        (In category_id (map c_id (categories (current s))) ->
         delete_category category_id s
         = ({| saved := st; current := st |}, Returns tt))
        /\ (~ In category_id (map c_id (categories (current s))) ->
            delete_category category_id s
            = ({| saved := saved s; current := st |},
               Raises CategoryIdNotFound)
            /\ categories st = categories (current s))).
Proof.
  intros category_id s. unfold delete_category. run_adm. split.
  - intros (p & Hin & Hcat).
    assert (E : (count_where (names_category category_id)
                   (products (ledger (current s))) =? 0) = false).
    { apply count_where_pos. exists p. split; [exact Hin|].
      unfold names_category. rewrite Hcat. apply Z.eqb_refl. }
    apply Z.eqb_neq in E.
    assert (Hpos : (0 <? count_where (names_category category_id)
                           (products (ledger (current s)))) = true).
    { apply Z.ltb_lt. unfold count_where in *. lia. }
    rewrite Hpos. reflexivity.
  - intros Hnone.
    assert (Hzero : (0 <? count_where (names_category category_id)
                            (products (ledger (current s)))) = false).
    { destruct (count_where (names_category category_id)
                  (products (ledger (current s))) =? 0) eqn:E.
      - apply Z.eqb_eq in E. rewrite E. reflexivity.
      - apply count_where_pos in E. destruct E as (p & Hin & Hp).
        exfalso. apply (Hnone p Hin). unfold names_category in Hp.
        destruct (p_category_id p) as [k|]; [|discriminate].
        apply Z.eqb_eq in Hp. subst k. reflexivity. }
    rewrite Hzero. cbn [current saved]. cbv zeta. split.
    + intros Hin. apply in_map_iff in Hin. destruct Hin as (k & Hk & Hin).
      assert (E : (count_where (fun k => c_id k =? category_id)
                     (categories (current s)) =? 0) = false).
      { apply count_where_pos. exists k. split; [exact Hin|]. lia. }
      rewrite E. reflexivity.
    + intros Hnot.
      destruct (count_where (fun k => c_id k =? category_id)
                  (categories (current s)) =? 0) eqn:E.
      * split; [reflexivity|]. exact (count_where_zero _ _ E).
      * exfalso. apply count_where_pos in E. destruct E as (k & Hin & Hk).
        apply Hnot. apply in_map_iff. exists k. split; [lia|exact Hin].
Qed.

Lemma delete_category_guard_witness :
  delete_category 1 seeded_session = (seeded_session, Raises CategoryInUse)
  /\ delete_category 1 other_session
     = ({| saved := with_categories (filter (fun k => negb (c_id k =? 1)))
                                    (current other_session);
           current := with_categories (filter (fun k => negb (c_id k =? 1)))
                                      (current other_session) |},
        Returns tt).
Proof.
  split.
  - apply (proj1 (delete_category_guard 1 seeded_session)).
    vm_compute. eexists. split; [left; reflexivity|reflexivity].
  - apply (proj2 (delete_category_guard 1 other_session)).
    + intros p [].
    + left. reflexivity.
Defined.

(** ** Renaming a category *)

Lemma find_renamed category_id name (l : list Category) :
  existsb (fun k => c_id k =? category_id) l = true ->
  existsb (fun k => negb (c_id k =? category_id) && String.eqb (c_name k) name) l
  = false ->
  option_map c_id
    (find (fun k => String.eqb (c_name k) name)
          (map (fun k => if c_id k =? category_id
                         then {| c_id := c_id k; c_name := name |} else k) l))
  = Some category_id.
Proof.
  induction l as [|k l IH]; cbn [existsb map find]; [discriminate|].
  intros Hid Hother. apply orb_false_elim in Hother.
  destruct Hother as [Hk Hl].
  destruct (c_id k =? category_id) eqn:E.
  - cbn [c_name]. rewrite String.eqb_refl. cbn [option_map c_id].
    apply Z.eqb_eq in E. rewrite E. reflexivity.
  - cbn [negb andb] in Hk. rewrite Hk. cbn [orb] in Hid. apply IH; assumption.
Qed.

(** X28.  When [update_category] returns, the category existed, the
    stripped new name now maps to its id, every id and every other category
    is as before, nothing is pending and neither the ledger nor the users
    changed.  Giving an existing category the name of another one raises
    "Category ... already exists." and changes nothing. *)
Theorem update_category_round_trip :
  forall (category_id : Z) (new_name : string) (s : Session),
    (forall s',
       update_category category_id new_name s = (s', Returns tt) ->
       strip new_name <> ""
       /\ In category_id (map c_id (categories (current s)))
       /\ category_map (current s') (strip new_name) = Some category_id
       /\ map c_id (categories (current s')) = map c_id (categories (current s))
       /\ (forall k, In k (categories (current s)) -> c_id k <> category_id ->
                     In k (categories (current s')))
       /\ settled s'
       /\ ledger (current s') = ledger (current s)
       /\ users (current s') = users (current s))
    /\ (In category_id (map c_id (categories (current s))) ->
        (exists k, In k (categories (current s)) /\ c_id k <> category_id
                   /\ c_name k = strip new_name) ->
        strip new_name <> "" ->
        update_category category_id new_name s
        = (s, Raises (CategoryExists new_name))).
Proof.
  intros category_id new_name s. split.
  - intros s'. unfold update_category.
    destruct (String.eqb (strip new_name) "") eqn:En; [discriminate|].
    run_adm. unfold rename_category.
    destruct (existsb (fun k => c_id k =? category_id) (categories (current s)))
      eqn:Eid.
    + destruct (existsb (fun k => negb (c_id k =? category_id)
                                  && String.eqb (c_name k) (strip new_name))
                        (categories (current s))) eqn:Eother; cbn [andb];
        [discriminate|].
      cbn [current saved].
      assert (Hcnt : (count_where (fun k => c_id k =? category_id)
                        (categories (current s)) =? 0) = false).
      { apply count_where_pos. apply existsb_exists in Eid. exact Eid. }
      rewrite Hcnt. intros H. injection H as <-.
      unfold with_categories. cbn [current saved categories ledger users].
      split; [apply strip_nonblank, En|].
      split.
      { apply existsb_exists in Eid. destruct Eid as (k & Hin & Hk).
        apply Z.eqb_eq in Hk. rewrite <- Hk. apply in_map, Hin. }
      split; [unfold category_map; cbn [categories];
              exact (find_renamed _ _ _ Eid Eother)|].
      split; [apply rename_category_ids|].
      split.
      { intros k Hin Hne. apply in_map_iff. exists k.
        split; [|exact Hin]. apply Z.eqb_neq in Hne. rewrite Hne. reflexivity. }
      repeat split.
    + cbn [andb current saved].
      assert (Hcnt : (count_where (fun k => c_id k =? category_id)
                        (categories (current s)) =? 0) = true).
      { destruct (count_where _ _ =? 0) eqn:E; [reflexivity|].
        apply count_where_pos in E. apply existsb_exists in E. congruence. }
      rewrite Hcnt. discriminate.
  - intros Hin (k & Hk & Hne & Hname) Hn. unfold update_category.
    destruct (String.eqb (strip new_name) "") eqn:En;
      [apply String.eqb_eq in En; contradiction|].
    run_adm. unfold rename_category.
    assert (Eid : existsb (fun k => c_id k =? category_id)
                          (categories (current s)) = true).
    { apply in_map_iff in Hin. destruct Hin as (k0 & Hk0 & Hin).
      apply existsb_exists. exists k0. split; [exact Hin|lia]. }
    assert (Eother : existsb (fun k => negb (c_id k =? category_id)
                                       && String.eqb (c_name k) (strip new_name))
                             (categories (current s)) = true).
    { apply existsb_exists. exists k. split; [exact Hk|].
      apply andb_true_iff. split.
      - apply negb_true_iff, Z.eqb_neq, Hne.
      - apply String.eqb_eq, Hname. }
    rewrite Eid, Eother. reflexivity.
Qed.

Lemma update_category_round_trip_witness :
  category_map (current (fst (update_category 1 " Misc " other_session))) "Misc"
  = Some 1
  /\ update_category 2 "Analgesics" seeded_session
     = (seeded_session, Raises (CategoryExists "Analgesics")).
Proof.
  assert (H : update_category 1 " Misc " other_session
              = (fst (update_category 1 " Misc " other_session), Returns tt))
    by (vm_compute; reflexivity).
  split.
  - exact (proj1 (proj2 (proj2
             (proj1 (update_category_round_trip 1 " Misc " other_session) _ H)))).
  - apply (proj2 (update_category_round_trip 2 "Analgesics" seeded_session)).
    + vm_compute. right. left. reflexivity.
    + vm_compute. eexists. split; [left; reflexivity|].
      split; [discriminate|reflexivity].
    + vm_compute. discriminate.
Defined.

(** ** References from products to categories *)

Lemma categories_referenced_ids st st' :
  products (ledger st') = products (ledger st) ->
  (forall k, In k (map c_id (categories st)) ->
             In k (map c_id (categories st'))) ->
  categories_referenced st -> categories_referenced st'.
Proof.
  intros Hp Hc H p k Hin Hk. rewrite Hp in Hin. apply Hc. exact (H p k Hin Hk).
Qed.

Lemma insert_categories_frame names : forall s,
  let s' := fst (insert_categories names s) in
  saved s' = saved s
  /\ users (current s') = users (current s)
  /\ ledger (current s') = ledger (current s)
  /\ seq_users (current s') = seq_users (current s)
  /\ exists new, categories (current s') = categories (current s) ++ new.
Proof.
  induction names as [|name names IH]; intros s; cbv zeta.
  - cbn. repeat split. exists []. rewrite app_nil_r. reflexivity.
  - cbn [insert_categories]. run_adm. unfold insert_category.
    destruct (existsb _ (categories (current s))).
    + cbn. repeat split. exists []. rewrite app_nil_r. reflexivity.
    + match goal with
      | |- context [insert_categories names ?s0] =>
          destruct (IH s0) as (H1 & H2 & H3 & H4 & new & H5)
      end.
      cbn [saved current users ledger seq_users categories] in *.
      destruct (insert_categories names _) as [s' [[]|e]]; cbn [fst] in *;
        (split; [exact H1|]; split; [exact H2|]; split; [exact H3|];
         split; [exact H4|]; eexists; rewrite H5, <- app_assoc; reflexivity).
Qed.

Lemma insert_categories_returns names : forall s s',
  insert_categories names s = (s', Returns tt) ->
  map c_name (categories (current s'))
  = map c_name (categories (current s)) ++ names.
Proof.
  induction names as [|name names IH]; intros s s'.
  - cbn. intros H. inversion H; subst. rewrite app_nil_r. reflexivity.
  - cbn [insert_categories]. run_adm. unfold insert_category.
    destruct (existsb _ (categories (current s))); [discriminate|].
    intros H.
    match type of H with
    | context [insert_categories names ?s0] =>
        destruct (insert_categories names s0) as [s1 [[]|e]] eqn:E;
          [|discriminate]
    end.
    inversion H; subst s1. rewrite (IH _ _ E). cbn [current categories].
    rewrite map_app, <- app_assoc. reflexivity.
Qed.

Lemma insert_categories_fresh names : forall s,
  NoDup names ->
  (forall n, In n names -> ~ In n (map c_name (categories (current s)))) ->
  exists s', insert_categories names s = (s', Returns tt).
Proof.
  induction names as [|name names IH]; intros s Hnd Hfresh.
  - eexists. reflexivity.
  - cbn [insert_categories]. run_adm. unfold insert_category.
    inversion Hnd as [|? ? Hname Hnames]; subst.
    destruct (existsb (fun k => String.eqb (c_name k) name)
                      (categories (current s))) eqn:E.
    { exfalso. apply existsb_exists in E. destruct E as (k & Hin & Hk).
      apply String.eqb_eq in Hk. apply (Hfresh name (or_introl eq_refl)).
      rewrite <- Hk. apply in_map, Hin. }
    match goal with
    | |- context [insert_categories names ?s0] =>
        destruct (IH s0 Hnames) as (s' & Hs')
    end.
    { intros n Hn. cbn [current categories]. rewrite map_app. intros Hin.
      apply in_app_or in Hin. destruct Hin as [Hin|[<-|[]]].
      - exact (Hfresh n (or_intror Hn) Hin).
      - exact (Hname Hn). }
    rewrite Hs'. eexists. reflexivity.
Qed.

Lemma sample_rows_inr lookup l rows :
  sample_rows lookup l = inr rows ->
  map fst rows = l
  /\ Forall (fun row => lookup (sm_category (fst row)) = Some (snd row)) rows.
Proof.
  revert rows. induction l as [|sm l IH]; intros rows; cbn [sample_rows].
  - intros H. inversion H. split; [reflexivity|constructor].
  - destruct (lookup (sm_category sm)) as [k|] eqn:E; [|discriminate].
    destruct (sample_rows lookup l) as [key|rows']; [discriminate|].
    intros H. inversion H; subst. destruct (IH rows' eq_refl) as [H1 H2].
    cbn [map fst]. rewrite H1. split; [reflexivity|].
    constructor; [exact E|exact H2].
Qed.

Lemma sample_rows_inl lookup l key :
  sample_rows lookup l = inl key ->
  lookup key = None /\ In key (map sm_category l).
Proof.
  induction l as [|sm l IH]; cbn [sample_rows]; [discriminate|].
  destruct (lookup (sm_category sm)) as [k|] eqn:E.
  - destruct (sample_rows lookup l) as [key'|rows']; [|discriminate].
    intros H. inversion H; subst. destruct (IH eq_refl) as [H1 H2].
    split; [exact H1|right; exact H2].
  - intros H. inversion H; subst. split; [exact E|left; reflexivity].
Qed.

Lemma sample_rows_total lookup l :
  (forall sm, In sm l -> lookup (sm_category sm) <> None) ->
  exists rows, sample_rows lookup l = inr rows.
Proof.
  intros H. destruct (sample_rows lookup l) as [key|rows] eqn:E;
    [|exists rows; reflexivity].
  exfalso. destruct (sample_rows_inl _ _ _ E) as [H1 H2].
  apply in_map_iff in H2. destruct H2 as (sm & Hsm & Hin).
  apply (H sm Hin). rewrite Hsm. exact H1.
Qed.

Lemma sample_rows_missing lookup l sm :
  In sm l -> lookup (sm_category sm) = None ->
  exists key, sample_rows lookup l = inl key.
Proof.
  intros Hin Hnone. destruct (sample_rows lookup l) as [key|rows] eqn:E;
    [exists key; reflexivity|].
  exfalso. destruct (sample_rows_inr _ _ _ E) as [H1 H2].
  rewrite <- H1 in Hin. apply in_map_iff in Hin.
  destruct Hin as (row & Hrow & Hin). rewrite Forall_forall in H2.
  specialize (H2 row Hin). rewrite Hrow in H2. congruence.
Qed.

(** What the executemany of [init_db] appends to the products. *)
Lemma insert_samples_spec rows : forall db,
  Forall (fun row => is_nan (sm_price (fst row)) || is_nan (sm_cost (fst row))
                     = false) rows ->
  let db' := insert_samples rows db in
  sales db' = sales db
  /\ stock_adjustments db' = stock_adjustments db
  /\ exists new,
       products db' = products db ++ new
       /\ map (fun p => (p_name p, p_category_id p, p_quantity p))
              new
          = map (fun row => (sm_name (fst row), Some (snd row),
                             sm_quantity (fst row))) rows.
Proof.
  induction rows as [|row rows IH]; intros db Hnan; cbv zeta.
  - cbn. repeat split. exists []. rewrite app_nil_r. split; reflexivity.
  - inversion Hnan as [|? ? Hrow Hrows]; subst.
    set (db1 := after (insert_product (sm_name (fst row)) (Some (snd row))
                         (sm_quantity (fst row)) (sm_price (fst row))
                         (sm_cost (fst row)) (sm_reorder_level (fst row))
                         (Some (sm_supplier (fst row)))
                         (Some (sm_expiry_date (fst row)))) db).
    change (insert_samples (row :: rows) db) with (insert_samples rows db1).
    destruct (IH db1 Hrows) as (H1 & H2 & new & H3 & H4).
    assert (Hdb1 : sales db1 = sales db
                   /\ stock_adjustments db1 = stock_adjustments db
                   /\ exists p, products db1 = products db ++ [p]
                                /\ p_name p = sm_name (fst row)
                                /\ p_category_id p = Some (snd row)
                                /\ p_quantity p = sm_quantity (fst row)).
    { unfold db1, after, insert_product. cbn [fresh_conn working].
      rewrite Hrow. cbn [fst working sales stock_adjustments products].
      repeat split. eexists. split; [reflexivity|]. repeat split. }
    destruct Hdb1 as (Hs & Ha & p & Hp & Hp1 & Hp2 & Hp3).
    split; [congruence|]. split; [congruence|].
    exists (p :: new). split.
    + rewrite H3, Hp, <- app_assoc. reflexivity.
    + cbn [map]. rewrite H4, Hp1, Hp2, Hp3. reflexivity.
Qed.

Lemma sample_products_checked :
  forallb (fun sm => negb (is_nan (sm_price sm) || is_nan (sm_cost sm))
                     && (0 <? sm_quantity sm)
                     && existsb (String.eqb (sm_category sm)) sample_categories)
          sample_products = true.
Proof. vm_compute. reflexivity. Qed.

Lemma sample_products_count : List.length sample_products = 61%nat.
Proof. reflexivity. Qed.

Lemma sample_categories_distinct : NoDup sample_categories.
Proof.
  assert (H : nodup string_dec sample_categories = sample_categories)
    by (vm_compute; reflexivity).
  rewrite <- H. apply NoDup_nodup.
Qed.

(** ** The blocks of [init_db] *)

Lemma length_nonzero {A} (l : list A) :
  l <> [] -> (Z.of_nat (List.length l) =? 0) = false.
Proof. destruct l; [contradiction|reflexivity]. Qed.

Lemma seed_users_spec pw_hash s :
  exists s1,
    seed_users pw_hash s = (s1, Returns tt)
    /\ categories (current s1) = categories (current s)
    /\ ledger (current s1) = ledger (current s)
    /\ seq_categories (current s1) = seq_categories (current s)
    /\ users (current s1) <> []
    /\ (users (current s) <> [] -> s1 = s)
    /\ (users (current s) = [] ->
        s1 = {| saved := current s1; current := current s1 |}
        /\ users (current s1)
           = [Build_User (next_rowid (seq_users (current s)) [])
                         "admin" pw_hash "Administrator" "admin"]).
Proof.
  unfold seed_users. run_adm.
  destruct (users (current s)) as [|u us] eqn:E.
  - cbn [List.length Z.of_nat Z.eqb]. unfold insert_user. rewrite E.
    cbn [existsb map app]. eexists. split; [reflexivity|].
    cbn [current saved categories ledger users seq_categories].
    repeat split; try discriminate. intros H. exfalso. apply H. reflexivity.
  - rewrite length_nonzero by discriminate. exists s.
    split; [reflexivity|]. rewrite E.
    repeat split; try discriminate.
Qed.

Lemma seed_categories_spec s :
  exists s2,
    seed_categories s = (s2, Returns tt)
    /\ users (current s2) = users (current s)
    /\ ledger (current s2) = ledger (current s)
    /\ categories (current s2) <> []
    /\ (categories (current s) <> [] -> s2 = s)
    /\ (categories (current s) = [] ->
        s2 = {| saved := current s2; current := current s2 |}
        /\ map c_name (categories (current s2)) = sample_categories).
Proof.
  unfold seed_categories. run_adm.
  destruct (categories (current s)) as [|k ks] eqn:E.
  - cbn [List.length Z.of_nat Z.eqb].
    destruct (insert_categories_fresh sample_categories s
                sample_categories_distinct) as (s' & Hs').
    { intros n _. rewrite E. intros []. }
    rewrite Hs'. eexists. split; [reflexivity|]. cbn [current saved].
    pose proof (insert_categories_frame sample_categories s) as Hf.
    cbv zeta in Hf. rewrite Hs' in Hf. cbn [fst] in Hf.
    destruct Hf as (_ & Hu & Hl & _ & _).
    pose proof (insert_categories_returns _ _ _ Hs') as Hn.
    rewrite E in Hn. cbn [map app] in Hn.
    split; [exact Hu|]. split; [exact Hl|].
    split; [intros H; rewrite H in Hn; discriminate|].
    split; [intros H; exfalso; apply H; reflexivity|].
    intros _. split; [reflexivity|exact Hn].
  - rewrite length_nonzero by discriminate. exists s.
    split; [reflexivity|]. rewrite E. repeat split; try discriminate.
Qed.

Lemma init_db_compose pw_hash s s1 s2 :
  seed_users pw_hash {| saved := current s; current := current s |}
  = (s1, Returns tt) ->
  seed_categories s1 = (s2, Returns tt) ->
  init_db pw_hash s = seed_products s2.
Proof.
  intros H1 H2. rewrite init_db_blocks. unfold adm_bind at 1.
  unfold adm_commit at 1. cbn [fst snd]. unfold adm_bind at 1. rewrite H1.
  unfold adm_bind at 1. rewrite H2. reflexivity.
Qed.

Lemma init_db_result pw_hash s s' r :
  init_db pw_hash s = (s', r) ->
  exists s1 s2,
    seed_users pw_hash {| saved := current s; current := current s |}
    = (s1, Returns tt)
    /\ seed_categories s1 = (s2, Returns tt)
    /\ seed_products s2 = (s', r).
Proof.
  destruct (seed_users_spec pw_hash
              {| saved := current s; current := current s |}) as (s1 & H1 & _).
  destruct (seed_categories_spec s1) as (s2 & H2 & _).
  rewrite (init_db_compose _ _ _ _ H1 H2).
  intros H. exists s1, s2. split; [exact H1|]. split; [exact H2|exact H].
Qed.

Lemma seed_tables_settled pw_hash s s1 s2 :
  seed_users pw_hash {| saved := current s; current := current s |}
  = (s1, Returns tt) ->
  seed_categories s1 = (s2, Returns tt) ->
  saved s2 = current s2.
Proof.
  intros H1 H2.
  destruct (seed_users_spec pw_hash
              {| saved := current s; current := current s |})
    as (s1' & H1' & _ & _ & _ & _ & Hu1 & Hu1').
  rewrite H1 in H1'. inversion H1'; subst s1'. cbn [current] in *.
  destruct (seed_categories_spec s1) as (s2' & H2' & _ & _ & _ & Hc2 & Hc2').
  rewrite H2 in H2'. inversion H2'; subst s2'.
  assert (Hsaved1 : saved s1 = current s1).
  { destruct (users (current s)) as [|u us] eqn:E.
    - destruct (Hu1' eq_refl) as [-> _]. reflexivity.
    - rewrite Hu1 by discriminate. reflexivity. }
  destruct (categories (current s1)) as [|k ks] eqn:E.
  - destruct (Hc2' eq_refl) as [-> _]. reflexivity.
  - rewrite Hc2 by discriminate. exact Hsaved1.
Qed.

Lemma seed_products_skip s :
  products (ledger (current s)) <> [] -> seed_products s = (s, Returns tt).
Proof.
  intros H. unfold seed_products. run_adm. rewrite (length_nonzero _ H).
  reflexivity.
Qed.

Lemma seed_products_run s :
  products (ledger (current s)) = [] ->
  seed_products s
  = match sample_rows (category_map (current s)) sample_products with
    | inl key => (s, Raises (KeyError key))
    | inr rows =>
        let st := with_ledger (insert_samples rows) (current s) in
        ({| saved := st; current := st |}, Returns tt)
    end.
Proof.
  intros H. unfold seed_products. run_adm. rewrite H.
  cbn [List.length Z.of_nat Z.eqb].
  destruct (sample_rows _ _); reflexivity.
Qed.

Lemma sample_rows_clean lookup rows :
  sample_rows lookup sample_products = inr rows ->
  Forall (fun row => is_nan (sm_price (fst row)) || is_nan (sm_cost (fst row))
                     = false) rows
  /\ Forall (fun row => 0 < sm_quantity (fst row)) rows
  /\ List.length rows = 61%nat.
Proof.
  intros H. destruct (sample_rows_inr _ _ _ H) as [Hfst _].
  pose proof sample_products_checked as Hc. rewrite forallb_forall in Hc.
  assert (Hall : forall row, In row rows -> In (fst row) sample_products).
  { intros row Hin. rewrite <- Hfst. apply in_map, Hin. }
  split; [|split].
  - apply Forall_forall. intros row Hin. specialize (Hc _ (Hall row Hin)).
    apply andb_true_iff in Hc. destruct Hc as [Hc _].
    apply andb_true_iff in Hc. destruct Hc as [Hc _].
    apply negb_true_iff in Hc. exact Hc.
  - apply Forall_forall. intros row Hin. specialize (Hc _ (Hall row Hin)).
    apply andb_true_iff in Hc. destruct Hc as [Hc _].
    apply andb_true_iff in Hc. destruct Hc as [_ Hc].
    apply Z.ltb_lt. exact Hc.
  - rewrite <- sample_products_count, <- Hfst, length_map. reflexivity.
Qed.

Lemma init_db_settles pw_hash s s' r :
  init_db pw_hash s = (s', r) -> saved s' = current s'.
Proof.
  intros H.
  destruct (init_db_result _ _ _ _ H) as (s1 & s2 & H1 & H2 & H3).
  pose proof (seed_tables_settled _ _ _ _ H1 H2) as Hsaved2.
  destruct (products (ledger (current s2))) as [|p ps] eqn:Ep.
  - rewrite (seed_products_run _ Ep) in H3.
    destruct (sample_rows (category_map (current s2)) sample_products);
      cbv zeta in H3; inversion H3; subst; [exact Hsaved2|reflexivity].
  - rewrite seed_products_skip in H3 by (rewrite Ep; discriminate).
    inversion H3; subst. exact Hsaved2.
Qed.

(** X19.  [init_db] never touches the sales or the adjustments, and
    writes to the users, the categories and the products only when the table
    is empty; with products present it returns.  Whatever the outcome,
    nothing is left pending. *)
Theorem init_db_fills_only_empty_tables :
  forall (pw_hash : string) (s s' : Session) (r : outcome unit),
    init_db pw_hash s = (s', r) ->
    sales (ledger (current s')) = sales (ledger (current s))
    /\ stock_adjustments (ledger (current s'))
       = stock_adjustments (ledger (current s))
    /\ (users (current s) <> [] -> users (current s') = users (current s))
    /\ (categories (current s) <> [] ->
        categories (current s') = categories (current s))
    /\ (products (ledger (current s)) <> [] ->
        products (ledger (current s')) = products (ledger (current s))
        /\ r = Returns tt)
    /\ saved s' = current s'.
Proof.
  intros pw_hash s s' r H.
  destruct (init_db_result _ _ _ _ H) as (s1 & s2 & H1 & H2 & H3).
  pose proof (seed_tables_settled _ _ _ _ H1 H2) as Hsaved2.
  destruct (seed_users_spec pw_hash
              {| saved := current s; current := current s |})
    as (s1' & H1' & Hc1 & Hl1 & _ & _ & Hu1 & _).
  rewrite H1 in H1'. inversion H1'; subst s1'. cbn [current] in *.
  destruct (seed_categories_spec s1)
    as (s2' & H2' & Hu2 & Hl2 & _ & Hc2 & _).
  rewrite H2 in H2'. inversion H2'; subst s2'.
  assert (Hframe : ledger (current s2) = ledger (current s)) by congruence.
  assert (Husers : users (current s) <> [] ->
                   users (current s2) = users (current s)).
  { intros Hne. rewrite Hu2, (Hu1 Hne). reflexivity. }
  assert (Hcats : categories (current s) <> [] ->
                  categories (current s2) = categories (current s)).
  { intros Hne. rewrite <- Hc1 in Hne. rewrite (Hc2 Hne). exact Hc1. }
  destruct (products (ledger (current s2))) as [|p ps] eqn:Ep.
  - rewrite (seed_products_run _ Ep) in H3.
    destruct (sample_rows (category_map (current s2)) sample_products)
      as [key|rows] eqn:Er.
    + inversion H3; subst s' r. rewrite Hframe.
      split; [reflexivity|]. split; [reflexivity|].
      split; [exact Husers|]. split; [exact Hcats|].
      split; [|exact Hsaved2].
      intros Hne. rewrite <- Hframe, Ep in Hne. contradiction.
    + cbv zeta in H3. inversion H3; subst s' r.
      destruct (sample_rows_clean _ _ Er) as (Hnan & _ & _).
      destruct (insert_samples_spec rows (ledger (current s2)) Hnan)
        as (Hs & Ha & _).
      cbn [current saved with_ledger ledger users categories].
      rewrite Hs, Ha, Hframe.
      split; [reflexivity|]. split; [reflexivity|].
      split; [exact Husers|]. split; [exact Hcats|].
      split; [|reflexivity].
      intros Hne. rewrite <- Hframe, Ep in Hne. contradiction.
  - rewrite seed_products_skip in H3 by (rewrite Ep; discriminate).
    inversion H3; subst s' r. rewrite Hframe.
    split; [reflexivity|]. split; [reflexivity|].
    split; [exact Husers|]. split; [exact Hcats|].
    split; [|exact Hsaved2]. intros _. split; reflexivity.
Qed.

Lemma init_db_fills_only_empty_tables_witness :
  users (current (fst (init_db "bcrypt2" alice_session)))
  = users (current alice_session).
Proof.
  destruct (init_db_fills_only_empty_tables "bcrypt2" alice_session
              (fst (init_db "bcrypt2" alice_session))
              (snd (init_db "bcrypt2" alice_session))
              (surjective_pairing _))
    as (_ & _ & H3 & _).
  apply H3. vm_compute. discriminate.
Defined.

(** X20.  [init_db] is idempotent: once a call has returned, a
    second call, whatever hash bcrypt gives it, returns and changes
    nothing. *)
Theorem init_db_idempotent :
  forall (pw_hash pw_hash' : string) (s s1 : Session),
    init_db pw_hash s = (s1, Returns tt) ->
    init_db pw_hash' s1 = (s1, Returns tt).
Proof.
  intros pw_hash pw_hash' s s3 H.
  destruct (init_db_result _ _ _ _ H) as (s1 & s2 & H1 & H2 & H3).
  destruct (seed_users_spec pw_hash
              {| saved := current s; current := current s |})
    as (s1' & H1' & _ & _ & _ & Hu1 & _).
  rewrite H1 in H1'. inversion H1'; subst s1'.
  destruct (seed_categories_spec s1) as (s2' & H2' & Hu2 & _ & Hc2 & _).
  rewrite H2 in H2'. inversion H2'; subst s2'.
  (* the three tables hold rows after the first call, and nothing is pending *)
  assert (Hfacts : users (current s3) <> [] /\ categories (current s3) <> []
                   /\ products (ledger (current s3)) <> []
                   /\ saved s3 = current s3).
  { pose proof (init_db_settles _ _ _ _ H) as Hsaved.
    destruct (products (ledger (current s2))) as [|p ps] eqn:Ep.
    - rewrite (seed_products_run _ Ep) in H3.
      destruct (sample_rows (category_map (current s2)) sample_products)
        as [key|rows] eqn:Er; [discriminate|].
      cbv zeta in H3. inversion H3; subst s3.
      cbn [current saved with_ledger ledger users categories] in *.
      split; [congruence|]. split; [exact Hc2|]. split; [|reflexivity].
      destruct (sample_rows_clean _ _ Er) as (Hnan & _ & Hlen).
      destruct (insert_samples_spec rows (ledger (current s2)) Hnan)
        as (_ & _ & new & Hp & Hmap).
      rewrite Hp, Ep. cbn [app]. intros Hnil. rewrite Hnil in Hmap.
      apply (f_equal (@List.length _)) in Hmap.
      rewrite !length_map, Hlen in Hmap. discriminate Hmap.
    - rewrite seed_products_skip in H3 by (rewrite Ep; discriminate).
      inversion H3; subst s3.
      split; [congruence|]. split; [exact Hc2|].
      split; [rewrite Ep; discriminate|exact Hsaved]. }
  destruct Hfacts as (Hu & Hc & Hp & Hsaved).
  assert (Hs3 : {| saved := current s3; current := current s3 |} = s3).
  { rewrite <- Hsaved at 1. destruct s3; reflexivity. }
  destruct (seed_users_spec pw_hash'
              {| saved := current s3; current := current s3 |})
    as (t1 & Ht1 & _ & _ & _ & _ & Hsame1 & _).
  rewrite (Hsame1 Hu), Hs3 in Ht1.
  destruct (seed_categories_spec s3) as (t2 & Ht2 & _ & _ & _ & Hsame2 & _).
  rewrite (Hsame2 Hc) in Ht2.
  rewrite Hs3 in Hsame1.
  rewrite (init_db_compose pw_hash' s3 s3 s3); [|rewrite Hs3; exact Ht1|exact Ht2].
  apply seed_products_skip, Hp.
Qed.

Lemma init_db_idempotent_witness :
  init_db "bcrypt2" seeded_session = (seeded_session, Returns tt).
Proof.
  apply (init_db_idempotent "bcrypt" "bcrypt2" fresh_session seeded_session).
  vm_compute. reflexivity.
Defined.

Lemma category_map_in st name k :
  category_map st name = Some k -> In k (map c_id (categories st)).
Proof.
  unfold category_map.
  destruct (find _ (categories st)) as [c|] eqn:E; [|discriminate].
  intros H. inversion H; subst. apply find_some in E. apply in_map, E.
Qed.

Lemma category_map_named st name :
  In name (map c_name (categories st)) -> category_map st name <> None.
Proof.
  intros Hin. apply in_map_iff in Hin. destruct Hin as (c & Hc & Hin).
  unfold category_map.
  destruct (find (fun k => String.eqb (c_name k) name) (categories st))
    as [c'|] eqn:E; [discriminate|].
  pose proof (find_none _ _ E c Hin) as Hn. cbn beta in Hn.
  rewrite Hc, String.eqb_refl in Hn. discriminate.
Qed.

Lemma sample_category_listed sm :
  In sm sample_products -> In (sm_category sm) sample_categories.
Proof.
  intros Hin. pose proof sample_products_checked as Hc.
  rewrite forallb_forall in Hc. specialize (Hc sm Hin).
  apply andb_true_iff in Hc. destruct Hc as [_ Hc].
  apply existsb_exists in Hc. destruct Hc as (n & Hn & Heq).
  apply String.eqb_eq in Heq. rewrite Heq. exact Hn.
Qed.

Lemma sample_category_used name :
  In name sample_categories ->
  exists sm, In sm sample_products /\ sm_category sm = name.
Proof.
  intros Hin.
  assert (Hc : forallb (fun n => existsb (fun sm => String.eqb (sm_category sm) n)
                                         sample_products)
                       sample_categories = true)
    by (vm_compute; reflexivity).
  rewrite forallb_forall in Hc. specialize (Hc name Hin).
  apply existsb_exists in Hc. destruct Hc as (sm & Hsm & Heq).
  apply String.eqb_eq in Heq. exists sm. split; assumption.
Qed.

(** X21.  On a database without products whose categories are empty
    or hold every sample name, [init_db] returns after inserting the sample
    products, 61 of them, each with a positive quantity, and writes no
    adjustment and no sale; on a ledger without adjustments and sales the
    seeded products therefore break the accounting identity. *)
Theorem init_db_seeds_unaccounted :
  forall (pw_hash : string) (s : Session),
    products (ledger (current s)) = [] ->
    categories (current s) = []
    \/ (forall name, In name sample_categories ->
                     category_map (current s) name <> None) ->
    exists s',
      init_db pw_hash s = (s', Returns tt)
      /\ List.length (products (ledger (current s'))) = 61%nat
      /\ Forall (fun p => 0 < p_quantity p) (products (ledger (current s')))
      /\ stock_adjustments (ledger (current s'))
         = stock_adjustments (ledger (current s))
      /\ sales (ledger (current s')) = sales (ledger (current s))
      /\ (categories (current s) = [] ->
          map c_name (categories (current s')) = sample_categories)
      /\ (stock_adjustments (ledger (current s)) = [] ->
          sales (ledger (current s)) = [] ->
          ~ accounting (ledger (current s'))).
Proof.
  intros pw_hash s Hprod Hcat.
  destruct (seed_users_spec pw_hash
              {| saved := current s; current := current s |})
    as (s1 & H1 & Hc1 & Hl1 & _). cbn [current] in *.
  destruct (seed_categories_spec s1) as (s2 & H2 & _ & Hl2 & _ & Hc2 & Hc2').
  assert (Hlookup : forall name, In name sample_categories ->
                                 category_map (current s2) name <> None).
  { destruct Hcat as [Hnil|Hall].
    - intros name Hin. apply category_map_named.
      rewrite Hnil in Hc1. destruct (Hc2' Hc1) as [_ ->]. exact Hin.
    - assert (Hne : categories (current s1) <> []).
      { rewrite Hc1. intros Hnil.
        apply (Hall "Analgesics"); [left; reflexivity|].
        unfold category_map. rewrite Hnil. reflexivity. }
      rewrite (Hc2 Hne). intros name Hin. unfold category_map.
      rewrite Hc1. exact (Hall name Hin). }
  destruct (sample_rows_total (category_map (current s2)) sample_products)
    as (rows & Hrows).
  { intros sm Hin. apply Hlookup, sample_category_listed, Hin. }
  assert (Hp2 : products (ledger (current s2)) = []) by congruence.
  rewrite (init_db_compose _ _ _ _ H1 H2), (seed_products_run _ Hp2), Hrows.
  cbv zeta. eexists. split; [reflexivity|].
  cbn [current with_ledger ledger categories].
  destruct (sample_rows_clean _ _ Hrows) as (Hnan & Hpos & Hlen).
  destruct (insert_samples_spec rows (ledger (current s2)) Hnan)
    as (Hs & Ha & new & Hp & Hmap).
  rewrite Hp, Hp2 in *. cbn [app] in *.
  assert (Hnewlen : List.length new = 61%nat).
  { rewrite <- Hlen. apply (f_equal (@List.length _)) in Hmap.
    rewrite !length_map in Hmap. exact Hmap. }
  assert (Hnewpos : Forall (fun p => 0 < p_quantity p) new).
  { clear - Hmap Hpos. revert new Hmap.
    induction Hpos as [|row rows Hrow _ IH]; intros [|p new] Hmap;
      try discriminate; constructor.
    - cbn [map] in Hmap. injection Hmap as _ _ Hq _. rewrite Hq. exact Hrow.
    - apply IH. cbn [map] in Hmap. injection Hmap as _ _ _ Hrest. exact Hrest. }
  split; [exact Hnewlen|]. split; [exact Hnewpos|].
  split; [congruence|]. split; [congruence|]. split.
  - intros Hnil. rewrite Hnil in Hc1. exact (proj2 (Hc2' Hc1)).
  - intros Hadj Hsales Hacc.
    destruct new as [|p new']; [discriminate|].
    inversion Hnewpos as [|? ? Hq _]; subst.
    specialize (Hacc p). rewrite Hp in Hacc.
    specialize (Hacc (or_introl eq_refl)).
    unfold adjusted, sold in Hacc. rewrite Ha, Hs, Hl2, Hl1, Hadj, Hsales in Hacc.
    cbn in Hacc. lia.
Qed.

Lemma init_db_seeds_unaccounted_witness :
  exists s',
    init_db "bcrypt" fresh_session = (s', Returns tt)
    /\ List.length (products (ledger (current s'))) = 61%nat
    /\ ~ accounting (ledger (current s')).
Proof.
  destruct (init_db_seeds_unaccounted "bcrypt" fresh_session eq_refl
              (or_introl eq_refl))
    as (s' & H1 & H2 & _ & _ & _ & _ & H7).
  exists s'. split; [exact H1|]. split; [exact H2|].
  exact (H7 eq_refl eq_refl).
Defined.

(** X22.  On a database without products whose categories are not
    empty but lack a sample name, [init_db] raises KeyError for a sample name
    that is missing, inserts no product, and raises the same KeyError on every
    later call. *)
Theorem init_db_missing_category :
  forall (pw_hash : string) (s : Session) (name : string),
    products (ledger (current s)) = [] ->
    categories (current s) <> [] ->
    In name sample_categories ->
    category_map (current s) name = None ->
    exists key s',
      init_db pw_hash s = (s', Raises (KeyError key))
      /\ In key sample_categories
      /\ category_map (current s') key = None
      /\ ledger (current s') = ledger (current s)
      /\ categories (current s') = categories (current s)
      /\ forall pw_hash',
           init_db pw_hash' s' = (s', Raises (KeyError key)).
Proof.
  intros pw_hash s name Hprod Hcat Hname Hnone.
  destruct (sample_category_used name Hname) as (sm & Hsm & Hsmc).
  destruct (sample_rows_missing (category_map (current s)) sample_products sm
              Hsm) as (key & Hrows); [rewrite Hsmc; exact Hnone|].
  destruct (sample_rows_inl _ _ _ Hrows) as (Hk1 & Hk2).
  apply in_map_iff in Hk2. destruct Hk2 as (sm' & Hsm' & Hin').
  assert (Hkey : forall pw s0,
            products (ledger (current s0)) = [] ->
            categories (current s0) = categories (current s) ->
            exists s',
              init_db pw s0 = (s', Raises (KeyError key))
              /\ ledger (current s') = ledger (current s0)
              /\ categories (current s') = categories (current s0)
              /\ users (current s') <> []
              /\ (users (current s0) <> [] ->
                  s' = {| saved := current s0; current := current s0 |})).
  { intros pw s0 Hp0 Hc0.
    destruct (seed_users_spec pw
                {| saved := current s0; current := current s0 |})
      as (s1 & H1 & Hc1 & Hl1 & _ & Hu1 & Hsame1 & _). cbn [current] in *.
    destruct (seed_categories_spec s1) as (s2 & H2 & _ & _ & _ & Hc2 & _).
    assert (Hne : categories (current s1) <> []) by congruence.
    rewrite (Hc2 Hne) in H2. clear Hc2.
    assert (Hp1 : products (ledger (current s1)) = []) by congruence.
    rewrite (init_db_compose _ _ _ _ H1 H2), (seed_products_run _ Hp1).
    unfold category_map at 1. rewrite Hc1, Hc0.
    fold (category_map (current s)). rewrite Hrows.
    exists s1. split; [reflexivity|]. split; [exact Hl1|].
    split; [congruence|]. split; [exact Hu1|exact Hsame1]. }
  destruct (Hkey pw_hash s Hprod eq_refl) as (s' & Hrun & Hl & Hc & Hu & _).
  exists key, s'. split; [exact Hrun|].
  split; [rewrite <- Hsm'; apply sample_category_listed, Hin'|].
  split; [unfold category_map; rewrite Hc; exact Hk1|].
  split; [exact Hl|]. split; [exact Hc|].
  intros pw_hash'.
  pose proof (init_db_settles _ _ _ _ Hrun) as Hsaved.
  destruct (Hkey pw_hash' s') as (s'' & Hrun' & _ & _ & _ & Hsame);
    [congruence|exact Hc|].
  rewrite Hrun', (Hsame Hu). rewrite <- Hsaved at 1.
  destruct s'; reflexivity.
Qed.

Lemma init_db_missing_category_witness :
  exists key s',
    init_db "bcrypt" other_session = (s', Raises (KeyError key))
    /\ In key sample_categories.
Proof.
  assert (Hc : categories (current other_session) <> [])
    by (vm_compute; discriminate).
  destruct (init_db_missing_category "bcrypt" other_session "Analgesics"
              eq_refl Hc (or_introl eq_refl) eq_refl)
    as (key & s' & H1 & H2 & _).
  exists key, s'. split; [exact H1|exact H2].
Defined.

(** ** Products keep naming categories that exist *)

Lemma add_user_referenced username password pw_hash full_name role s :
  both_stores categories_referenced s ->
  both_stores categories_referenced
    (fst (add_user username password pw_hash full_name role s)).
Proof.
  intros Hs. unfold add_user.
  destruct (String.eqb (strip username) "" || String.eqb password "");
    [exact Hs|].
  destruct (negb _); [exact Hs|]. run_adm. unfold insert_user.
  destruct (existsb _ (users (current s))); [exact Hs|].
  cbn [current saved fst]. split; exact (proj2 Hs).
Qed.

Lemma change_user_password_referenced user_id new_password pw_hash s :
  both_stores categories_referenced s ->
  both_stores categories_referenced
    (fst (change_user_password user_id new_password pw_hash s)).
Proof.
  intros Hs. unfold change_user_password.
  destruct (String.eqb new_password ""); [exact Hs|]. run_adm.
  cbn [current saved].
  destruct (count_where _ _ =? 0); cbn [fst]; split; cbn [saved current];
    try exact (proj2 Hs); exact (proj1 Hs).
Qed.

Lemma update_user_referenced user_id full_name role s :
  both_stores categories_referenced s ->
  both_stores categories_referenced (fst (update_user user_id full_name role s)).
Proof.
  intros Hs. unfold update_user.
  destruct (negb _); [exact Hs|]. run_adm. cbn [current saved].
  destruct (count_where _ _ =? 0); cbn [fst]; split; cbn [saved current];
    try exact (proj2 Hs); exact (proj1 Hs).
Qed.

Lemma delete_user_referenced user_id s :
  both_stores categories_referenced s ->
  both_stores categories_referenced (fst (delete_user user_id s)).
Proof.
  intros Hs. unfold delete_user. run_adm. cbn [current saved].
  destruct (count_where _ _ =? 0); cbn [fst]; split; cbn [saved current];
    try exact (proj2 Hs); exact (proj1 Hs).
Qed.

Lemma add_category_referenced name s :
  both_stores categories_referenced s ->
  both_stores categories_referenced (fst (add_category name s)).
Proof.
  intros Hs. unfold add_category.
  destruct (String.eqb (strip name) ""); [exact Hs|]. run_adm.
  unfold insert_category.
  destruct (existsb _ (categories (current s))); [exact Hs|].
  cbn [current saved fst].
  assert (H : categories_referenced
                {| ledger := ledger (current s);
                   categories :=
                     categories (current s)
                     ++ [{| c_id := next_rowid (seq_categories (current s))
                                      (map c_id (categories (current s)));
                            c_name := strip name |}];
                   users := users (current s);
                   seq_categories :=
                     next_rowid (seq_categories (current s))
                       (map c_id (categories (current s)));
                   seq_users := seq_users (current s) |}).
  { apply (categories_referenced_ids (current s)); [reflexivity| |exact (proj2 Hs)].
    intros k Hk. cbn [categories]. rewrite map_app. apply in_or_app.
    left. exact Hk. }
  split; exact H.
Qed.

Lemma update_category_referenced category_id new_name s :
  both_stores categories_referenced s ->
  both_stores categories_referenced
    (fst (update_category category_id new_name s)).
Proof.
  intros Hs. unfold update_category.
  destruct (String.eqb (strip new_name) ""); [exact Hs|]. run_adm.
  unfold rename_category.
  destruct (existsb _ _ && existsb _ _); [exact Hs|]. cbn [current saved].
  assert (H : categories_referenced
                (with_categories
                   (map (fun k => if c_id k =? category_id
                                  then {| c_id := c_id k;
                                          c_name := strip new_name |}
                                  else k)) (current s))).
  { apply (categories_referenced_ids (current s)); [reflexivity| |exact (proj2 Hs)].
    intros k Hk. unfold with_categories. cbn [categories].
    rewrite rename_category_ids. exact Hk. }
  destruct (count_where _ _ =? 0); cbn [fst]; split; cbn [saved current];
    try exact H; exact (proj1 Hs).
Qed.

Lemma delete_category_referenced category_id s :
  both_stores categories_referenced s ->
  both_stores categories_referenced (fst (delete_category category_id s)).
Proof.
  intros Hs. unfold delete_category. run_adm.
  destruct (0 <? count_where (names_category category_id)
                   (products (ledger (current s)))) eqn:Ecnt; [exact Hs|].
  cbn [current saved].
  assert (H : categories_referenced
                (with_categories
                   (filter (fun k => negb (c_id k =? category_id)))
                   (current s))).
  { intros p k Hin Hk. unfold with_categories in *.
    cbn [ledger categories] in *.
    pose proof (proj2 Hs p k Hin Hk) as Hold.
    apply in_map_iff in Hold. destruct Hold as (c & Hc & Hcin).
    apply in_map_iff. exists c. split; [exact Hc|]. apply filter_In.
    split; [exact Hcin|]. apply negb_true_iff, Z.eqb_neq. intros Heq.
    assert (Hpos : (count_where (names_category category_id)
                      (products (ledger (current s))) =? 0) = false).
    { apply count_where_pos. exists p. split; [exact Hin|].
      unfold names_category. rewrite Hk. lia. }
    apply Z.ltb_ge in Ecnt. apply Z.eqb_neq in Hpos.
    unfold count_where in *. lia. }
  destruct (count_where _ (categories (current s)) =? 0); cbn [fst]; split;
    cbn [saved current]; try exact H; exact (proj1 Hs).
Qed.

Lemma init_db_referenced pw_hash s :
  both_stores categories_referenced s ->
  both_stores categories_referenced (fst (init_db pw_hash s)).
Proof.
  intros Hs.
  destruct (seed_users_spec pw_hash
              {| saved := current s; current := current s |})
    as (s1 & H1 & Hc1 & Hl1 & _). cbn [current] in *.
  destruct (seed_categories_spec s1) as (s2 & H2 & _ & Hl2 & _ & Hc2 & _).
  rewrite (init_db_compose _ _ _ _ H1 H2).
  assert (Hids : forall k, In k (map c_id (categories (current s))) ->
                           In k (map c_id (categories (current s2)))).
  { intros k Hk. destruct (categories (current s1)) as [|c cs] eqn:E.
    - rewrite <- Hc1 in Hk. destruct Hk.
    - rewrite Hc2 by discriminate. rewrite E, Hc1. exact Hk. }
  assert (H2ref : categories_referenced (current s2)).
  { apply (categories_referenced_ids (current s)); [congruence|exact Hids|].
    exact (proj2 Hs). }
  assert (Hsaved2 : categories_referenced (saved s2)).
  { rewrite (seed_tables_settled _ _ _ _ H1 H2). exact H2ref. }
  destruct (products (ledger (current s2))) as [|p ps] eqn:Ep.
  - rewrite (seed_products_run _ Ep).
    destruct (sample_rows (category_map (current s2)) sample_products)
      as [key|rows] eqn:Er; cbn [fst]; [split; assumption|].
    cbv zeta. cbn [fst].
    assert (H : categories_referenced
                  (with_ledger (insert_samples rows) (current s2))).
    { destruct (sample_rows_clean _ _ Er) as (Hnan & _ & _).
      destruct (insert_samples_spec rows (ledger (current s2)) Hnan)
        as (_ & _ & new & Hp & Hmap).
      destruct (sample_rows_inr _ _ _ Er) as (_ & Hlook).
      intros q k Hin Hk. unfold with_ledger in *. cbn [ledger categories] in *.
      rewrite Hp, Ep in Hin. cbn [app] in Hin.
      assert (Hex : exists row, In row rows /\ p_category_id q = Some (snd row)).
      { clear - Hin Hmap. revert new Hin Hmap.
        induction rows as [|row rows IH]; intros [|p new] Hin Hmap;
          try discriminate; [destruct Hin|].
        cbn [map] in Hmap. injection Hmap as _ Hcat _ Hrest.
        destruct Hin as [<-|Hin].
        - exists row. split; [left; reflexivity|exact Hcat].
        - destruct (IH new Hin Hrest) as (row' & Hr & Hc).
          exists row'. split; [right; exact Hr|exact Hc]. }
      destruct Hex as (row & Hrow & Hcat). rewrite Hcat in Hk.
      inversion Hk; subst k. rewrite Forall_forall in Hlook.
      exact (category_map_in _ _ _ (Hlook row Hrow)). }
    split; exact H.
  - rewrite seed_products_skip by (rewrite Ep; discriminate).
    cbn [fst]. split; assumption.
Qed.

(** X23.  No function on the categories or the users, [init_db]
    included, leaves a product naming a category that does not exist, when no
    product did before: [delete_category] is refused for a category in use,
    and the sample products name categories that were looked up. *)
Theorem categories_stay_referenced :
  forall (op : admin_call) (s : Session),
    both_stores categories_referenced s ->
    both_stores categories_referenced (administer op s).
Proof.
  intros op s Hs. destruct op; cbn [administer].
  - apply add_user_referenced, Hs.
  - apply change_user_password_referenced, Hs.
  - apply update_user_referenced, Hs.
  - apply delete_user_referenced, Hs.
  - apply add_category_referenced, Hs.
  - apply update_category_referenced, Hs.
  - apply delete_category_referenced, Hs.
  - apply init_db_referenced, Hs.
Qed.

Lemma categories_stay_referenced_witness :
  both_stores categories_referenced (administer (InitDb "bcrypt") fresh_session).
Proof.
  apply (categories_stay_referenced (InitDb "bcrypt") fresh_session).
  split; intros p k [].
Defined.

(** ** The cart of the sales page *)

Lemma update_existing_ids pid new_qty d cart :
  map k_product_id (update_existing pid new_qty d cart) = map k_product_id cart.
Proof.
  induction cart as [|l cart IH]; [reflexivity|]. cbn [update_existing].
  destruct (k_product_id l =? pid); cbn [map k_product_id];
    [reflexivity|rewrite IH; reflexivity].
Qed.

Lemma update_existing_fits db pid new_qty d cart :
  1 <= new_qty ->
  (exists q, quantity_of pid db = Some q /\ new_qty <= q) ->
  Forall (fun l => 1 <= k_qty l
                   /\ exists q, quantity_of (k_product_id l) db = Some q
                                /\ k_qty l <= q) cart ->
  Forall (fun l => 1 <= k_qty l
                   /\ exists q, quantity_of (k_product_id l) db = Some q
                                /\ k_qty l <= q)
         (update_existing pid new_qty d cart).
Proof.
  intros H1 Hq. induction 1 as [|l cart Hl Hrest IH]; [constructor|].
  cbn [update_existing]. destruct (k_product_id l =? pid) eqn:E.
  - constructor; [|exact Hrest]. cbn [k_qty k_product_id].
    apply Z.eqb_eq in E. rewrite E. split; assumption.
  - constructor; assumption.
Qed.

(** X25.  The "Add to Cart" handler of the sales page keeps the cart
    within the stock it is shown: no product gets two lines, and no line asks
    for less than one unit or for more than the product holds, whatever
    product, quantity (at least 1, as the widget gives) and discount are
    entered. *)
Theorem cart_stays_within_stock :
  forall (prod_map : string -> option Stocked) (db : DB)
         (cart : list CartLine) (product_name : string) (qty : Z)
         (discount_pct : float),
    shows_stock prod_map db ->
    1 <= qty ->
    cart_fits db cart ->
    cart_fits db (fst (add_to_cart prod_map cart product_name qty discount_pct)).
Proof.
  intros prod_map db cart product_name qty discount_pct Hshow Hqty [Hnd Hall].
  unfold add_to_cart.
  destruct (prod_map product_name) as [entry|] eqn:Ep; [|split; assumption].
  cbv zeta. pose proof (Hshow _ _ Ep) as Hstock.
  destruct (find (fun item => k_product_id item =? e_id entry) cart)
    as [existing|] eqn:Ef.
  - destruct (e_quantity entry <? k_qty existing + qty) eqn:El;
      [split; assumption|].
    cbn [fst]. apply Z.ltb_ge in El. split.
    + rewrite update_existing_ids. exact Hnd.
    + apply update_existing_fits; [|eexists; split; [exact Hstock|exact El]|
                                   exact Hall].
      apply find_some in Ef. destruct Ef as [Hin _].
      rewrite Forall_forall in Hall. destruct (Hall _ Hin) as [H1 _]. lia.
  - destruct (e_quantity entry <? qty) eqn:El; [split; assumption|].
    cbn [fst]. apply Z.ltb_ge in El. split.
    + rewrite map_app. cbn [map k_product_id]. apply NoDup_snoc; [exact Hnd|].
      intros Hin. apply in_map_iff in Hin. destruct Hin as (l & Hl & Hin).
      pose proof (find_none _ _ Ef l Hin) as Hn. cbn beta in Hn. lia.
    + apply Forall_app. split; [exact Hall|]. constructor; [|constructor].
      cbn [k_qty k_product_id]. split; [exact Hqty|].
      eexists. split; [exact Hstock|exact El].
Qed.

Lemma cart_stays_within_stock_witness :
  cart_fits (working (stocked_conn 10))
            (fst (add_to_cart sample_prod_map sample_cart "Ibuprofen 200mg" 4
                              (of_ratio false 10 1))).
Proof.
  apply (cart_stays_within_stock sample_prod_map (working (stocked_conn 10))
           sample_cart "Ibuprofen 200mg" 4 (of_ratio false 10 1)).
  - intros name entry. unfold sample_prod_map.
    destruct (String.eqb name "Ibuprofen 200mg"); [|discriminate].
    intros H. injection H as <-. reflexivity.
  - lia.
  - split; [repeat constructor; intros []|].
    constructor; [|constructor].
    split; [vm_compute; discriminate|].
    exists 10. split; [reflexivity|vm_compute; discriminate].
Defined.

Lemma cart_demand pid (cart : list CartLine) :
  ~ In pid (map k_product_id cart) ->
  demand pid (map cart_item cart) = 0.
Proof.
  intros H. apply demand_absent. intros item Hin Hid.
  apply in_map_iff in Hin. destruct Hin as (l & Hl & Hin). subst item.
  apply H. apply in_map_iff. exists l. split; [exact Hid|exact Hin].
Qed.

Lemma cart_in_stock db cart :
  cart_fits db cart -> in_stock db (map cart_item cart).
Proof.
  intros [Hnd Hall]. induction cart as [|l cart IH]; [intros ? []|].
  cbn [map] in *. inversion Hnd as [|? ? Hl Hnd']; subst.
  inversion Hall as [|? ? Hfit Hall']; subst.
  intros item [<-|Hin].
  - destruct Hfit as (_ & q & Hq & Hle). exists q. split; [exact Hq|].
    rewrite demand_cons. cbn [cart_item i_product_id i_qty].
    rewrite Z.eqb_refl, (cart_demand _ _ Hl). lia.
  - destruct (IH Hnd' Hall' item Hin) as (q & Hq & Hle).
    exists q. split; [exact Hq|]. rewrite demand_cons.
    cbn [cart_item i_product_id i_qty].
    destruct (k_product_id l =? i_product_id item) eqn:E; [|lia].
    exfalso. apply Hl. apply Z.eqb_eq in E. rewrite E.
    apply in_map_iff in Hin. destruct Hin as (l' & Hl' & Hin). subst item.
    cbn [cart_item i_product_id]. apply (in_map k_product_id), Hin.
Qed.

Lemma cart_fits_split db (pre : list CartLine) l post :
  cart_fits db (pre ++ l :: post) ->
  ~ In (k_product_id l) (map k_product_id pre)
  /\ exists q, quantity_of (k_product_id l) db = Some q /\ k_qty l <= q.
Proof.
  intros [Hnd Hall]. split.
  - rewrite map_app in Hnd. cbn [map] in Hnd. apply NoDup_remove_2 in Hnd.
    intros Hin. apply Hnd. apply in_or_app. left. exact Hin.
  - rewrite Forall_forall in Hall.
    destruct (Hall l) as (_ & Hq); [apply in_or_app; right; left; reflexivity|].
    exact Hq.
Qed.

(** X26.  A cart within stock passes the stock checks of
    [record_sale]: the sale returns when the cart is not empty and every line
    has a total that is not negative, and whatever error it raises is neither
    a missing product nor insufficient stock. *)
Theorem cart_passes_stock_checks :
  forall (invoice : string) (sold_by : option Z) (cart : list CartLine)
         (c : Conn),
    cart_fits (working c) cart ->
    (cart <> [] -> Forall well_formed (map cart_item cart) ->
     exists c' total,
       record_sale invoice (map cart_item cart) sold_by c = (c', Ok total))
    /\ (forall c' e,
          record_sale invoice (map cart_item cart) sold_by c = (c', Raise e) ->
          kind_of e <> NotFound /\ kind_of e <> InsufficientStock).
Proof.
  intros invoice sold_by cart c Hfits. split.
  - intros Hne Hwf.
    assert (Hne' : map cart_item cart <> []).
    { destruct cart; [contradiction|discriminate]. }
    destruct (record_sale_in_stock invoice sold_by _ c Hne' Hwf)
      as [_ H]. apply H, cart_in_stock, Hfits.
  - intros c' e H.
    pose proof (record_sale_result _ _ _ _ _ _ H) as Hres. cbv beta iota in Hres.
    destruct Hres as [(_ & -> & _)|(_ & _ & pre & item & post & ts & db1
                                    & Hitems & Hacc & Hline)];
      [split; discriminate|].
    (* the line that raised is a line of the cart, and its product has not
       been sold by the lines before it *)
    apply map_eq_app in Hitems.
    destruct Hitems as (kpre & krest & Hcart & Hpre & Hrest).
    destruct krest as [|l kpost]; [discriminate|].
    cbn [map] in Hrest. injection Hrest as Hitem Hpost. subst cart.
    destruct (cart_fits_split _ _ _ _ Hfits) as (Hfresh & q & Hq & Hle).
    assert (Hq1 : quantity_of (i_product_id item) db1 = Some q).
    { rewrite <- Hitem. cbn [cart_item i_product_id].
      rewrite (accepted_quantity _ _ _ _ _ _ _ _ Hacc Hq).
      rewrite <- Hpre, (cart_demand _ _ Hfresh). f_equal. lia. }
    destruct (quantity_of_select _ _ _ Hq1) as (r & Hsel & Hr).
    assert (Hqty : i_qty item <= p_quantity r).
    { rewrite <- Hitem, Hr. cbn [cart_item i_qty]. exact Hle. }
    revert Hline. unfold sale_line.
    destruct (final_total_of _ _ _) as [t|];
      [|intros E; inversion E; split; discriminate].
    destruct (i_qty item <=? 0); [intros E; inversion E; split; discriminate|].
    destruct (fltb t zero); [intros E; inversion E; split; discriminate|].
    run_py. cbn [working]. rewrite Hsel.
    apply Z.ltb_ge in Hqty. rewrite Hqty. unfold insert_sale.
    destruct (is_nan _ || is_nan _ || is_nan _ || is_nan _);
      [intros E; inversion E; split; discriminate|].
    run_py. discriminate.
Qed.

Lemma cart_passes_stock_checks_witness :
  exists c' total,
    record_sale "INV-X" (map cart_item sample_cart) (Some 1) (stocked_conn 10)
    = (c', Ok total).
Proof.
  assert (Hfits : cart_fits (working (stocked_conn 10)) sample_cart).
  { split; [repeat constructor; intros []|].
    constructor; [|constructor].
    split; [vm_compute; discriminate|].
    exists 10. split; [reflexivity|vm_compute; discriminate]. }
  apply (proj1 (cart_passes_stock_checks "INV-X" (Some 1) sample_cart
                  (stocked_conn 10) Hfits)).
  - discriminate.
  - constructor; [|constructor].
    split; [vm_compute; reflexivity|]. eexists.
    split; [vm_compute; reflexivity|]. split; vm_compute; reflexivity.
Defined.

(** ** The name behind a selected option *)

Lemma before_paren_app_paren name rest :
  has_paren name = false ->
  before_paren (name ++ " (" ++ rest) = name.
Proof.
  induction name as [|c name IH]; intros H; [reflexivity|].
  cbn [String.append before_paren].
  destruct name as [|d name'].
  - cbn [String.append]. change (" (" ++ rest)%string with (String " " (String "(" rest)).
    cbn [String.append].
    destruct (Ascii.eqb c " " && Ascii.eqb " " "(") eqn:E.
    + apply andb_true_iff in E. destruct E as [_ E]. discriminate.
    + f_equal.
  - cbn [String.append] in *. cbn [has_paren] in H.
    apply orb_false_elim in H. destruct H as [H1 H2].
    rewrite H1. f_equal. apply IH. exact H2.
Qed.

Lemma before_paren_shorter s :
  has_paren s = true ->
  forall rest,
    (String.length (before_paren (s ++ rest)) < String.length s)%nat.
Proof.
  induction s as [|c s IH]; [discriminate|]. intros H rest.
  cbn [has_paren] in H. destruct s as [|d s']; [discriminate|].
  cbn [String.append].
  change (before_paren (String c (String d (s' ++ rest))))
    with (if Ascii.eqb c " " && Ascii.eqb d "(" then EmptyString
          else String c (before_paren (String d (s' ++ rest)))).
  destruct (Ascii.eqb c " " && Ascii.eqb d "(") eqn:E.
  - cbn [String.length]. lia.
  - cbn [orb] in H. specialize (IH H rest).
    cbn [String.append] in IH.
    change (String.length (String c (before_paren (String d (s' ++ rest)))))
      with (S (String.length (before_paren (String d (s' ++ rest))))).
    change (String.length (String c (String d s')))
      with (S (String.length (String d s'))).
    lia.
Qed.

(** X27.  The sales page recovers the product name from the selected
    option, name followed by " (Stock: ...", exactly when the name contains
    no " (": otherwise the text it looks up is strictly shorter than the
    name. *)
Theorem selected_name_round_trip :
  forall (name rest : string),
    (has_paren name = false ->
     before_paren (name ++ " (" ++ rest) = name)
    /\ (has_paren name = true ->
        (String.length (before_paren (name ++ " (" ++ rest))
         < String.length name)%nat).
Proof.
  intros name rest. split.
  - apply before_paren_app_paren.
  - intros H. exact (before_paren_shorter name H (" (" ++ rest)%string).
Qed.

Lemma selected_name_round_trip_witness :
  before_paren ("Ibuprofen 200mg" ++ " (" ++ "Stock: 10, Price: $5.99)")
  = "Ibuprofen 200mg"
  /\ (String.length (before_paren ("Vitamin C (chewable)" ++ " ("
                                   ++ "Stock: 10, Price: $5.99)"))
      < String.length "Vitamin C (chewable)")%nat.
Proof.
  split.
  - apply (proj1 (selected_name_round_trip "Ibuprofen 200mg"
                    "Stock: 10, Price: $5.99)")).
    reflexivity.
  - apply (proj2 (selected_name_round_trip "Vitamin C (chewable)"
                    "Stock: 10, Price: $5.99)")).
    reflexivity.
Defined.
